(** * Favourites service: asset validation, in-memory repository, service layer

    A shallow embedding of the Go packages [models], [repo] and [service] of
    platform-go-challenge, with the parts of the Go standard library they
    call ([strings.TrimSpace], [regexp], [encoding/json], [sort.Slice],
    [math/rand]) modelled next to them.

    Go strings and byte slices are sequences of bytes: both are [string]
    here, one [ascii] per byte.  Pointers to favourites are locations in an
    explicit object heap, so that the sharing between the repository's map
    and the records handed back to callers is visible. *)

From Stdlib Require Import ZArith NArith Ascii String List Permutation Sorted Lia.
From stdpp Require Import base option list gmap strings fin_maps sorting.

Local Open Scope N_scope.

(** ** Bytes *)

Definition code (c : ascii) : N := N_of_ascii c.
Definition chr (n : N) : ascii := ascii_of_N n.

Definition between (lo hi : N) (c : ascii) : bool :=
  (lo <=? code c) && (code c <=? hi).

Definition str1 (c : ascii) : string := String c EmptyString.

Definition rev_string (s : string) : string :=
  string_of_list_ascii (rev (list_ascii_of_string s)).

Fixpoint forallb_string (p : ascii -> bool) (s : string) : bool :=
  match s with
  | EmptyString => true
  | String c r => p c && forallb_string p r
  end.

(** ** Package strings *)

Module Strings.

(** The table [asciiSpace] of package strings: tab, newline, vertical tab,
    form feed, carriage return and space. *)
Definition asciiSpace (c : ascii) : bool :=
  between 9 13 c || (code c =? 32).

(** [unicode.IsSpace] on the runes that take two bytes in UTF-8:
    U+0085 (C2 85) and U+00A0 (C2 A0). *)
Definition isSpace2 (a b : ascii) : bool :=
  (code a =? 194) && ((code b =? 133) || (code b =? 160)).

(** [unicode.IsSpace] on the runes that take three bytes: U+1680,
    U+2000..U+200A, U+2028, U+2029, U+202F, U+205F and U+3000. *)
Definition isSpace3 (a b c : ascii) : bool :=
  ((code a =? 225) && (code b =? 154) && (code c =? 128))
  || ((code a =? 226) && (code b =? 128)
      && (between 128 138 c || (code c =? 168) || (code c =? 169) || (code c =? 175)))
  || ((code a =? 226) && (code b =? 129) && (code c =? 159))
  || ((code a =? 227) && (code b =? 128) && (code c =? 128)).

(** Drop white-space runes from the front.  With [back = true] the string is
    read last byte first, as [TrimRightFunc] does with
    [utf8.DecodeLastRuneInString]: an encoding then shows up reversed. *)
Fixpoint trimFront (back : bool) (s : string) : string :=
  match s with
  | EmptyString => EmptyString
  | String a r1 =>
    if asciiSpace a then trimFront back r1 else
    match r1 with
    | EmptyString => s
    | String b r2 =>
      if (if back then isSpace2 b a else isSpace2 a b) then trimFront back r2 else
      match r2 with
      | EmptyString => s
      | String c r3 =>
        if (if back then isSpace3 c b a else isSpace3 a b c)
        then trimFront back r3 else s
      end
    end
  end.

(** [strings.TrimSpace]: leading white space is cut, then trailing. *)
Definition TrimSpace (s : string) : string :=
  rev_string (trimFront true (rev_string (trimFront false s))).

(** [trimLeftByte] and [trimRightByte]: the bytes equal to [c] are cut from
    the one end. *)
Fixpoint trimLeftByte (s : string) (c : ascii) : string :=
  match s with
  | EmptyString => EmptyString
  | String a r => if Ascii.eqb a c then trimLeftByte r c else s
  end.

Definition trimRightByte (s : string) (c : ascii) : string :=
  rev_string (trimLeftByte (rev_string s) c).

(** [strings.Trim(s, cutset)] where the cutset is the one ASCII byte [c],
    the case that the library answers with
    [trimLeftByte(trimRightByte(s, c), c)]. *)
Definition Trim (s : string) (c : ascii) : string :=
  trimLeftByte (trimRightByte s c) c.

(** [strings.Split(s, sep)] where the separator is the one byte [c]: the
    pieces between the occurrences of [c], one more than there are
    occurrences; the empty string gives one empty piece. *)
Fixpoint Split (s : string) (c : ascii) : list string :=
  match s with
  | EmptyString => [EmptyString]
  | String a r =>
    if Ascii.eqb a c then EmptyString :: Split r c
    else match Split r c with
         | x :: xs => String a x :: xs
         | [] => [str1 a]
         end
  end.

Definition isASCII (s : string) : bool :=
  forallb_string (fun c => code c <? 128) s.

Fixpoint lowerASCII (s : string) : string :=
  match s with
  | EmptyString => EmptyString
  | String a r => String (if between 65 90 a then chr (code a + 32) else a) (lowerASCII r)
  end.

(** [strings.ToLower]: a string of ASCII bytes has its letters A..Z
    lowered byte by byte; any other string goes through
    [Map(unicode.ToLower, s)], which is the parameter [mapLower] here (the
    case tables of package unicode are not part of this development). *)
Definition ToLower (mapLower : string -> string) (s : string) : string :=
  if isASCII s then lowerASCII s else mapLower s.

End Strings.

(** ** Package strconv *)

Module Strconv.

(** A decimal literal as the JSON grammar admits it: sign, integer digits,
    fraction digits, and exponent (sign and digits) when there is one. *)
Record numlit := mkNum {
  neg : bool;
  ipart : string;
  fpart : string;
  epart : option (bool * string)
}.

Definition digit (c : ascii) : N := code c - 48.

Fixpoint digitsN (acc : N) (s : string) : N :=
  match s with
  | EmptyString => acc
  | String c r => digitsN (acc * 10 + digit c) r
  end.

(** The literal as text. *)
Definition text (n : numlit) : string :=
  ((if neg n then "-" else EmptyString) +:+ ipart n
   +:+ (if String.eqb (fpart n) EmptyString then EmptyString else "." +:+ fpart n)
   +:+ match epart n with
       | None => EmptyString
       | Some (s, ds) => "e" +:+ (if s then "-" else EmptyString) +:+ ds
       end)%string.

(** [ParseInt(s, 10, 64)] on such a literal: a fraction or an exponent is a
    syntax error, a value outside [-2^63, 2^63-1] a range error. *)
Definition ParseInt (n : numlit) : option Z :=
  match fpart n, epart n with
  | EmptyString, None =>
    let v := Z.of_N (digitsN 0 (ipart n)) in
    if neg n
    then (if (v <=? 9223372036854775808)%Z then Some (- v)%Z else None)
    else (if (v <=? 9223372036854775807)%Z then Some v else None)
  | _, _ => None
  end.

(** The exponent as [readFloat] accumulates it: digits are taken in only
    while the value is below 10000. *)
Fixpoint expAcc (e : N) (s : string) : N :=
  match s with
  | EmptyString => e
  | String c r => expAcc (if e <? 10000 then e * 10 + digit c else e) r
  end.

(** Halfway between the largest binary64 and 2^1024: from here on the
    nearest-even rounding of a decimal is infinite. *)
Definition float64_overflow_threshold : N := 2 ^ 1024 - 2 ^ 970.

(** [ParseFloat(s, 64)] reports a range error exactly when the decimal
    rounds to an infinity.  The value is mant * 10^e10; the cases keep every
    power of ten that is computed below 10^(309 + length of the literal).
    (The slow path of [ParseFloat] keeps 800 digits of a longer mantissa;
    that cap is not modelled.) *)
Definition ParseFloat_overflows (n : numlit) : bool :=
  let mant := digitsN 0 (ipart n +:+ fpart n) in
  let len := Z.of_nat (String.length (ipart n +:+ fpart n)) in
  let e := match epart n with
           | None => 0%Z
           | Some (s, ds) => let v := Z.of_N (expAcc 0 ds) in if s then (- v)%Z else v
           end in
  let e10 := (e - Z.of_nat (String.length (fpart n)))%Z in
  if mant =? 0 then false
  else if (309 <=? e10)%Z then true
  else if (0 <=? e10)%Z then float64_overflow_threshold <=? mant * 10 ^ Z.to_N e10
  else if (len <? - e10)%Z then false
  else float64_overflow_threshold * 10 ^ Z.to_N (- e10) <=? mant.

(** [strconv.Atoi(s)], and likewise [strconv.ParseInt(s, 10, 64)], on a
    platform whose [int] has 64 bits: an optional sign, plus or minus, then
    one or more digits and nothing else, with a value from -2^63 to
    2^63-1.  [None] stands for a non-nil error (of syntax or of range). *)
Definition Atoi (s : string) : option Z :=
  let (minus, ds) :=
    match s with
    | String c r =>
      if code c =? 45 then (true, r)
      else if code c =? 43 then (false, r) else (false, s)
    | EmptyString => (false, s)
    end in
  match ds with
  | EmptyString => None
  | String _ _ =>
    if forallb_string (between 48 57) ds then
      let v := Z.of_N (digitsN 0 ds) in
      if minus
      then (if (v <=? 9223372036854775808)%Z then Some (- v)%Z else None)
      else (if (v <=? 9223372036854775807)%Z then Some v else None)
    else None
  end.

End Strconv.

(** ** Package unicode/utf8 *)

Module Utf8.

Definition cont (c : ascii) : bool := between 128 191 c.

(** A well-formed two-, three- or four-byte encoding, by the ranges that
    [utf8.DecodeRune] accepts for the second byte. *)
Definition valid2 (a b : ascii) : bool := between 194 223 a && cont b.

Definition valid3 (a b c : ascii) : bool :=
  ((code a =? 224) && between 160 191 b
   || (between 225 236 a || between 238 239 a) && cont b
   || (code a =? 237) && between 128 159 b)
  && cont c.

Definition valid4 (a b c d : ascii) : bool :=
  ((code a =? 240) && between 144 191 b
   || between 241 243 a && cont b
   || (code a =? 244) && between 128 143 b)
  && cont c && cont d.

(** U+FFFD, what a malformed byte decodes to. *)
Definition RuneError : N := 65533.

(** [utf8.EncodeRune]; surrogates and values past U+10FFFF are written as
    U+FFFD. *)
Definition EncodeRune (r : N) : string :=
  let enc3 (r : N) :=
    String (chr (224 + r / 4096))
      (String (chr (128 + (r / 64) mod 64)) (str1 (chr (128 + r mod 64)))) in
  if r <=? 127 then str1 (chr r)
  else if r <=? 2047 then String (chr (192 + r / 64)) (str1 (chr (128 + r mod 64)))
  else if (1114111 <? r) || ((55296 <=? r) && (r <=? 57343)) then enc3 RuneError
  else if r <=? 65535 then enc3 r
  else String (chr (240 + r / 262144))
         (String (chr (128 + (r / 4096) mod 64))
            (String (chr (128 + (r / 64) mod 64)) (str1 (chr (128 + r mod 64))))).

(** [utf16.DecodeRune]: a high and a low surrogate give a rune, anything
    else U+FFFD. *)
Definition utf16_DecodeRune (r1 r2 : N) : N :=
  if (55296 <=? r1) && (r1 <? 56320) && (56320 <=? r2) && (r2 <? 57344)
  then (r1 - 55296) * 1024 + (r2 - 56320) + 65536
  else RuneError.

Definition IsSurrogate (r : N) : bool := (55296 <=? r) && (r <? 57344).

End Utf8.

(** ** Package encoding/json *)

Module Json.

Import Strconv Utf8.

#[local] Set Warnings "-register-all".

Inductive value :=
| Null
| Bool (b : bool)
| Number (n : numlit)
| Str (s : string)
| Array (vs : list value)
| Object (kvs : list (string * value)).

(** The double quote, byte 34. *)
Definition dquote : ascii := chr 34.

(** [isSpace] of the scanner. *)
Definition isSpace (c : ascii) : bool :=
  (code c =? 32) || (code c =? 9) || (code c =? 13) || (code c =? 10).

Fixpoint skipSpace (s : string) : string :=
  match s with
  | EmptyString => s
  | String c r => if isSpace c then skipSpace r else s
  end.

Definition isDigit (c : ascii) : bool := between 48 57 c.

Definition hexval (c : ascii) : option N :=
  if between 48 57 c then Some (code c - 48)
  else if between 97 102 c then Some (code c - 87)
  else if between 65 70 c then Some (code c - 55)
  else None.

(** [getu4] once the backslash and the u are read: four hex digits. *)
Definition hex4 (a b c d : ascii) : option N :=
  match hexval a, hexval b, hexval c, hexval d with
  | Some x, Some y, Some z, Some w => Some (((x * 16 + y) * 16 + z) * 16 + w)
  | _, _, _, _ => None
  end.

Definition consM (pre : string) (o : option (string * string)) : option (string * string) :=
  match o with
  | Some (t, rest) => Some ((pre +:+ t)%string, rest)
  | None => None
  end.

(** The character an escape other than u stands for. *)
Definition escape (e : ascii) : option ascii :=
  if (code e =? 34) || (code e =? 92) || (code e =? 47) then Some e
  else if code e =? 98 then Some (chr 8)
  else if code e =? 102 then Some (chr 12)
  else if code e =? 110 then Some (chr 10)
  else if code e =? 114 then Some (chr 13)
  else if code e =? 116 then Some (chr 9)
  else None.

(** A string literal after its opening quote: the scanner's check and
    [unquoteBytes] in one pass.  Gives the decoded bytes and what follows
    the closing quote.  Control bytes and bad escapes are syntax errors; a
    lone surrogate escape and a malformed UTF-8 byte decode to U+FFFD. *)
Fixpoint scanString (s : string) : option (string * string) :=
  match s with
  | EmptyString => None
  | String c r =>
    if code c =? 34 then Some (EmptyString, r)
    else if code c =? 92 then
      match r with
      | EmptyString => None
      | String e r0 =>
        if code e =? 117 then
          match r0 with
          | String h1 (String h2 (String h3 (String h4 r4))) =>
            match hex4 h1 h2 h3 h4 with
            | None => None
            | Some rr =>
              if IsSurrogate rr then
                match r4 with
                | String b (String u (String g1 (String g2 (String g3 (String g4 r10))))) =>
                  match (if (code b =? 92) && (code u =? 117)
                         then hex4 g1 g2 g3 g4 else None) with
                  | Some rr1 =>
                    if utf16_DecodeRune rr rr1 =? RuneError
                    then consM (EncodeRune RuneError) (scanString r4)
                    else consM (EncodeRune (utf16_DecodeRune rr rr1)) (scanString r10)
                  | None => consM (EncodeRune RuneError) (scanString r4)
                  end
                | _ => consM (EncodeRune RuneError) (scanString r4)
                end
              else consM (EncodeRune rr) (scanString r4)
            end
          | _ => None
          end
        else
          match escape e with
          | Some x => consM (str1 x) (scanString r0)
          | None => None
          end
      end
    else if code c <? 32 then None
    else if code c <? 128 then consM (str1 c) (scanString r)
    else
      match r with
      | EmptyString => None
      | String b1 r1 =>
        if valid2 c b1 then consM (String c (str1 b1)) (scanString r1) else
        match r1 with
        | EmptyString => consM (EncodeRune RuneError) (scanString r)
        | String b2 r2 =>
          if valid3 c b1 b2
          then consM (String c (String b1 (str1 b2))) (scanString r2) else
          match r2 with
          | EmptyString => consM (EncodeRune RuneError) (scanString r)
          | String b3 r3 =>
            if valid4 c b1 b2 b3
            then consM (String c (String b1 (String b2 (str1 b3)))) (scanString r3)
            else consM (EncodeRune RuneError) (scanString r)
          end
        end
      end
  end.

(** The longest run of digits at the front, and the rest. *)
Fixpoint spanDigits (s : string) : string * string :=
  match s with
  | EmptyString => (EmptyString, EmptyString)
  | String c r =>
    if isDigit c then let (ds, r') := spanDigits r in (String c ds, r')
    else (EmptyString, s)
  end.

(** A number literal: an optional minus; 0, or a non-zero digit and more
    digits; an optional point with at least one digit; an optional e or E
    with an optional sign and at least one digit. *)
Definition scanNumber (s : string) : option (numlit * string) :=
  let (sign, s1) :=
    match s with
    | String c r => if code c =? 45 then (true, r) else (false, s)
    | EmptyString => (false, s)
    end in
  match s1 with
  | EmptyString => None
  | String d r =>
    if negb (isDigit d) then None else
    let (ip, s2) := if code d =? 48 then (str1 d, r)
                    else let (ds, r') := spanDigits r in (String d ds, r') in
    let frac :=
      match s2 with
      | String p r2 =>
        if code p =? 46 then
          let (ds, r3) := spanDigits r2 in
          match ds with EmptyString => None | _ => Some (ds, r3) end
        else Some (EmptyString, s2)
      | EmptyString => Some (EmptyString, s2)
      end in
    match frac with
    | None => None
    | Some (fp, s3) =>
      match s3 with
      | String e r3 =>
        if (code e =? 101) || (code e =? 69) then
          let (esign, s4) :=
            match r3 with
            | String g r4 =>
              if code g =? 43 then (false, r4)
              else if code g =? 45 then (true, r4) else (false, r3)
            | EmptyString => (false, r3)
            end in
          let (ds, s5) := spanDigits s4 in
          match ds with
          | EmptyString => None
          | _ => Some (mkNum sign ip fp (Some (esign, ds)), s5)
          end
        else Some (mkNum sign ip fp None, s3)
      | EmptyString => Some (mkNum sign ip fp None, s3)
      end
    end
  end.

(** [p] is cut from the front of [s]. *)
Fixpoint stripPrefix (p s : string) : option string :=
  match p, s with
  | EmptyString, _ => Some s
  | String a p', String b s' => if Ascii.eqb a b then stripPrefix p' s' else None
  | String _ _, EmptyString => None
  end.

(** [maxNestingDepth] of the scanner. *)
Definition maxNestingDepth : N := 10000.

(** One JSON value at the front of [s] (white space already skipped), with
    what follows it.  [depth] is the number of arrays and objects open
    around it.  Every call uses up a byte of input or a unit of [fuel]. *)
Fixpoint parseValue (fuel : nat) (depth : N) (s : string) {struct fuel}
  : option (value * string) :=
  match fuel with
  | O => None
  | S fuel' =>
    match s with
    | EmptyString => None
    | String c r =>
      if code c =? 123 then
        if maxNestingDepth <=? depth then None else
        match skipSpace r with
        | EmptyString => None
        | String c' r' =>
          if code c' =? 125 then Some (Object [], r')
          else match parseMembers fuel' (depth + 1) (String c' r') with
               | Some (kvs, r'') => Some (Object kvs, r'')
               | None => None
               end
        end
      else if code c =? 91 then
        if maxNestingDepth <=? depth then None else
        match skipSpace r with
        | EmptyString => None
        | String c' r' =>
          if code c' =? 93 then Some (Array [], r')
          else match parseElements fuel' (depth + 1) (String c' r') with
               | Some (vs, r'') => Some (Array vs, r'')
               | None => None
               end
        end
      else if code c =? 34 then
        match scanString r with
        | Some (t, r') => Some (Str t, r')
        | None => None
        end
      else if code c =? 116 then
        match stripPrefix "rue" r with Some r' => Some (Bool true, r') | None => None end
      else if code c =? 102 then
        match stripPrefix "alse" r with Some r' => Some (Bool false, r') | None => None end
      else if code c =? 110 then
        match stripPrefix "ull" r with Some r' => Some (Null, r') | None => None end
      else
        match scanNumber s with
        | Some (n, r') => Some (Number n, r')
        | None => None
        end
    end
  end
with parseElements (fuel : nat) (depth : N) (s : string) {struct fuel}
  : option (list value * string) :=
  match fuel with
  | O => None
  | S fuel' =>
    match parseValue fuel' depth s with
    | None => None
    | Some (v, r) =>
      match skipSpace r with
      | EmptyString => None
      | String c r' =>
        if code c =? 44 then
          match parseElements fuel' depth (skipSpace r') with
          | Some (vs, r'') => Some (v :: vs, r'')
          | None => None
          end
        else if code c =? 93 then Some ([v], r')
        else None
      end
    end
  end
with parseMembers (fuel : nat) (depth : N) (s : string) {struct fuel}
  : option (list (string * value) * string) :=
  match fuel with
  | O => None
  | S fuel' =>
    match s with
    | EmptyString => None
    | String q r =>
      if negb (code q =? 34) then None else
      match scanString r with
      | None => None
      | Some (k, r1) =>
        match skipSpace r1 with
        | EmptyString => None
        | String c r2 =>
          if negb (code c =? 58) then None else
          match parseValue fuel' depth (skipSpace r2) with
          | None => None
          | Some (v, r3) =>
            match skipSpace r3 with
            | EmptyString => None
            | String c' r4 =>
              if code c' =? 44 then
                match parseMembers fuel' depth (skipSpace r4) with
                | Some (kvs, r5) => Some ((k, v) :: kvs, r5)
                | None => None
                end
              else if code c' =? 125 then Some ([(k, v)], r4)
              else None
            end
          end
        end
      end
    end
  end.

(** [checkValid]: the data is one value between optional white space. *)
Definition parse (data : string) : option value :=
  match parseValue (2 * String.length data + 2) 0 (skipSpace data) with
  | Some (v, r) =>
    match skipSpace r with
    | EmptyString => Some v
    | String _ _ => None
    end
  | None => None
  end.

(** *** Decoding into struct fields *)

(** [foldName] on the runes that can fold to an ASCII letter: a..z go to
    upper case, U+017F (C5 BF) to S and U+212A (E2 84 AA) to K.  Any other
    rune folds to a rune outside ASCII and is left as it is; keys come out
    of [scanString] as well-formed UTF-8. *)
Fixpoint foldName (s : string) : string :=
  match s with
  | EmptyString => EmptyString
  | String a r =>
    if between 97 122 a then String (chr (code a - 32)) (foldName r) else
    match r with
    | EmptyString => str1 a
    | String b r2 =>
      if (code a =? 197) && (code b =? 191) then String (chr 83) (foldName r2) else
      match r2 with
      | EmptyString => String a (foldName r)
      | String c r3 =>
        if (code a =? 226) && (code b =? 132) && (code c =? 170)
        then String (chr 75) (foldName r3)
        else String a (foldName r)
      end
    end
  end.

(** Does the object key [key] select the field tagged [name]?  An exact
    match is a folded match, and no two tags of one struct fold alike. *)
Definition equalFold (name key : string) : bool :=
  String.eqb (foldName name) (foldName key).

(** [literalStore] and its callers, per kind of target.  Each gives the
    new content of the target and whether the decoder is still free of a
    saved error; a value of the wrong kind leaves the target as it was. *)
Definition storeString (v : value) (cur : string) : string * bool :=
  match v with
  | Str s => (s, true)
  | Null => (cur, true)
  | _ => (cur, false)
  end.

Definition storeFloat64 (v : value) (cur : string) : string * bool :=
  match v with
  | Number n => if ParseFloat_overflows n then (cur, false) else (text n, true)
  | Null => (cur, true)
  | _ => (cur, false)
  end.

Definition storeInt (v : value) (cur : Z) : Z * bool :=
  match v with
  | Number n => match ParseInt n with Some z => (z, true) | None => (cur, false) end
  | Null => (cur, true)
  | _ => (cur, false)
  end.

(** The elements of an array, decoded into the slots of the slice in turn;
    a slot past the current length starts out as the zero value. *)
Fixpoint storeElems {A} (store1 : value -> A -> A * bool) (zero : A)
    (vs : list value) (cur : list A) : list A * bool :=
  match vs with
  | [] => ([], true)
  | v :: vs' =>
    let (x, ok1) := store1 v (hd zero cur) in
    let (xs, ok2) := storeElems store1 zero vs' (tl cur) in
    (x :: xs, ok1 && ok2)
  end.

(** [null] sets a slice to nil, an array sets its length and elements. *)
Definition storeSlice {A} (store1 : value -> A -> A * bool) (zero : A)
    (v : value) (cur : list A) : list A * bool :=
  match v with
  | Null => ([], true)
  | Array vs => storeElems store1 zero vs cur
  | _ => (cur, false)
  end.

(** What [Unmarshal] needs to know of a struct type: its zero value and,
    from its json tags, where the value under a key goes.  A key that
    selects no field is skipped. *)
Class Struct (T : Type) := {
  zero : T;
  setField : string -> value -> T -> T * bool
}.

Definition decodeObject {T} `{Struct T} (kvs : list (string * value)) (t : T) : T * bool :=
  fold_left (fun acc kv =>
               let (t', ok') := setField (fst kv) (snd kv) (fst acc) in
               (t', snd acc && ok'))
            kvs (t, true).

(** [json.Unmarshal(data, &t)] for a zero struct [t]: [None] stands for a
    non-nil error, raised by a syntax error, a top-level value that is
    neither an object nor null, or a field value of the wrong kind
    (decoding goes on past the first such value and reports it at the end).
    A top-level null leaves the struct untouched. *)
Definition Unmarshal {T} `{Struct T} (data : string) : option T :=
  match parse data with
  | None => None
  | Some Null => Some zero
  | Some (Object kvs) =>
    let (t, ok) := decodeObject kvs zero in
    if ok then Some t else None
  | Some _ => None
  end.

(** Build a payload from text written with single quotes: every apostrophe
    stands for a double quote. *)
Fixpoint js (s : string) : string :=
  match s with
  | EmptyString => EmptyString
  | String c r => String (if code c =? 39 then dquote else c) (js r)
  end.

End Json.

(** ** Package models *)

Module Models.

(** [type AssetType string] *)
Definition AssetType := string.

Definition AssetChart : AssetType := "chart".
Definition AssetInsight : AssetType := "insight".
Definition AssetAudience : AssetType := "audience".

(** A [float64] read from JSON.  No check of the program looks at the value
    of one, so the model keeps the decimal literal that [strconv.ParseFloat]
    accepted instead of its binary64 rounding; the zero value is the
    literal 0. *)
Definition float64 := string.
Definition float64_zero : float64 := "0".

Record AssetBase := mkAssetBase {
  Type_ : AssetType;
  Description : string
}.

Record Chart := mkChart {
  Chart_AssetBase : AssetBase;
  Title : string;
  AxisXTitle : string;
  AxisYTitle : string;
  Data : list float64
}.

Record Insight := mkInsight {
  Insight_AssetBase : AssetBase;
  Text : string
}.

Record Audience := mkAudience {
  Audience_AssetBase : AssetBase;
  Gender : string;
  BirthCountry : string;
  AgeGroups : list string;
  HoursSocialDaily : float64;
  PurchasesLastMonth : Z
}.

(** [json.RawMessage] is [[]byte]. *)
Definition RawMessage := string.

(** [time.Time] after [UTC()]: the wall clock in nanoseconds, which is all
    that [After] compares once the monotonic reading is stripped. *)
Definition Time := Z.

(** The fields [Type] and [Description] of [Favourite] are [FavType] and
    [FavDescription], apart from those of [AssetBase]. *)
Record Favourite := mkFavourite {
  ID : string;
  FavType : AssetType;
  FavDescription : string;
  Asset : RawMessage;
  CreatedAt : Time
}.

(** *** The json tags *)

Import Json.

Definition AssetBase_setField (key : string) (v : value) (b : AssetBase)
  : option (AssetBase * bool) :=
  if equalFold "type" key then
    let (x, ok) := storeString v (Type_ b) in Some (mkAssetBase x (Description b), ok)
  else if equalFold "description" key then
    let (x, ok) := storeString v (Description b) in Some (mkAssetBase (Type_ b) x, ok)
  else None.

#[export] Instance AssetBase_Struct : Struct AssetBase := {|
  zero := mkAssetBase EmptyString EmptyString;
  setField key v b := default (b, true) (AssetBase_setField key v b)
|}.

#[export] Instance Chart_Struct : Struct Chart := {|
  zero := mkChart zero EmptyString EmptyString EmptyString [];
  setField key v c :=
    match AssetBase_setField key v (Chart_AssetBase c) with
    | Some (b, ok) => (mkChart b (Title c) (AxisXTitle c) (AxisYTitle c) (Data c), ok)
    | None =>
      if equalFold "title" key then
        let (x, ok) := storeString v (Title c) in
        (mkChart (Chart_AssetBase c) x (AxisXTitle c) (AxisYTitle c) (Data c), ok)
      else if equalFold "axis_x_title" key then
        let (x, ok) := storeString v (AxisXTitle c) in
        (mkChart (Chart_AssetBase c) (Title c) x (AxisYTitle c) (Data c), ok)
      else if equalFold "axis_y_title" key then
        let (x, ok) := storeString v (AxisYTitle c) in
        (mkChart (Chart_AssetBase c) (Title c) (AxisXTitle c) x (Data c), ok)
      else if equalFold "data" key then
        let (x, ok) := storeSlice storeFloat64 float64_zero v (Data c) in
        (mkChart (Chart_AssetBase c) (Title c) (AxisXTitle c) (AxisYTitle c) x, ok)
      else (c, true)
    end
|}.

#[export] Instance Insight_Struct : Struct Insight := {|
  zero := mkInsight zero EmptyString;
  setField key v i :=
    match AssetBase_setField key v (Insight_AssetBase i) with
    | Some (b, ok) => (mkInsight b (Text i), ok)
    | None =>
      if equalFold "text" key then
        let (x, ok) := storeString v (Text i) in (mkInsight (Insight_AssetBase i) x, ok)
      else (i, true)
    end
|}.

#[export] Instance Audience_Struct : Struct Audience := {|
  zero := mkAudience zero EmptyString EmptyString [] float64_zero 0%Z;
  setField key v a :=
    match AssetBase_setField key v (Audience_AssetBase a) with
    | Some (b, ok) =>
      (mkAudience b (Gender a) (BirthCountry a) (AgeGroups a)
         (HoursSocialDaily a) (PurchasesLastMonth a), ok)
    | None =>
      if equalFold "gender" key then
        let (x, ok) := storeString v (Gender a) in
        (mkAudience (Audience_AssetBase a) x (BirthCountry a) (AgeGroups a)
           (HoursSocialDaily a) (PurchasesLastMonth a), ok)
      else if equalFold "birth_country" key then
        let (x, ok) := storeString v (BirthCountry a) in
        (mkAudience (Audience_AssetBase a) (Gender a) x (AgeGroups a)
           (HoursSocialDaily a) (PurchasesLastMonth a), ok)
      else if equalFold "age_groups" key then
        let (x, ok) := storeSlice storeString EmptyString v (AgeGroups a) in
        (mkAudience (Audience_AssetBase a) (Gender a) (BirthCountry a) x
           (HoursSocialDaily a) (PurchasesLastMonth a), ok)
      else if equalFold "hours_social_daily" key then
        let (x, ok) := storeFloat64 v (HoursSocialDaily a) in
        (mkAudience (Audience_AssetBase a) (Gender a) (BirthCountry a) (AgeGroups a)
           x (PurchasesLastMonth a), ok)
      else if equalFold "purchases_last_month" key then
        let (x, ok) := storeInt v (PurchasesLastMonth a) in
        (mkAudience (Audience_AssetBase a) (Gender a) (BirthCountry a) (AgeGroups a)
           (HoursSocialDaily a) x, ok)
      else (a, true)
    end
|}.

End Models.

(** ** Package regexp, for the one pattern of the service *)

Module Regexp.

(** The class [[a-zA-Z0-9_\-]]. *)
Definition userIDRe_class (c : ascii) : bool :=
  between 97 122 c || between 65 90 c || between 48 57 c
  || (code c =? 95) || (code c =? 45).

(** [userIDRe.MatchString] for [^[a-zA-Z0-9_\-]{1,64}$]: the whole string
    (in Go [$] is the end of the text, a final newline does not match) is 1
    to 64 characters of the class.  The class holds ASCII only, so a
    matching string has one byte per character. *)
Definition userIDRe_MatchString (s : string) : bool :=
  forallb_string userIDRe_class s
  && (1 <=? String.length s)%nat && (String.length s <=? 64)%nat.

End Regexp.

(** ** Package math/rand *)

Module Rand.

(** [rand.Intn(n)]: a draw of the generator reduced to the range 0..n-1. *)
Definition Intn (n : nat) (draw : nat) : nat := (draw mod n)%nat.

End Rand.

Local Close Scope N_scope.

(** ** Errors, results and the object heap *)

(** The error values of the program, by the message they are built from.
    Where the message wraps the error of [json.Unmarshal], the wrapped text
    is left out. *)
Inductive error :=
| ErrNotFound          (* repo.ErrNotFound: not found *)
| ErrInvalidUserID     (* invalid user id *)
| ErrInvalidPath       (* invalid path *)
| ErrInvalidAssetJSON  (* invalid asset json: ... *)
| ErrInvalidChart      (* invalid chart: ... *)
| ErrInvalidInsight    (* invalid insight: ... *)
| ErrInvalidAudience   (* invalid audience: ... *)
| ErrChartNeeds        (* chart needs title and non-empty data *)
| ErrInsightNeeds      (* insight needs text *)
| ErrAudienceNeeds     (* audience needs gender and age_groups *)
| ErrUnknownAssetType. (* unknown asset type *)

Definition Error (e : error) : string :=
  match e with
  | ErrNotFound => "not found"
  | ErrInvalidUserID => "invalid user id"
  | ErrInvalidPath => "invalid path"
  | ErrInvalidAssetJSON => "invalid asset json"
  | ErrInvalidChart => "invalid chart"
  | ErrInvalidInsight => "invalid insight"
  | ErrInvalidAudience => "invalid audience"
  | ErrChartNeeds => "chart needs title and non-empty data"
  | ErrInsightNeeds => "insight needs text"
  | ErrAudienceNeeds => "audience needs gender and age_groups"
  | ErrUnknownAssetType => "unknown asset type"
  end.

(** A Go result pair [(T, error)]; [result unit] for a lone [error]. *)
Inductive result (A : Type) :=
| Ok (a : A)
| Err (e : error).
Arguments Ok {A} a.
Arguments Err {A} e.

(** A [*models.Favourite] is a location in the heap of favourites.  The
    heap only grows: [alloc] puts a new object at the first unused
    location, the way [&models.Favourite{...}] yields a pointer that is
    equal to no earlier one. *)
Abbreviation loc := nat (only parsing).
Abbreviation heap := (list Models.Favourite) (only parsing).

Definition nilFavourite : Models.Favourite :=
  Models.mkFavourite EmptyString EmptyString EmptyString EmptyString 0%Z.

(** Reading through a pointer.  A pointer held by the program is never
    dangling; past the end of the heap the read is the zero record. *)
Definition deref (h : heap) (p : loc) : Models.Favourite :=
  default nilFavourite (h !! p).

(** The state a call runs in: the favourites allocated so far, and the
    state of the repository behind the service. *)
Record world (R : Type) := mkWorld {
  objects : heap;
  repo : R
}.
Arguments mkWorld {R} objects repo.
Arguments objects {R} w.
Arguments repo {R} w.

Definition M (R A : Type) : Type := world R -> result A * world R.

Definition alloc {R} (f : Models.Favourite) (w : world R) : loc * world R :=
  (length (objects w), mkWorld (objects w ++ [f]) (repo w)).

(** ** Package sort *)

Module Sort.

(** [insertionSortLessFunc]: each element in turn moves towards the front
    while it is less than its left neighbour.  [rp] is the part already in
    order, last element first. *)
Fixpoint insertBack {A} (less : A -> A -> bool) (x : A) (rp : list A) : list A :=
  match rp with
  | [] => [x]
  | y :: rp' => if less x y then y :: insertBack less x rp' else x :: rp
  end.

(** [sort.Slice].  This is the insertion sort that [pdqsortLessFunc] runs on
    a slice of at most 12 elements; on a longer slice the library sorts by
    the same [less] with a quicksort that may leave elements that compare
    equal in another order. *)
Definition Slice {A} (less : A -> A -> bool) (l : list A) : list A :=
  rev (fold_left (fun rp x => insertBack less x rp) l []).

End Sort.

(** ** Package repo *)

Module Repo.

Import Models.

(** The order in which one [range] over a map visits the entries.  The
    language leaves it open and lets it differ from one loop to the next;
    all it promises is that every entry is visited once. *)
Record RangeOrder := mkRange {
  visit : list (string * loc) -> list (string * loc);
  visit_perm : forall l, visit l ≡ₚ l
}.

Definition inOrder : RangeOrder := mkRange (fun l => l) (fun l => Permutation_refl l).
Definition backwards : RangeOrder :=
  mkRange (@rev _) (fun l => Permutation_sym (Permutation_rev l)).

(** [type Repository interface] *)
Class Repository (R : Type) := {
  List : RangeOrder -> string -> M R (list loc);
  Create : string -> loc -> M R unit;
  Get : string -> string -> M R loc;
  UpdateDescription : string -> string -> string -> M R loc;
  Delete : string -> string -> M R unit
}.

(** [InMemoryRepo]: userID -> favID -> Favourite.  Every method holds the
    mutex from entry to return, so a call is one step on the state. *)
Record InMemoryRepo := mkRepo {
  data : gmap string (gmap string loc)
}.

Definition NewInMemoryRepo : InMemoryRepo := mkRepo ∅.

(** [r.data[userID]]: the nil map when the user has no entry. *)
Definition userMap (r : InMemoryRepo) (userID : string) : gmap string loc :=
  default ∅ (data r !! userID).

(** The [less] of [List]: [out[i].CreatedAt.After(out[j].CreatedAt)]. *)
Definition newerThan (h : heap) (p q : loc) : bool :=
  (CreatedAt (deref h q) <? CreatedAt (deref h p))%Z.

Definition InMemoryRepo_List (rho : RangeOrder) (userID : string)
  : M InMemoryRepo (list loc) := fun w =>
  let m := userMap (repo w) userID in
  let out := (visit rho (map_to_list m)).*2 in
  (Ok (Sort.Slice (newerThan (objects w)) out), w).

Definition InMemoryRepo_Create (userID : string) (fav : loc)
  : M InMemoryRepo unit := fun w =>
  let m := userMap (repo w) userID in
  (Ok tt,
   mkWorld (objects w)
           (mkRepo (<[userID := <[ID (deref (objects w) fav) := fav]> m]> (data (repo w))))).

Definition InMemoryRepo_Get (userID favID : string) : M InMemoryRepo loc := fun w =>
  match data (repo w) !! userID with
  | None => (Err ErrNotFound, w)
  | Some m =>
    match m !! favID with
    | None => (Err ErrNotFound, w)
    | Some f => (Ok f, w)
    end
  end.

Definition InMemoryRepo_UpdateDescription (userID favID desc : string)
  : M InMemoryRepo loc := fun w =>
  match data (repo w) !! userID with
  | None => (Err ErrNotFound, w)
  | Some m =>
    match m !! favID with
    | None => (Err ErrNotFound, w)
    | Some f =>
      let old := deref (objects w) f in
      (Ok f,
       mkWorld (<[f := mkFavourite (ID old) (FavType old) desc (Asset old) (CreatedAt old)]>
                  (objects w))
               (repo w))
    end
  end.

Definition InMemoryRepo_Delete (userID favID : string) : M InMemoryRepo unit := fun w =>
  match data (repo w) !! userID with
  | None => (Err ErrNotFound, w)
  | Some m =>
    match m !! favID with
    | None => (Err ErrNotFound, w)
    | Some _ =>
      (Ok tt, mkWorld (objects w) (mkRepo (<[userID := delete favID m]> (data (repo w)))))
    end
  end.

#[export] Instance InMemoryRepo_Repository : Repository InMemoryRepo := {|
  List := InMemoryRepo_List;
  Create := InMemoryRepo_Create;
  Get := InMemoryRepo_Get;
  UpdateDescription := InMemoryRepo_UpdateDescription;
  Delete := InMemoryRepo_Delete
|}.

End Repo.

(** ** Package service *)

Module Service.

Import Models Json Repo.

Definition ValidateUserID (id : string) : bool := Regexp.userIDRe_MatchString id.

(** The anonymous struct that [validateAsset] probes with. *)
Record probe := mkProbe {
  probe_Type : AssetType;
  probe_Description : string
}.

#[export] Instance probe_Struct : Struct probe := {|
  zero := mkProbe EmptyString EmptyString;
  setField key v p :=
    if equalFold "type" key then
      let (x, ok) := storeString v (probe_Type p) in (mkProbe x (probe_Description p), ok)
    else if equalFold "description" key then
      let (x, ok) := storeString v (probe_Description p) in (mkProbe (probe_Type p) x, ok)
    else (p, true)
|}.

Definition isEmpty (s : string) : bool := String.eqb s EmptyString.

Definition validateAsset (raw : RawMessage) : result (AssetType * string) :=
  match Unmarshal (T := probe) raw with
  | None => Err ErrInvalidAssetJSON
  | Some probe =>
    if String.eqb (probe_Type probe) AssetChart then
      match Unmarshal (T := Chart) raw with
      | None => Err ErrInvalidChart
      | Some c =>
        if isEmpty (Strings.TrimSpace (Title c)) || (length (Data c) =? 0)%nat
        then Err ErrChartNeeds
        else Ok (AssetChart, Description (Chart_AssetBase c))
      end
    else if String.eqb (probe_Type probe) AssetInsight then
      match Unmarshal (T := Insight) raw with
      | None => Err ErrInvalidInsight
      | Some i =>
        if isEmpty (Strings.TrimSpace (Text i))
        then Err ErrInsightNeeds
        else Ok (AssetInsight, Description (Insight_AssetBase i))
      end
    else if String.eqb (probe_Type probe) AssetAudience then
      match Unmarshal (T := Audience) raw with
      | None => Err ErrInvalidAudience
      | Some a =>
        if isEmpty (Gender a) || (length (AgeGroups a) =? 0)%nat
        then Err ErrAudienceNeeds
        else Ok (AssetAudience, Description (Audience_AssetBase a))
      end
    else Err ErrUnknownAssetType
  end.

Definition letters : string := "abcdefghijklmnopqrstuvwxyz0123456789".

(** [letters[i]] *)
Definition letter (i : nat) : ascii :=
  match String.get i letters with
  | Some c => c
  | None => Ascii.zero
  end.

(** [newID]: twelve draws, each picking a byte of [letters].  [rnd i] is
    the draw of round [i]. *)
Definition newID (rnd : nat -> nat) : string :=
  string_of_list_ascii
    (map (fun i => letter (Rand.Intn (String.length letters) (rnd i))) (seq 0 12)).

Section Service.

Context {R : Type} `{Repository R}.

Definition ListFavourites (rho : RangeOrder) (userID : string) : M R (list loc) := fun w =>
  if negb (ValidateUserID userID) then (Err ErrInvalidUserID, w)
  else List rho userID w.

(** [rnd] and [now] are what [newID] draws and what [time.Now().UTC()]
    reads during the call. *)
Definition CreateFavourite (rnd : nat -> nat) (now : Time)
    (userID : string) (raw : RawMessage) : M R loc := fun w =>
  if negb (ValidateUserID userID) then (Err ErrInvalidUserID, w) else
  match validateAsset raw with
  | Err e => (Err e, w)
  | Ok (t, desc) =>
    let (f, w1) := alloc (mkFavourite (newID rnd) t desc raw now) w in
    match Create userID f w1 with
    | (Err e, w2) => (Err e, w2)
    | (Ok _, w2) => (Ok f, w2)
    end
  end.

Definition UpdateFavouriteDescription (userID favID desc : string) : M R loc := fun w =>
  if negb (ValidateUserID userID) || isEmpty (Strings.TrimSpace favID)
  then (Err ErrInvalidPath, w)
  else UpdateDescription userID favID desc w.

Definition DeleteFavourite (userID favID : string) : M R unit := fun w =>
  if negb (ValidateUserID userID) || isEmpty (Strings.TrimSpace favID)
  then (Err ErrInvalidPath, w)
  else Delete userID favID w.

End Service.

End Service.

(** ** The vocabulary of the specification *)

Module Spec.

Import Models Json Repo Service.

(** The error taxonomy of the specification, and the kind each error value
    of the program falls under.  No error value is a [DuplicateID]. *)
Inductive ErrorKind :=
| InvalidIdentity
| MalformedPayload
| UnknownAssetKind
| SchemaViolation
| NotFound
| DuplicateID.

Definition kind_of (e : error) : ErrorKind :=
  match e with
  | ErrNotFound => NotFound
  | ErrInvalidUserID | ErrInvalidPath => InvalidIdentity
  | ErrInvalidAssetJSON | ErrInvalidChart | ErrInvalidInsight | ErrInvalidAudience =>
    MalformedPayload
  | ErrChartNeeds | ErrInsightNeeds | ErrAudienceNeeds => SchemaViolation
  | ErrUnknownAssetType => UnknownAssetKind
  end.

(** A call fails with an error of kind [k] and leaves the state as it was. *)
Definition fails_with {R A} (k : ErrorKind) (w : world R) (out : result A * world R) : Prop :=
  exists e, out = (Err e, w) /\ kind_of e = k.

(** The Identity Rule in the words of the specification: 1 to 64
    characters, each a letter, a digit, an underscore or a hyphen. *)
Definition is_one_of (chars : string) (c : ascii) : bool :=
  existsb (Ascii.eqb c) (list_ascii_of_string chars).

Definition identity_char (c : ascii) : bool :=
  is_one_of "abcdefghijklmnopqrstuvwxyz" c
  || is_one_of "ABCDEFGHIJKLMNOPQRSTUVWXYZ" c
  || is_one_of "0123456789" c
  || is_one_of "_-" c.

Definition identity_rule (userID : string) : bool :=
  (1 <=? String.length userID) && (String.length userID <=? 64)
  && forallb identity_char (list_ascii_of_string userID).

(** What the identifier generator may draw from: a..z and 0..9. *)
Definition id_char (c : ascii) : bool :=
  is_one_of "abcdefghijklmnopqrstuvwxyz" c || is_one_of "0123456789" c.

(** A blank identifier is one that [UpdateFavouriteDescription] and
    [DeleteFavourite] turn down. *)
Definition blank (s : string) : bool := isEmpty (Strings.TrimSpace s).

(** The type a payload declares: the [type] field of a payload that is
    well formed, empty when the field is absent. *)
Definition declaredType (raw : RawMessage) : option AssetType :=
  probe_Type <$> Unmarshal (T := probe) raw.

Definition recognised (t : AssetType) : bool :=
  String.eqb t AssetChart || String.eqb t AssetInsight || String.eqb t AssetAudience.

(** The payload is no object with a key that selects the field tagged
    [name]: the field is missing. *)
Definition lacksKey (name : string) (raw : RawMessage) : Prop :=
  forall kvs, parse raw = Some (Object kvs) ->
              Forall (fun kv => equalFold name (fst kv) = false) kvs.

(** A payload of a recognised kind, decoded against the shape of its kind,
    with a required field missing or empty. *)
Inductive lacks_required (raw : RawMessage) : Prop :=
| chart_lacks c :
    declaredType raw = Some AssetChart -> Unmarshal raw = Some c ->
    lacksKey "title" raw \/ Title c = EmptyString
    \/ lacksKey "data" raw \/ Data c = [] ->
    lacks_required raw
| insight_lacks i :
    declaredType raw = Some AssetInsight -> Unmarshal raw = Some i ->
    lacksKey "text" raw \/ Text i = EmptyString ->
    lacks_required raw
| audience_lacks a :
    declaredType raw = Some AssetAudience -> Unmarshal raw = Some a ->
    lacksKey "gender" raw \/ Gender a = EmptyString
    \/ lacksKey "age_groups" raw \/ AgeGroups a = [] ->
    lacks_required raw.

(** A payload that meets the structural rules of the kind [t] it declares.
    [filled] says when the title of a chart and the text of an insight
    count as given. *)
Inductive meets_rules (filled : string -> Prop) (raw : RawMessage) : AssetType -> Prop :=
| chart_meets c :
    declaredType raw = Some AssetChart -> Unmarshal raw = Some c ->
    filled (Title c) -> Data c <> [] -> meets_rules filled raw AssetChart
| insight_meets i :
    declaredType raw = Some AssetInsight -> Unmarshal raw = Some i ->
    filled (Text i) -> meets_rules filled raw AssetInsight
| audience_meets a :
    declaredType raw = Some AssetAudience -> Unmarshal raw = Some a ->
    Gender a <> EmptyString -> AgeGroups a <> [] -> meets_rules filled raw AssetAudience.

(** The rules as the specification words them (a non-empty title or text),
    and as the validator applies them (not only white space). *)
Definition nonEmpty (s : string) : Prop := s <> EmptyString.
Definition nonBlank (s : string) : Prop := blank s = false.

(** The calls a client can make on the service over the in-memory
    repository, and the states a sequence of them leads to. *)
Inductive call :=
| CallList (rho : RangeOrder) (userID : string)
| CallCreate (rnd : nat -> nat) (now : Time) (userID : string) (raw : RawMessage)
| CallUpdate (userID favID desc : string)
| CallDelete (userID favID : string).

Definition run (c : call) (w : world InMemoryRepo) : world InMemoryRepo :=
  match c with
  | CallList rho userID => snd (ListFavourites rho userID w)
  | CallCreate rnd now userID raw => snd (CreateFavourite rnd now userID raw w)
  | CallUpdate userID favID desc => snd (UpdateFavouriteDescription userID favID desc w)
  | CallDelete userID favID => snd (DeleteFavourite userID favID w)
  end.

Definition runs (cs : list call) (w : world InMemoryRepo) : world InMemoryRepo :=
  fold_left (fun w c => run c w) cs w.

(** What a call of [CreateFavourite] that gets past both validations does:
    one favourite more on the heap, filed under the user and the new
    identifier. *)
Definition created (rnd : nat -> nat) (now : Time) (userID : string) (raw : RawMessage)
    (t : AssetType) (desc : string) (w : world InMemoryRepo) : world InMemoryRepo :=
  mkWorld (objects w ++ [mkFavourite (newID rnd) t desc raw now])
    (mkRepo (<[userID := <[newID rnd := length (objects w)]> (userMap (repo w) userID)]>
               (data (repo w)))).

(** Two records that differ at most in the description. *)
Definition upToDescription (f g : Favourite) : Prop :=
  ID g = ID f /\ FavType g = FavType f /\ Asset g = Asset f /\ CreatedAt g = CreatedAt f.

(** The pointers stored for a user, in no particular order. *)
Definition stored (w : world InMemoryRepo) (userID : string) : list loc :=
  (map_to_list (userMap (repo w) userID)).*2.

(** The favourites stored for a user, newest first: the order that [List]
    is to return them in. *)
Definition newestFirst (h : heap) (l : list loc) : Prop :=
  StronglySorted (fun p q => (CreatedAt (deref h q) <= CreatedAt (deref h p))%Z) l.

End Spec.

(** ** Test data *)

Module Examples.

Import Models Json Repo Service Spec.

(** A repository that does nothing but count the calls made to it. *)
Definition spy (A : Type) : M nat A := fun w =>
  (Err ErrNotFound, mkWorld (objects w) (S (repo w))).

#[export] Instance Spy_Repository : Repository nat := {|
  List _ _ := spy _;
  Create _ _ := spy _;
  Get _ _ := spy _;
  UpdateDescription _ _ _ := spy _;
  Delete _ _ := spy _
|}.

Definition spyWorld : world nat := mkWorld [] 0.

Definition emptyWorld : world InMemoryRepo := mkWorld [] NewInMemoryRepo.

(** Draws that spell abcdefghijkl, and draws that spell bcdefghijklm. *)
Definition draws0 (i : nat) : nat := i.
Definition draws1 (i : nat) : nat := S i.

(** The payload of the handler tests, and the payloads of
    [TestService_CreateListUpdateDelete] and [TestService_ValidationErrors]
    as [json.Marshal] writes them. *)
Definition insightRaw : RawMessage :=
  js "{'type':'insight','text':'hello','description':'d'}".
Definition testInsightRaw : RawMessage :=
  js "{'type':'insight','description':'baseline','text':'40% of users…'}".
Definition chartRaw : RawMessage :=
  js "{'type':'chart','description':'c1','title':'Sales','axis_x_title':'Month','axis_y_title':'€','data':[1,2,3]}".
Definition unknownRaw : RawMessage := js "{'type':'unknown'}".
Definition badChartRaw : RawMessage :=
  js "{'type':'chart','title':'','axis_x_title':'','axis_y_title':'','data':null}".

(** The audience of the README. *)
Definition audienceRaw : RawMessage :=
  js "{'type':'audience','description':'Frequent social media users','gender':'female','birth_country':'Greece','age_groups':['25-34','35-44'],'hours_social_daily':2.5,'purchases_last_month':3}".

(** A payload without a type, a chart without a title, and a chart whose
    title is one space. *)
Definition untypedRaw : RawMessage := js "{'text':'hello'}".
Definition untitledRaw : RawMessage := js "{'type':'chart','data':[1]}".
Definition blankTitleRaw : RawMessage := js "{'type':'chart','title':' ','data':[1]}".

(** The state after the two creations of [TestService_CreateListUpdateDelete],
    and after its update and its delete. *)
Definition testWorld2 : world InMemoryRepo :=
  snd (CreateFavourite draws1 11%Z "kostas" chartRaw
         (snd (CreateFavourite draws0 10%Z "kostas" testInsightRaw emptyWorld))).
Definition testWorld3 : world InMemoryRepo :=
  snd (UpdateFavouriteDescription "kostas" "abcdefghijkl" "updated" testWorld2).
Definition testWorld4 : world InMemoryRepo :=
  snd (DeleteFavourite "kostas" "abcdefghijkl" testWorld3).

(** One favourite of kostas. *)
Definition world1 : world InMemoryRepo :=
  snd (CreateFavourite draws0 10%Z "kostas" insightRaw emptyWorld).

(** A second one with another identifier and the same timestamp. *)
Definition world2 : world InMemoryRepo :=
  snd (CreateFavourite draws1 10%Z "kostas" chartRaw world1).

(** A second favourite allocated with the identifier of the first, before
    it is handed to the repository. *)
Definition world1' : world InMemoryRepo :=
  snd (alloc (mkFavourite (newID draws0) AssetChart "c1" chartRaw 11%Z) world1).

End Examples.

(** * The rest of the program: configuration, handlers, middleware *)

(** ** Package config *)

Module Config.

(** The environment of the process as [os.Getenv] reads it: a variable that
    is not set reads as the empty string. *)
Definition Getenv (env : gmap string string) (key : string) : string :=
  default EmptyString (env !! key).

(** An [int64] product as the machine computes it: kept modulo 2^64 in the
    range from -2^63 to 2^63-1. *)
Definition wrap64 (z : Z) : Z := ((z + 2 ^ 63) mod 2 ^ 64 - 2 ^ 63)%Z.

(** [time.Duration] counts nanoseconds in an [int64]. *)
Definition Millisecond : Z := 1000000.
Definition Second : Z := 1000000000.

Record Config := mkConfig {
  Port : string;
  AppEnv : string;
  LogEnabled : bool;
  RateLimitMillis : Z;
  MaxBodyBytes : Z;
  APIKey : string;
  ReadTimeout : Z;
  WriteTimeout : Z;
  IdleTimeout : Z;
  LogLevel : string
}.

(** What the package writes to the log, by the format of the line; the
    rendering of the arguments is left to package log. *)
Inductive logLine :=
| InvalidInt (key v : string) (def : Z)       (* invalid int for %s=%s, using default %d *)
| InvalidInt64 (key v : string) (def : Z)     (* invalid int64 for %s=%s, using default %d *)
| InvalidDuration (key v : string) (def : Z)  (* invalid duration for %s=%s, using default %ds *)
| ConfigLoaded (cfg : Config).                (* Config loaded: %+v *)

Definition getEnv (env : gmap string string) (key def : string) : string :=
  let v := Getenv env key in
  if negb (String.eqb v EmptyString) then v else def.

Definition oneOf (v : string) (l : list string) : bool := existsb (String.eqb v) l.

Definition getEnvBool (env : gmap string string) (key : string) (def : bool) : bool :=
  let v := Getenv env key in
  if negb (String.eqb v EmptyString) then
    if oneOf v ["true"; "1"; "yes"; "on"] then true
    else if oneOf v ["false"; "0"; "no"; "off"] then false
    else def
  else def.

Definition getEnvInt (env : gmap string string) (key : string) (def : Z)
  : Z * list logLine :=
  let v := Getenv env key in
  if negb (String.eqb v EmptyString) then
    match Strconv.Atoi v with
    | Some n => (n, [])
    | None => (def, [InvalidInt key v def])
    end
  else (def, []).

Definition getEnvInt64 (env : gmap string string) (key : string) (def : Z)
  : Z * list logLine :=
  let v := Getenv env key in
  if negb (String.eqb v EmptyString) then
    match Strconv.Atoi v with
    | Some n => (n, [])
    | None => (def, [InvalidInt64 key v def])
    end
  else (def, []).

Definition getEnvDurationSec (env : gmap string string) (key : string) (def : Z)
  : Z * list logLine :=
  let v := Getenv env key in
  if negb (String.eqb v EmptyString) then
    match Strconv.Atoi v with
    | Some n => (wrap64 (n * Second), [])
    | None => (wrap64 (def * Second), [InvalidDuration key v def])
    end
  else (wrap64 (def * Second), []).

(** [LoadConfig]: the fields are read in the order of the struct literal,
    and the loaded configuration is logged last. *)
Definition LoadConfig (env : gmap string string) : Config * list logLine :=
  let port := getEnv env "APP_PORT" "8080" in
  let appEnv := getEnv env "APP_ENV" "development" in
  let logEnabled := getEnvBool env "ENABLE_HTTP_LOG" true in
  let (rateLimit, l1) := getEnvInt env "RATE_LIMIT_MS" 50 in
  let (maxBody, l2) := getEnvInt64 env "MAX_BODY_BYTES" 1048576 in
  let (readT, l3) := getEnvDurationSec env "READ_TIMEOUT" 5 in
  let (writeT, l4) := getEnvDurationSec env "WRITE_TIMEOUT" 10 in
  let (idleT, l5) := getEnvDurationSec env "IDLE_TIMEOUT" 60 in
  let logLevel := getEnv env "LOG_LEVEL" "info" in
  let apiKey := getEnv env "API_KEY" EmptyString in
  let cfg := mkConfig port appEnv logEnabled rateLimit maxBody apiKey
               readT writeT idleT logLevel in
  (cfg, l1 ++ l2 ++ l3 ++ l4 ++ l5 ++ [ConfigLoaded cfg]).

End Config.

(** ** Package net/http, as far as the handlers use it *)

Module Http.

(** [url.Values.Get] and [http.Header.Get]: the first value under the key,
    the empty string when there is none.  The keys of a header are in
    canonical form (X-Api-Key for X-API-Key). *)
Definition Values_Get (v : gmap string (list string)) (key : string) : string :=
  match v !! key with
  | Some (x :: _) => x
  | _ => EmptyString
  end.

(** A request as the handlers read it.  [Body] is what the body reader
    yields up to its end. *)
Record Request := mkRequest {
  Method : string;
  Path : string;
  Query : gmap string (list string);
  Header : gmap string (list string);
  RemoteAddr : string;
  Body : string
}.

(** The values that the handlers hand to the JSON encoder. *)
Inductive payload :=
| MessageJSON (msg : string)   (* map[string]string{"error": msg}, a fixed message *)
| ErrorJSON (err : error)      (* map[string]string{"error": err.Error()} *)
| PageJSON (favourites : list loc) (total limit offset : Z)
| FavouriteJSON (f : loc).

(** What a handler does to its [http.ResponseWriter], call by call.
    [Panic] ends a handler that runs into a run-time panic. *)
Inductive effect :=
| SetHeader (key v : string)          (* w.Header().Set(key, v) *)
| WriteHeader (code : Z)              (* w.WriteHeader(code) *)
| Encode (v : payload)                (* json.NewEncoder(w).Encode(v) *)
| Fprint (s : string)                 (* fmt.Fprint(w, s) *)
| HttpError (msg : string) (code : Z) (* http.Error(w, msg, code) *)
| HttpNotFound                        (* http.NotFound(w, r) *)
| Panic.

(** What the surroundings supply during one request: the order of a map
    iteration, the draws of the identifier generator, the time read when a
    favourite is created and the time read by the rate limiter. *)
Record Env := mkEnv {
  order : Repo.RangeOrder;
  draws : nat -> nat;
  clock : Models.Time;
  arrival : Models.Time
}.

(** An [http.Handler] over a state of type [St]. *)
Definition Handler (St : Type) : Type := Env -> Request -> St -> list effect * St.

End Http.

(** ** Decoding a request body *)

Module Decoder.

Import Json.

(** [json.NewDecoder(r.Body).Decode(&t)] into a zero struct: the first JSON
    value of the stream is read and decoded, what follows it is left
    unread.  [None] stands for a non-nil error. *)
Definition Decode {T} `{Struct T} (body : string) : option T :=
  match parseValue (2 * String.length body + 2) 0 (skipSpace body) with
  | None => None
  | Some (Null, _) => Some zero
  | Some (Object kvs, _) =>
    let (t, ok) := decodeObject kvs zero in
    if ok then Some t else None
  | Some (_, _) => None
  end.

(** The members of an object whose opening brace is read, each value as
    the bytes it is written with: what a field of type [json.RawMessage]
    receives. *)
Fixpoint rawMembers (fuel : nat) (s : string) : option (list (string * string)) :=
  match fuel with
  | O => None
  | S fuel' =>
    match s with
    | EmptyString => None
    | String q r =>
      if negb (code q =? 34)%N then None else
      match scanString r with
      | None => None
      | Some (k, r1) =>
        match skipSpace r1 with
        | EmptyString => None
        | String c r2 =>
          if negb (code c =? 58)%N then None else
          let sv := skipSpace r2 in
          match parseValue (2 * String.length sv + 2) 1 sv with
          | None => None
          | Some (_, r3) =>
            let raw := substring 0 (String.length sv - String.length r3) sv in
            match skipSpace r3 with
            | EmptyString => None
            | String c' r4 =>
              if (code c' =? 44)%N then
                match rawMembers fuel' (skipSpace r4) with
                | Some kvs => Some ((k, raw) :: kvs)
                | None => None
                end
              else if (code c' =? 125)%N then Some [(k, raw)]
              else None
            end
          end
        end
      end
    end
  end.

(** The payload of [handleCreate]:
    [struct { Asset json.RawMessage `json:"asset"` }]. *)
Record createPayload := mkCreatePayload {
  Asset : Models.RawMessage
}.

(** [Decode] into a [createPayload].  The value under a key that selects
    the field is copied as it is written, a null included; of several such
    keys the last one stands. *)
Definition DecodeCreate (body : string) : option createPayload :=
  let s := skipSpace body in
  match parseValue (2 * String.length body + 2) 0 s with
  | None => None
  | Some (Null, _) => Some (mkCreatePayload EmptyString)
  | Some (Object _, _) =>
    match s with
    | String _ r =>
      match skipSpace r with
      | EmptyString => None
      | String c' r' =>
        if (code c' =? 125)%N then Some (mkCreatePayload EmptyString)
        else
          match rawMembers (String.length body) (String c' r') with
          | None => None
          | Some kvs =>
            Some (mkCreatePayload
                    (fold_left (fun acc kv =>
                                  if equalFold "asset" (fst kv) then snd kv else acc)
                               kvs EmptyString))
          end
      end
    | EmptyString => None
    end
  | Some (_, _) => None
  end.

(** The payload of [handlePatch]:
    [struct { Description *string `json:"description"` }].  A string sets
    the pointer, a null clears it. *)
Record patchPayload := mkPatchPayload {
  Description : option string
}.

#[export] Instance patchPayload_Struct : Struct patchPayload := {|
  zero := mkPatchPayload None;
  setField key v p :=
    if equalFold "description" key then
      match v with
      | Str s => (mkPatchPayload (Some s), true)
      | Null => (mkPatchPayload None, true)
      | _ => (p, false)
      end
    else (p, true)
|}.

End Decoder.

(** ** Package middleware *)

Module Middleware.

Import Http.

(** [parseUserFromPath] *)
Definition parseUserFromPath (p : string) : string :=
  match Strings.Split (Strings.Trim p (chr 47)) (chr 47) with
  | p0 :: p1 :: _ => if String.eqb p0 "users" then p1 else EmptyString
  | _ => EmptyString
  end.

Section Handlers.

Context {St : Type}.

Definition SecurityHeaders (next : Handler St) : Handler St := fun e r s =>
  let (out, s') := next e r s in
  ([SetHeader "X-Content-Type-Options" "nosniff";
    SetHeader "X-Frame-Options" "DENY";
    SetHeader "Referrer-Policy" "no-referrer"] ++ out, s').

(** [APIKeyAuth]: with a blank key the handler is [next] itself. *)
Definition APIKeyAuth (requiredKey : string) (next : Handler St) : Handler St :=
  if String.eqb (Strings.TrimSpace requiredKey) EmptyString then next
  else fun e r s =>
    if negb (String.eqb (Values_Get (Header r) "X-Api-Key") requiredKey)
    then ([HttpError "unauthorized" 401], s)
    else next e r s.

(** [CORS(allowedOrigins)(next)] *)
Definition CORS (mapLower : string -> string) (allowedOrigins : list string)
    (next : Handler St) : Handler St :=
  let lower := map (Strings.ToLower mapLower) allowedOrigins in
  fun e r s =>
    let origin := Strings.ToLower mapLower (Values_Get (Header r) "Origin") in
    let allow :=
      if negb (String.eqb origin EmptyString)
      then existsb (fun o => String.eqb origin o || String.eqb o "*") lower
      else false in
    let hs :=
      if allow then
        [SetHeader "Access-Control-Allow-Origin" origin;
         SetHeader "Vary" "Origin";
         SetHeader "Access-Control-Allow-Methods" "GET,POST,PATCH,DELETE,OPTIONS";
         SetHeader "Access-Control-Allow-Headers"
           "Content-Type, X-API-Key, Accept, Authorization"]
      else [] in
    if String.eqb (Method r) "OPTIONS" then (hs ++ [WriteHeader 204], s)
    else let (out, s') := next e r s in (hs ++ out, s').

(** [RateLimiter]: the time of the last request that was let through, per
    key, and the least interval between two such requests. *)
Record RateLimiter := mkRateLimiter {
  last : gmap string Models.Time;
  rate : Z
}.

Definition NewRateLimiter (minInterval : Z) : RateLimiter := mkRateLimiter ∅ minInterval.

(** [Time.Sub]: the difference, kept within the range of a [Duration]. *)
Definition Sub (t u : Models.Time) : Z :=
  Z.max (- 2 ^ 63) (Z.min (2 ^ 63 - 1) (t - u)).

(** The key that [RateLimiter.Middleware] counts a request under: the
    remote address, or the user of the path when there is one. *)
Definition limiterKey (r : Request) : string :=
  let u := parseUserFromPath (Path r) in
  if negb (String.eqb u EmptyString) then ("user:" +:+ u)%string else RemoteAddr r.

(** [RateLimiter.Middleware]; the limiter is part of the state. *)
Definition RateLimiter_Middleware (next : Handler St) : Handler (RateLimiter * St) :=
  fun e r st =>
    let rl := fst st in
    let key := limiterKey r in
    let now := arrival e in
    let limited :=
      match last rl !! key with
      | Some t => (Sub now t <? rate rl)%Z
      | None => false
      end in
    if limited then ([HttpError "rate limit exceeded" 429], st)
    else
      let rl' := mkRateLimiter (<[key := now]> (last rl)) (rate rl) in
      let (out, s') := next e r (snd st) in
      (out, (rl', s')).

End Handlers.

End Middleware.

(** ** Package server *)

Module Server.

Import Models Json Repo Service Http Decoder.

Definition defaultLimit : Z := 100.
Definition maxLimit : Z := 1000.

Definition writeJSON (status : Z) (v : payload) : list effect :=
  [SetHeader "Content-Type" "application/json"; WriteHeader status; Encode v].

(** The slice expression [l[lo:hi]] on a slice that is as long as its
    capacity; [None] is the run-time panic for bounds out of range. *)
Definition slice {A} (l : list A) (lo hi : Z) : option (list A) :=
  if (0 <=? lo)%Z && (lo <=? hi)%Z && (hi <=? Z.of_nat (length l))%Z
  then Some (take (Z.to_nat (hi - lo)) (drop (Z.to_nat lo) l))
  else None.

(** The rate limiter that [NewServer] builds:
    [time.Duration(cfg.RateLimitMillis) * time.Millisecond]. *)
Definition NewServer_limiter (cfg : Config.Config) : Middleware.RateLimiter :=
  Middleware.NewRateLimiter (Config.wrap64 (Config.RateLimitMillis cfg * Config.Millisecond)).

Section Handlers.

Context {R : Type} `{Repository R}.

(** The limit that [handleList] reads from the query. *)
Definition limitOf (r : Request) : Z :=
  let v := Values_Get (Query r) "limit" in
  if negb (String.eqb v EmptyString) then
    match Strconv.Atoi v with
    | Some n => if (n >? 0)%Z then (if (n >? maxLimit)%Z then maxLimit else n) else defaultLimit
    | None => defaultLimit
    end
  else defaultLimit.

(** The offset that [handleList] reads from the query. *)
Definition offsetOf (r : Request) : Z :=
  let v := Values_Get (Query r) "offset" in
  if negb (String.eqb v EmptyString) then
    match Strconv.Atoi v with
    | Some n => if (n >=? 0)%Z then n else 0%Z
    | None => 0%Z
    end
  else 0%Z.

Definition handleList (userID : string) : Handler (world R) := fun e r w =>
  let limit := limitOf r in
  let offset := offsetOf r in
  match ListFavourites (order e) userID w with
  | (Err err, w') => (writeJSON 400 (ErrorJSON err), w')
  | (Ok list, w') =>
    let len := Z.of_nat (length list) in
    let start := if (offset >? len)%Z then len else offset in
    let end_ := if (start + limit >? len)%Z then len else (start + limit)%Z in
    match slice list start end_ with
    | None => ([Panic], w')
    | Some page => (writeJSON 200 (PageJSON page len limit offset), w')
    end
  end.

Definition handleCreate (userID : string) : Handler (world R) := fun e r w =>
  match DecodeCreate (Body r) with
  | None => (writeJSON 400 (MessageJSON "invalid json body"), w)
  | Some payload =>
    match CreateFavourite (draws e) (clock e) userID (Decoder.Asset payload) w with
    | (Err err, w') => (writeJSON 400 (ErrorJSON err), w')
    | (Ok f, w') => (writeJSON 201 (FavouriteJSON f), w')
    end
  end.

Definition handlePatch (userID favID : string) : Handler (world R) := fun e r w =>
  match Decode (T := patchPayload) (Body r) with
  | Some (mkPatchPayload (Some description)) =>
    match UpdateFavouriteDescription userID favID description w with
    | (Err err, w') =>
      let status := if String.eqb (Error err) "invalid path" then 400%Z else 404%Z in
      (writeJSON status (ErrorJSON err), w')
    | (Ok upd, w') => (writeJSON 200 (FavouriteJSON upd), w')
    end
  | _ => (writeJSON 400 (MessageJSON "description is required"), w)
  end.

Definition handleDelete (userID favID : string) : Handler (world R) := fun e r w =>
  match DeleteFavourite userID favID w with
  | (Err err, w') =>
    let status := if String.eqb (Error err) "invalid path" then 400%Z else 404%Z in
    (writeJSON status (ErrorJSON err), w')
  | (Ok _, w') => ([WriteHeader 204], w')
  end.

(** The handlers of [/healthz] and [/readyz]. *)
Definition healthz : Handler (world R) := fun _ _ w =>
  ([SetHeader "Content-Type" "application/json"; Fprint (js "{'status':'ok'}")], w).

Definition readyz : Handler (world R) := fun _ _ w =>
  ([SetHeader "Content-Type" "application/json"; Fprint (js "{'ready':true}")], w).

Definition routeUsers : Handler (world R) := fun e r w =>
  let parts := Strings.Split (Strings.Trim (Path r) (chr 47)) (chr 47) in
  match parts with
  | p0 :: userID :: p2 :: rest =>
    if negb (String.eqb p0 "users") || negb (String.eqb p2 "favourites")
    then ([HttpNotFound], w)
    else
      let favID := match rest with f :: _ => f | [] => EmptyString end in
      if String.eqb (Method r) "GET" then
        if negb (String.eqb favID EmptyString) then ([HttpNotFound], w)
        else handleList userID e r w
      else if String.eqb (Method r) "POST" then
        if negb (String.eqb favID EmptyString) then ([HttpNotFound], w)
        else handleCreate userID e r w
      else if String.eqb (Method r) "PATCH" then
        if String.eqb favID EmptyString then ([HttpNotFound], w)
        else handlePatch userID favID e r w
      else if String.eqb (Method r) "DELETE" then
        if String.eqb favID EmptyString then ([HttpNotFound], w)
        else handleDelete userID favID e r w
      else ([HttpError "method not allowed" 405], w)
  | _ => ([HttpNotFound], w)
  end.

End Handlers.

End Server.

(** ** The vocabulary of the further properties *)

Module Behaviour.

Import Models Json Repo Service Spec Http Middleware.

(** *** States of the service *)

(** Whatever [Get] returns is a favourite that was allocated, and it
    carries the identifier it is stored under. *)
Definition allocated (w : world InMemoryRepo) : Prop :=
  forall u id p, fst (Get u id w) = Ok p ->
    p < length (objects w) /\ ID (deref (objects w) p) = id.

(** No favourite is stored in two places. *)
Definition unshared (w : world InMemoryRepo) : Prop :=
  forall u id u' id' p, fst (Get u id w) = Ok p -> fst (Get u' id' w) = Ok p ->
    u = u' /\ id = id'.

Definition consistent (w : world InMemoryRepo) : Prop := allocated w /\ unshared w.

(** The user that a call is made for. *)
Definition userOf (c : call) : string :=
  match c with
  | CallList _ u => u
  | CallCreate _ _ u _ => u
  | CallUpdate u _ _ => u
  | CallDelete u _ => u
  end.

(** The description a payload declares: the [description] field of a
    payload that is well formed, empty when the field is absent. *)
Definition declaredDescription (raw : RawMessage) : option string :=
  probe_Description <$> Unmarshal (T := probe) raw.

(** *** Paths and bodies *)

(** A path segment: a string without a slash. *)
Definition segment (s : string) : bool :=
  forallb_string (fun x => negb (Ascii.eqb x (chr 47))) s.

(** The two paths of the API. *)
Definition collection (u : string) : string := "/users/" +:+ u +:+ "/favourites".
Definition item (u id : string) : string := "/users/" +:+ u +:+ "/favourites/" +:+ id.

(** The request [r] sent with the method [m] to the path [p]. *)
Definition sentTo (m p : string) (r : Request) : Request :=
  mkRequest m p (Query r) (Header r) (RemoteAddr r) (Body r).

(** The asset that [DecodeCreate] picks from the members of a body, each
    with the text of its value. *)
Definition lastAsset (raws : list (string * string)) : string :=
  fold_left (fun acc kv => if equalFold "asset" (fst kv) then snd kv else acc)
            raws EmptyString.

(** A byte that a JSON string literal holds as it is: printable ASCII
    other than the double quote and the backslash. *)
Definition plainByte (c : ascii) : bool :=
  (32 <=? code c)%N && (code c <? 128)%N && negb (code c =? 34)%N && negb (code c =? 92)%N.

Definition plain (s : string) : bool := forallb_string plainByte s.

(** The body that consists of the one member description, with the value
    [d] between double quotes. *)
Definition patchBody (d : string) : string :=
  js "{'description':'" +:+ d +:+ js "'}".

(** *** Answers *)

(** The status that the client receives: the first [WriteHeader] counts,
    the first write without one sends 200, and so does a handler that
    returns without writing; [http.Error] and [http.NotFound] send their
    own.  A handler that panics sends none. *)
Fixpoint statusOf (out : list effect) : option Z :=
  match out with
  | [] => Some 200%Z
  | SetHeader _ _ :: rest => statusOf rest
  | WriteHeader c :: _ => Some c
  | Encode _ :: _ => Some 200%Z
  | Fprint _ :: _ => Some 200%Z
  | HttpError _ c :: _ => Some c
  | HttpNotFound :: _ => Some 404%Z
  | Panic :: _ => None
  end.

(** The four headers that [CORS] sets for an origin it allows. *)
Definition corsHeaders (origin : string) : list effect :=
  [SetHeader "Access-Control-Allow-Origin" origin;
   SetHeader "Vary" "Origin";
   SetHeader "Access-Control-Allow-Methods" "GET,POST,PATCH,DELETE,OPTIONS";
   SetHeader "Access-Control-Allow-Headers"
     "Content-Type, X-API-Key, Accept, Authorization"].

(** *** Sequences of requests *)

(** A handler serves the requests one after the other. *)
Fixpoint serve {St} (h : Handler St) (reqs : list (Env * Request)) (s : St)
  : list (list effect) * St :=
  match reqs with
  | [] => ([], s)
  | er :: rest =>
    let (out, s1) := h (fst er) (snd er) s in
    let (outs, s2) := serve h rest s1 in
    (out :: outs, s2)
  end.

(** The handler [next], keeping a list of the requests that reach it. *)
Definition logged {St} (next : Handler St) : Handler (list (Env * Request) * St) :=
  fun e r st =>
    let (out, s') := next e r (snd st) in
    (out, (fst st ++ [(e, r)], s')).

(** The requests arrive in the order of their times. *)
Definition inOrderOfArrival (reqs : list (Env * Request)) : Prop :=
  StronglySorted (fun a b => (arrival (fst a) <= arrival (fst b))%Z) reqs.

(** What a limiter knows of the requests in [log], those it has let
    through: the time it keeps for a key is not before any of them, and two
    of one key lie [rate] apart. *)
Definition spaced (rate : Z) (rl : RateLimiter) (log : list (Env * Request)) : Prop :=
  Middleware.rate rl = rate
  /\ (forall e r, (e, r) ∈ log ->
        exists t : Time, last rl !! limiterKey r = Some t /\ (arrival e <= t)%Z)
  /\ (forall i j e1 r1 e2 r2, i < j ->
        log !! i = Some (e1, r1) -> log !! j = Some (e2, r2) ->
        limiterKey r1 = limiterKey r2 ->
        (rate <= Sub (arrival e2) (arrival e1))%Z).

End Behaviour.

(** ** Test data for the handlers *)

Module Fixtures.

Import Models Json Repo Service Spec Examples Config Http Middleware Behaviour.

(** The surroundings of a request: the map is ranged over in order, [rnd]
    gives the draws, and the clocks read [now]. *)
Definition testEnv (rnd : nat -> nat) (now : Time) : Env := mkEnv inOrder rnd now now.

Definition address : string := "192.0.2.1:1234".

Definition get (p : string) : Request := mkRequest "GET" p ∅ ∅ address EmptyString.
Definition post (p body : string) : Request := mkRequest "POST" p ∅ ∅ address body.
Definition patch (p body : string) : Request := mkRequest "PATCH" p ∅ ∅ address body.
Definition delete_ (p : string) : Request := mkRequest "DELETE" p ∅ ∅ address EmptyString.

(** The bodies of [TestFavouritesCRUD_HTTP] and of
    [TestFavourites_ListPagination_WithData]. *)
Definition createBody : string :=
  js "{'asset':{'type':'insight','text':'hello','description':'d'}}".
Definition createBodyX : string :=
  js "{'asset':{'type':'insight','text':'x','description':'d'}}".
Definition chartBody : string := js "{'asset':" +:+ chartRaw +:+ "}".

(** The query [limit=2&offset=2]. *)
Definition page2 (p : string) : Request :=
  mkRequest "GET" p (<["limit" := ["2"]]> (<["offset" := ["2"]]> ∅)) ∅ address EmptyString.

(** Draws that spell the identifier that begins at the [k]-th letter. *)
Definition drawsFrom (k : nat) (i : nat) : nat := k + i.

(** The state after the five creations of
    [TestFavourites_ListPagination_WithData], made at the times 1 to 5. *)
Definition fiveCreated : world InMemoryRepo :=
  fold_left (fun w k =>
               snd (Server.routeUsers (testEnv (drawsFrom k) (Z.of_nat k))
                      (post "/users/kostas/favourites" createBodyX) w))
            [1; 2; 3; 4; 5]%nat emptyWorld.

(** The calls that lead to [world1] and to [world2], and calls for another
    user. *)
Definition oneCreate : list call := [CallCreate draws0 10%Z "kostas" insightRaw].
Definition twoCreates : list call :=
  [CallCreate draws0 10%Z "kostas" insightRaw; CallCreate draws1 10%Z "kostas" chartRaw].
Definition mariasCalls : list call :=
  [CallCreate draws0 12%Z "maria" insightRaw;
   CallUpdate "maria" "abcdefghijkl" "hers";
   CallCreate draws1 13%Z "maria" chartRaw;
   CallDelete "maria" "abcdefghijkl"].

(** A handler that answers nothing and counts the requests it gets. *)
Definition counting : Handler nat := fun _ _ n => ([], S n).

(** Three requests for the favourites of kostas, 0, 10 and 60 ms after the
    start, and the interval 50 ms. *)
Definition ms (n : Z) : Z := (n * Millisecond)%Z.
Definition at_ (t : Z) : Env := mkEnv inOrder draws0 t t.
Definition threeRequests : list (Env * Request) :=
  [(at_ (ms 0), get "/users/kostas/favourites");
   (at_ (ms 10), get "/users/kostas/favourites");
   (at_ (ms 60), get "/users/kostas/favourites/")].

(** A request without a key and one with the key [secret]. *)
Definition withKey (k : string) (r : Request) : Request :=
  mkRequest (Method r) (Path r) (Query r) (<["X-Api-Key" := [k]]> (Header r))
            (RemoteAddr r) (Body r).

(** The configuration of [newTestServer]. *)
Definition testConfig : Config :=
  mkConfig "0" "test" false 0 1048576 EmptyString
           (2 * Second) (2 * Second) (2 * Second) "info".

(** A request that names its origin in capitals. *)
Definition fromOrigin (o : string) (r : Request) : Request :=
  mkRequest (Method r) (Path r) (Query r) (<["Origin" := [o]]> (Header r))
            (RemoteAddr r) (Body r).

End Fixtures.

(** ** Listings compared, and two claims in their own words *)

Module Reading.

Import Models Json Repo Service Spec.

(** Two results of [ListFavourites] with the same favourites, in whatever
    order; two failures are the same when the error is. *)
Definition sameFavourites (a b : result (list loc)) : Prop :=
  match a, b with
  | Ok l, Ok l' => l ≡ₚ l'
  | Err e, Err e' => e = e'
  | _, _ => False
  end.

(** No two favourites stored for the user were created at the same time. *)
Definition distinctTimes (w : world InMemoryRepo) (userID : string) : Prop :=
  forall p q, p ∈ stored w userID -> q ∈ stored w userID ->
    CreatedAt (deref (objects w) p) = CreatedAt (deref (objects w) q) -> p = q.

(** The required fields of each kind, as the specification lists them. *)
Definition requiredFields (t : AssetType) : list string :=
  if String.eqb t AssetChart then ["title"; "data"]
  else if String.eqb t AssetInsight then ["text"]
  else if String.eqb t AssetAudience then ["gender"; "age_groups"]
  else [].

(** A value that is empty: null, the empty string or the empty array. *)
Definition emptyValue (v : value) : bool :=
  match v with
  | Null => true
  | Str s => isEmpty s
  | Array [] => true
  | _ => false
  end.

(** The field [name] is missing from the payload or empty in it: every
    member that selects the field, if there is one, holds an empty value. *)
Definition missingOrEmpty (name : string) (raw : RawMessage) : Prop :=
  forall kvs, parse raw = Some (Object kvs) ->
    Forall (fun kv => equalFold name (fst kv) = true -> emptyValue (snd kv) = true) kvs.

(** A payload of a recognised kind with a required field missing or empty,
    in these words and no more: nothing is asked of the other members. *)
Definition lacks_required_as_worded (raw : RawMessage) : Prop :=
  exists t name,
    declaredType raw = Some t /\ recognised t = true
    /\ name ∈ requiredFields t /\ missingOrEmpty name raw.

(** A well-formed payload: one that is valid JSON. *)
Definition wellFormed (raw : RawMessage) : Prop := parse raw <> None.

(** The member of an object that is named [name], letter for letter: the
    value under the last such key. *)
Definition memberNamed (name : string) (raw : RawMessage) : option value :=
  match parse raw with
  | Some (Object kvs) =>
    fold_left (fun acc kv => if String.eqb (fst kv) name then Some (snd kv) else acc)
              kvs None
  | _ => None
  end.

(** The type field is absent, or is not one of chart, insight and
    audience. *)
Definition typeAbsentOrUnknown (raw : RawMessage) : bool :=
  match memberNamed "type" raw with
  | None => true
  | Some (Str t) => negb (recognised t)
  | Some _ => true
  end.

(** An audience without gender whose purchases are no whole number; a
    payload whose type is a number; and an insight that spells the key of
    its type with a capital. *)
Definition genderlessRaw : RawMessage :=
  js "{'type':'audience','age_groups':['a'],'purchases_last_month':1.5}".
Definition numberTypeRaw : RawMessage := js "{'type':5}".
Definition capitalTypeRaw : RawMessage := js "{'Type':'insight','text':'x'}".

End Reading.

(** * Properties *)

Import Models Json Repo Service Spec Examples.

(** ** The library models *)

Section SortFacts.

Context {A : Type}.

Lemma insertBack_perm (less : A -> A -> bool) x rp :
  Sort.insertBack less x rp ≡ₚ x :: rp.
Proof.
  induction rp as [|y rp IH]; simpl; [done|].
  destruct (less x y); [|done].
  rewrite IH. apply Permutation_swap.
Qed.

Lemma fold_insertBack_perm (less : A -> A -> bool) l acc :
  fold_left (fun rp x => Sort.insertBack less x rp) l acc ≡ₚ l ++ acc.
Proof.
  revert acc. induction l as [|x l IH]; intros acc; simpl; [done|].
  rewrite IH, insertBack_perm. by rewrite Permutation_middle.
Qed.

(** [sort.Slice] rearranges, it neither drops nor repeats. *)
Lemma Slice_perm (less : A -> A -> bool) l : Sort.Slice less l ≡ₚ l.
Proof.
  unfold Sort.Slice. rewrite <- Permutation_rev, fold_insertBack_perm.
  by rewrite app_nil_r.
Qed.

Context (key : A -> Z).

Let less (x y : A) : bool := (key y <? key x)%Z.
Let asc (x y : A) : Prop := (key x <= key y)%Z.

Lemma insertBack_sorted x rp :
  StronglySorted asc rp -> StronglySorted asc (Sort.insertBack less x rp).
Proof.
  induction rp as [|y rp IH]; simpl; intros Hs.
  { repeat constructor. }
  apply StronglySorted_cons in Hs as [Hy Hs].
  unfold less at 1. destruct (Z.ltb_spec (key y) (key x)) as [Hlt|Hge].
  - apply StronglySorted_cons. split; [|by apply IH].
    rewrite insertBack_perm. constructor; [unfold asc; lia|done].
  - apply StronglySorted_cons. split; [|by apply StronglySorted_cons].
    constructor; [done|].
    eapply Forall_impl; [exact Hy|]. unfold asc. intros; lia.
Qed.

Lemma fold_insertBack_sorted l acc :
  StronglySorted asc acc ->
  StronglySorted asc (fold_left (fun rp x => Sort.insertBack less x rp) l acc).
Proof.
  revert acc. induction l as [|x l IH]; intros acc Hs; simpl; [done|].
  by apply IH, insertBack_sorted.
Qed.

Lemma StronglySorted_rev (R : relation A) l :
  StronglySorted R l -> StronglySorted (flip R) (rev l).
Proof.
  induction 1 as [|x l Hs IH Hx]; simpl; [constructor|].
  apply StronglySorted_app_2; [|done|repeat constructor].
  intros x1 x2 H1 H2. apply list_elem_of_singleton in H2 as ->.
  rewrite Forall_forall in Hx. apply Hx. rewrite list_elem_of_In in *.
  by apply in_rev.
Qed.

(** Sorting by "has the larger key" leaves the keys in descending order. *)
Lemma Slice_sorted l :
  StronglySorted (fun x y => (key y <= key x)%Z) (Sort.Slice less l).
Proof.
  unfold Sort.Slice.
  apply (StronglySorted_rev asc), fold_insertBack_sorted. constructor.
Qed.

End SortFacts.

(** *** The JSON parser *)

Section ParserFacts.

Lemma skipSpace_length s : String.length (skipSpace s) <= String.length s.
Proof. induction s as [|c s IH]; simpl; [lia|]. destruct (isSpace c); simpl; lia. Qed.

Lemma consM_Some pre o t r :
  consM pre o = Some (t, r) -> exists t', o = Some (t', r).
Proof. destruct o as [[t' r']|]; simpl; [|done]. intros [= _ <-]. by exists t'. Qed.

Lemma scanString_length s t r : scanString s = Some (t, r) -> String.length r < String.length s.
Proof.
  remember (String.length s) as n eqn:Hn. revert s t r Hn.
  induction n as [n IH] using lt_wf_ind. intros s t r -> Hs.
  assert (Hrec : forall pre s' t', String.length s' < String.length s ->
            consM pre (scanString s') = Some (t', r) -> String.length r < String.length s).
  { intros pre s' t' Hlt Hc. apply consM_Some in Hc as (t'' & Hc).
    pose proof (IH _ Hlt s' t'' r eq_refl Hc). lia. }
  destruct s as [|c s]; [done|]. simpl in Hs.
  repeat (match type of Hs with
          | context [if ?b then _ else _] => destruct b
          | context [match ?x with _ => _ end] => destruct x
          | Some _ = Some _ => injection Hs as <- <-
          | None = Some _ => discriminate Hs
          | consM _ (scanString _) = Some _ => eapply Hrec in Hs; [|simpl; lia]
          end); simpl in *; try lia.
Qed.

Lemma spanDigits_length s : String.length (snd (spanDigits s)) <= String.length s.
Proof.
  induction s as [|c s IH]; simpl; [lia|].
  destruct (isDigit c); simpl; [|lia].
  destruct (spanDigits s); simpl in *; lia.
Qed.

Lemma scanNumber_length s n r : scanNumber s = Some (n, r) -> String.length r < String.length s.
Proof.
  unfold scanNumber. intros Hs.
  destruct s as [|c s]; [done|].
  repeat (match type of Hs with
          | context [spanDigits ?x] =>
            pose proof (spanDigits_length x); destruct (spanDigits x); simpl in *
          | context [if ?b then _ else _] => destruct b
          | context [match ?x with _ => _ end] => is_var x; destruct x
          | Some _ = Some _ => injection Hs as <- <-
          | None = Some _ => discriminate Hs
          end; simpl in * ); simpl in *; try lia.
Qed.

Lemma stripPrefix_length p s r : stripPrefix p s = Some r -> String.length r <= String.length s.
Proof.
  revert s. induction p as [|a p IH]; intros [|b s]; simpl; try done.
  - by intros [= <-].
  - by intros [= <-].
  - destruct (Ascii.eqb a b); [|done]. intros Hs%IH. lia.
Qed.

(** Fuel is never what stops the parser: a parse that succeeds with some
    fuel succeeds with two units for every byte it reads. *)
Lemma parse_fuel m :
  (forall d s v r, parseValue m d s = Some (v, r) ->
     String.length r < String.length s /\ forall n, 2 * (String.length s - String.length r) <= n -> parseValue n d s = Some (v, r))
  /\ (forall d s vs r, parseElements m d s = Some (vs, r) ->
     String.length r < String.length s /\ forall n, 2 * (String.length s - String.length r) + 1 <= n -> parseElements n d s = Some (vs, r))
  /\ (forall d s kvs r, parseMembers m d s = Some (kvs, r) ->
     String.length r < String.length s /\ forall n, 2 * (String.length s - String.length r) + 1 <= n -> parseMembers n d s = Some (kvs, r)).
Proof.
  induction m as [|m (IHv & IHe & IHm)]; [done|].
  split; [|split].
  - intros d s v r Hs. destruct s as [|c s']; [done|]. cbn [parseValue parseElements parseMembers] in Hs.
    pose proof (skipSpace_length s') as Lsk.
    destruct (code c =? 123)%N eqn:E1.
    { destruct (maxNestingDepth <=? d)%N eqn:E2; [done|].
      destruct (skipSpace s') as [|c' r'] eqn:E3; [done|]. simpl in Lsk.
      destruct (code c' =? 125)%N eqn:E4.
      { injection Hs as <- <-. split; [simpl; lia|].
        intros [|n] Hn; [simpl in Hn; lia|]. cbn [parseValue parseElements parseMembers]. by rewrite E1, E2, E3, E4. }
      destruct (parseMembers m (d + 1) (String c' r')) as [[kvs r'']|] eqn:E5; [|done].
      injection Hs as <- <-. apply IHm in E5 as [L5 F5]. simpl in L5.
      split; [simpl; lia|].
      intros [|n] Hn; [simpl in Hn; lia|]. cbn [parseValue parseElements parseMembers]. rewrite E1, E2, E3, E4, F5; [done|].
      simpl in *. lia. }
    destruct (code c =? 91)%N eqn:E1'.
    { destruct (maxNestingDepth <=? d)%N eqn:E2; [done|].
      destruct (skipSpace s') as [|c' r'] eqn:E3; [done|]. simpl in Lsk.
      destruct (code c' =? 93)%N eqn:E4.
      { injection Hs as <- <-. split; [simpl; lia|].
        intros [|n] Hn; [simpl in Hn; lia|]. cbn [parseValue parseElements parseMembers]. by rewrite E1, E1', E2, E3, E4. }
      destruct (parseElements m (d + 1) (String c' r')) as [[vs r'']|] eqn:E5; [|done].
      injection Hs as <- <-. apply IHe in E5 as [L5 F5]. simpl in L5.
      split; [simpl; lia|].
      intros [|n] Hn; [simpl in Hn; lia|]. cbn [parseValue parseElements parseMembers]. rewrite E1, E1', E2, E3, E4, F5; [done|].
      simpl in *. lia. }
    assert (Hleaf : String.length r < String.length (String c s') ->
              String.length r < String.length (String c s')
              /\ forall n, 2 * (String.length (String c s') - String.length r) <= n ->
                           parseValue n d (String c s') = Some (v, r)).
    { intros L. split; [done|]. intros [|n] Hn; [simpl in *; lia|].
      cbn [parseValue parseElements parseMembers]. rewrite E1, E1'. exact Hs. }
    apply Hleaf. clear Hleaf.
    destruct (code c =? 34)%N.
    { destruct (scanString s') as [[t r']|] eqn:E; [|done]. injection Hs as _ <-.
      apply scanString_length in E. simpl. lia. }
    destruct (code c =? 116)%N.
    { destruct (stripPrefix "rue" s') as [r'|] eqn:E; [|done]. injection Hs as _ <-.
      apply stripPrefix_length in E. simpl. lia. }
    destruct (code c =? 102)%N.
    { destruct (stripPrefix "alse" s') as [r'|] eqn:E; [|done]. injection Hs as _ <-.
      apply stripPrefix_length in E. simpl. lia. }
    destruct (code c =? 110)%N.
    { destruct (stripPrefix "ull" s') as [r'|] eqn:E; [|done]. injection Hs as _ <-.
      apply stripPrefix_length in E. simpl. lia. }
    destruct (scanNumber (String c s')) as [[k r']|] eqn:E; [|done]. injection Hs as _ <-.
    by apply scanNumber_length in E.
  - intros d s vs r Hs. cbn [parseValue parseElements parseMembers] in Hs.
    destruct (parseValue m d s) as [[v r1]|] eqn:E1; [|done].
    apply IHv in E1 as [L1 F1].
    pose proof (skipSpace_length r1) as Lsk.
    destruct (skipSpace r1) as [|c r2] eqn:E2; [done|]. simpl in Lsk.
    destruct (code c =? 44)%N eqn:E3.
    + pose proof (skipSpace_length r2) as Lsk2.
      destruct (parseElements m d (skipSpace r2)) as [[vs' r3]|] eqn:E4; [|done].
      injection Hs as <- <-. apply IHe in E4 as [L4 F4].
      split; [lia|].
      intros [|n] Hn; [lia|]. cbn [parseValue parseElements parseMembers]. rewrite F1 by lia. rewrite E2, E3, F4; [done|lia].
    + destruct (code c =? 93)%N eqn:E4; [|done]. injection Hs as <- <-.
      split; [lia|].
      intros [|n] Hn; [lia|]. cbn [parseValue parseElements parseMembers]. rewrite F1 by lia. by rewrite E2, E3, E4.
  - intros d s kvs r Hs. destruct s as [|q s']; [done|]. cbn [parseValue parseElements parseMembers] in Hs.
    destruct (negb (code q =? 34)%N) eqn:E0; [done|].
    destruct (scanString s') as [[k r1]|] eqn:E1; [|done].
    pose proof (scanString_length _ _ _ E1) as L1.
    pose proof (skipSpace_length r1) as Lsk1.
    destruct (skipSpace r1) as [|c r2] eqn:E2; [done|]. simpl in Lsk1.
    destruct (negb (code c =? 58)%N) eqn:E3; [done|].
    pose proof (skipSpace_length r2) as Lsk2.
    destruct (parseValue m d (skipSpace r2)) as [[v r3]|] eqn:E4; [|done].
    apply IHv in E4 as [L4 F4].
    pose proof (skipSpace_length r3) as Lsk3.
    destruct (skipSpace r3) as [|c' r4] eqn:E5; [done|]. simpl in Lsk3.
    destruct (code c' =? 44)%N eqn:E6.
    + pose proof (skipSpace_length r4) as Lsk4.
      destruct (parseMembers m d (skipSpace r4)) as [[kvs' r5]|] eqn:E7; [|done].
      injection Hs as <- <-. apply IHm in E7 as [L7 F7].
      split; [simpl; lia|].
      intros [|n] Hn; [simpl in Hn; lia|]. cbn [parseValue parseElements parseMembers]. rewrite E0, E1, E2, E3.
      rewrite F4 by (simpl in Hn; lia). rewrite E5, E6, F7; [done|simpl in Hn; lia].
    + destruct (code c' =? 125)%N eqn:E7; [|done]. injection Hs as <- <-.
      split; [simpl; lia|].
      intros [|n] Hn; [simpl in Hn; lia|]. cbn [parseValue parseElements parseMembers]. rewrite E0, E1, E2, E3.
      rewrite F4 by (simpl in Hn; lia). by rewrite E5, E6, E7.
Qed.

(** The fuel that [parse] hands out is enough for every input. *)
Lemma parseValue_enough_fuel m d s x :
  parseValue m d s = Some x -> parseValue (2 * String.length s + 2) d s = Some x.
Proof.
  destruct x as [v r]. intros Hs.
  destruct (parse_fuel m) as (Hv & _ & _). destruct (Hv d s v r Hs) as [_ F].
  apply F. lia.
Qed.

(** [parse] finds every value that the parser finds with any fuel at all. *)
Lemma parse_complete m data v r :
  parseValue m 0 (skipSpace data) = Some (v, r) ->
  skipSpace r = EmptyString ->
  parse data = Some v.
Proof.
  intros Hs Hr. unfold parse.
  destruct (parse_fuel m) as (Hv & _ & _). destruct (Hv _ _ _ _ Hs) as [_ F].
  rewrite F, Hr; [done|].
  pose proof (skipSpace_length data). lia.
Qed.

End ParserFacts.

(** ** The repository *)

Section RepoFacts.

Implicit Types (w : world InMemoryRepo) (rho : RangeOrder) (userID favID : string).

Lemma List_ok rho userID w :
  exists l, List rho userID w = (Ok l, w)
            /\ l ≡ₚ stored w userID
            /\ newestFirst (objects w) l.
Proof.
  eexists. split; [reflexivity|]. split.
  - rewrite Slice_perm. unfold stored. by rewrite (visit_perm rho).
  - apply (Slice_sorted (fun p => CreatedAt (deref (objects w) p))).
Qed.

(** Where no two favourites of the user share a timestamp, the order of
    the map iteration does not show in the result. *)
Lemma List_deterministic rho1 rho2 userID w :
  (forall p q, p ∈ stored w userID -> q ∈ stored w userID ->
               CreatedAt (deref (objects w) p) = CreatedAt (deref (objects w) q) -> p = q) ->
  List rho1 userID w = List rho2 userID w.
Proof.
  intros Hinj.
  destruct (List_ok rho1 userID w) as (l1 & -> & Hp1 & Hs1).
  destruct (List_ok rho2 userID w) as (l2 & -> & Hp2 & Hs2).
  f_equal. f_equal.
  eapply StronglySorted_unique_strong; [|exact Hs1|exact Hs2|by rewrite Hp1, Hp2].
  intros p q Hp Hq H1 H2. apply Hinj; [by rewrite <- Hp1|by rewrite <- Hp2|].
  simpl in *. lia.
Qed.

Lemma Create_ok userID fav w :
  Create userID fav w
  = (Ok tt,
     mkWorld (objects w)
       (mkRepo (<[userID := <[ID (deref (objects w) fav) := fav]> (userMap (repo w) userID)]>
                  (data (repo w))))).
Proof. reflexivity. Qed.

Lemma Get_Create userID fav w u id :
  fst (Get u id (snd (Create userID fav w)))
  = if decide (u = userID /\ id = ID (deref (objects w) fav)) then Ok fav
    else fst (Get u id w).
Proof.
  simpl. unfold InMemoryRepo_Get, userMap. simpl.
  destruct (decide (u = userID)) as [->|Hu].
  - rewrite lookup_insert_eq.
    destruct (decide (id = ID (deref (objects w) fav))) as [->|Hid].
    + rewrite lookup_insert_eq. by rewrite decide_True.
    + rewrite lookup_insert_ne; [|done].
      rewrite decide_False; [|intros [_ ?]; congruence].
      destruct (data (repo w) !! userID) as [m|]; simpl; [by destruct (m !! id)|].
      by rewrite lookup_empty.
  - rewrite lookup_insert_ne; [|done]. rewrite decide_False; [|intros [? _]; congruence].
    destruct (data (repo w) !! u) as [m|]; [by destruct (m !! id)|done].
Qed.

End RepoFacts.

(** ** The tests of the repository, run on the model *)

Section Tests.

(** [TestService_CreateListUpdateDelete]: two creations, a list of two
    with the newer first, an update of the first, its delete, a list of
    one. *)
Example test_CreateListUpdateDelete :
  validateAsset testInsightRaw = Ok (AssetInsight, "baseline")
  /\ validateAsset chartRaw = Ok (AssetChart, "c1")
  /\ fst (ListFavourites inOrder "kostas" testWorld2) = Ok [1; 0]
  /\ fst (ListFavourites backwards "kostas" testWorld2) = Ok [1; 0]
  /\ fst (UpdateFavouriteDescription "kostas" "abcdefghijkl" "updated" testWorld2) = Ok 0
  /\ FavDescription (deref (objects testWorld3) 0) = "updated"
  /\ fst (DeleteFavourite "kostas" "abcdefghijkl" testWorld3) = Ok tt
  /\ fst (ListFavourites inOrder "kostas" testWorld4) = Ok [1].
Proof. vm_compute. repeat split. Qed.

(** [TestService_ValidationErrors]. *)
Example test_ValidationErrors :
  fst (ListFavourites inOrder "!!!" emptyWorld) = Err ErrInvalidUserID
  /\ fst (CreateFavourite draws0 10%Z "ok_user" unknownRaw emptyWorld) = Err ErrUnknownAssetType
  /\ fst (CreateFavourite draws0 10%Z "ok_user" badChartRaw emptyWorld) = Err ErrChartNeeds.
Proof. vm_compute. repeat split. Qed.

(** The pattern on the edges of the Identity Rule: 64 characters pass and
    65 do not, nor does the empty string, a final newline, or a letter
    outside ASCII. *)
Example test_ValidateUserID :
  ValidateUserID "kostas" = true
  /\ ValidateUserID "ok_user-1" = true
  /\ ValidateUserID "aaaaaaaaaaaaaaaaaaaaaaaaaaaaaaaaaaaaaaaaaaaaaaaaaaaaaaaaaaaaaaaa" = true
  /\ ValidateUserID "aaaaaaaaaaaaaaaaaaaaaaaaaaaaaaaaaaaaaaaaaaaaaaaaaaaaaaaaaaaaaaaaa" = false
  /\ ValidateUserID EmptyString = false
  /\ ValidateUserID "!!!" = false
  /\ ValidateUserID ("kostas" +:+ str1 (chr 10)) = false
  /\ ValidateUserID "é" = false.
Proof. vm_compute. repeat split. Qed.

(** The decoder on payloads off the beaten track: a key in another case
    selects the field; of a key given twice the later value stands; a
    top-level null decodes to the zero struct; a value of the wrong kind, a
    number too large for a float64 and a fraction for an int are errors of
    the decode, also in a field that is not required. *)
Example test_decoding :
  validateAsset (js "{'TYPE':'insight','Text':'x'}") = Ok (AssetInsight, EmptyString)
  /\ validateAsset (js "{'type':'chart','type':'insight','text':'x'}")
      = Ok (AssetInsight, EmptyString)
  /\ validateAsset (js "null") = Err ErrUnknownAssetType
  /\ validateAsset (js "{}") = Err ErrUnknownAssetType
  /\ validateAsset (js "{'type':5}") = Err ErrInvalidAssetJSON
  /\ validateAsset (js "[1,2]") = Err ErrInvalidAssetJSON
  /\ validateAsset (js "{'type':'chart'") = Err ErrInvalidAssetJSON
  /\ validateAsset (js "{'type':'chart','data':'x'}") = Err ErrInvalidChart
  /\ validateAsset (js "{'type':'chart','title':'t','data':[1e999]}") = Err ErrInvalidChart
  /\ validateAsset (js "{'type':'chart','title':'t','data':[1],'axis_x_title':7}")
      = Err ErrInvalidChart
  /\ validateAsset (js "{'type':'audience','gender':'f','age_groups':['a'],'purchases_last_month':1.5}")
      = Err ErrInvalidAudience
  /\ validateAsset (js "{'type':'audience','gender':' ','age_groups':['a']}")
      = Ok (AssetAudience, EmptyString)
  /\ validateAsset audienceRaw = Ok (AssetAudience, "Frequent social media users").
Proof. vm_compute. repeat split. Qed.

End Tests.

(** ** C1: the order of List *)

Section C1.

(** C1 (evaluation at the failing input).  kostas has two favourites with
    the same createdAt.  On this one store, List returns them in the order
    in which the map iteration happened to visit them: one order when the
    iteration goes one way, the other order when it goes the other way.
    Both results are sorted by createdAt, and the store is the same after
    each call; no second key settles the tie. *)
Theorem C1_List_tie_follows_iteration_order :
  CreatedAt (deref (objects world2) 0) = CreatedAt (deref (objects world2) 1)
  /\ ListFavourites inOrder "kostas" world2 = (Ok [0; 1], world2)
  /\ ListFavourites backwards "kostas" world2 = (Ok [1; 0], world2).
Proof. vm_compute. auto. Qed.

End C1.

(** ** C2: Create on an identifier that is already stored *)

Section C2.

(** C2 (counterexample).  kostas already has a favourite under
    abcdefghijkl, at location 0.  Handing the repository a second favourite
    with that identifier, at location 1, is not refused: [Create] returns no
    error, and from then on the identifier leads to the second favourite;
    the first is no longer listed. *)
Lemma C2_Create_accepts_duplicate :
  fst (Get "kostas" "abcdefghijkl" world1') = Ok 0
  /\ ID (deref (objects world1') 1) = "abcdefghijkl"
  /\ fst (Create "kostas" 1 world1') = Ok tt
  /\ fst (Get "kostas" "abcdefghijkl" (snd (Create "kostas" 1 world1'))) = Ok 1
  /\ fst (List inOrder "kostas" (snd (Create "kostas" 1 world1'))) = Ok [1].
Proof. vm_compute. auto 6. Qed.

(** C2 (amended).  [Create] never fails.  It files the favourite under the
    user and the favourite's identifier, so that [Get] finds it there,
    whether or not the user had a favourite under that identifier before;
    what [Get] finds under any other user or identifier is as before, and
    no favourite object is touched. *)
Theorem C2_Create_files_under_id
    (userID : string) (fav : loc) (f : Favourite) (w : world InMemoryRepo) :
  objects w !! fav = Some f ->
  exists w',
    Create userID fav w = (Ok tt, w')
    /\ objects w' = objects w
    /\ fst (Get userID (ID f) w') = Ok fav
    /\ forall u id, ~ (u = userID /\ id = ID f) -> fst (Get u id w') = fst (Get u id w).
Proof.
  intros Hf.
  assert (Hd : deref (objects w) fav = f) by (unfold deref; by rewrite Hf).
  eexists. split; [apply Create_ok|]. split; [done|].
  pose proof (Get_Create userID fav w) as HG.
  rewrite Create_ok, Hd in HG. simpl snd in HG. rewrite Hd.
  split.
  - rewrite HG. by rewrite decide_True.
  - intros u id Hne. rewrite HG. by rewrite decide_False.
Qed.

End C2.

(** C2 (amended) on the favourite that takes the place of another. *)
Lemma C2_witness :
  objects world1' !! 1 = Some (mkFavourite "abcdefghijkl" AssetChart "c1" chartRaw 11%Z)
  /\ exists w',
       Create "kostas" 1 world1' = (Ok tt, w')
       /\ objects w' = objects world1'
       /\ fst (Get "kostas" "abcdefghijkl" w') = Ok 1
       /\ forall u id, ~ (u = "kostas" /\ id = "abcdefghijkl") ->
                       fst (Get u id w') = fst (Get u id world1').
Proof.
  split; [vm_compute; reflexivity|].
  apply (C2_Create_files_under_id "kostas" 1
           (mkFavourite "abcdefghijkl" AssetChart "c1" chartRaw 11%Z) world1').
  vm_compute. reflexivity.
Defined.

(** ** C3: the Identity Rule *)

Section C3.

Lemma userIDRe_class_identity_char c :
  Regexp.userIDRe_class c = identity_char c.
Proof. by destruct c as [[] [] [] [] [] [] [] []]. Qed.

Lemma forallb_string_list p q s :
  (forall c, p c = q c) ->
  forallb_string p s = forallb q (list_ascii_of_string s).
Proof. intros E. induction s as [|c s IH]; simpl; [done|]. by rewrite IH, E. Qed.

(** The pattern of the service says what the Identity Rule says. *)
Lemma ValidateUserID_identity_rule userID :
  ValidateUserID userID = identity_rule userID.
Proof.
  unfold ValidateUserID, Regexp.userIDRe_MatchString, identity_rule.
  rewrite (forallb_string_list _ _ _ userIDRe_class_identity_char).
  destruct (forallb _ _), (1 <=? _), (_ <=? 64); reflexivity.
Qed.

Context {R : Type} `{Repository R}.

(** C3.  Whatever repository is behind the service: for a user identifier
    that does not meet the Identity Rule, each of the four operations fails
    and returns the state it was given, the repository's part included.
    ListFavourites and CreateFavourite fail with the invalid-user-id error,
    UpdateFavouriteDescription and DeleteFavourite with the invalid-path
    error; both errors are of kind InvalidIdentity.  The repository is a
    parameter of the statement, so no method of it has a say in the
    result. *)
Theorem C3_invalid_identity_stops_before_store
    (w : world R) (rho : RangeOrder) (rnd : nat -> nat) (now : Time)
    (userID favID desc : string) (raw : RawMessage) :
  identity_rule userID = false ->
  ListFavourites rho userID w = (Err ErrInvalidUserID, w)
  /\ CreateFavourite rnd now userID raw w = (Err ErrInvalidUserID, w)
  /\ UpdateFavouriteDescription userID favID desc w = (Err ErrInvalidPath, w)
  /\ DeleteFavourite userID favID w = (Err ErrInvalidPath, w)
  /\ kind_of ErrInvalidUserID = InvalidIdentity
  /\ kind_of ErrInvalidPath = InvalidIdentity.
Proof.
  intros Hid. rewrite <- ValidateUserID_identity_rule in Hid.
  unfold ListFavourites, CreateFavourite, UpdateFavouriteDescription, DeleteFavourite.
  rewrite Hid. simpl. repeat split.
Qed.

End C3.

(** C3 at a repository that counts its calls: the count stays at 0. *)
Lemma C3_witness :
  identity_rule "!!!" = false
  /\ ListFavourites inOrder "!!!" spyWorld = (Err ErrInvalidUserID, spyWorld)
  /\ CreateFavourite draws0 10%Z "!!!" insightRaw spyWorld = (Err ErrInvalidUserID, spyWorld)
  /\ UpdateFavouriteDescription "!!!" "abcdefghijkl" "d" spyWorld
     = (Err ErrInvalidPath, spyWorld)
  /\ DeleteFavourite "!!!" "abcdefghijkl" spyWorld = (Err ErrInvalidPath, spyWorld)
  /\ kind_of ErrInvalidUserID = InvalidIdentity
  /\ kind_of ErrInvalidPath = InvalidIdentity.
Proof.
  split; [reflexivity|].
  apply (C3_invalid_identity_stops_before_store (R := nat)). reflexivity.
Defined.

(** ** The validator *)

Section ValidatorFacts.

Lemma declaredType_Some raw t :
  declaredType raw = Some t ->
  exists p, Unmarshal (T := probe) raw = Some p /\ probe_Type p = t.
Proof.
  unfold declaredType. destruct (Unmarshal raw) as [p|]; simpl; [|done].
  intros [= <-]. by exists p.
Qed.

Lemma TrimSpace_empty : Strings.TrimSpace EmptyString = EmptyString.
Proof. reflexivity. Qed.

(** A field that no key of the payload selects keeps its zero value. *)
Lemma decodeObject_keeps {T X} `{Struct T} (field : T -> X) (name : string)
    (kvs : list (string * value)) (t : T) :
  (forall k v t', equalFold name k = false -> field (fst (setField k v t')) = field t') ->
  Forall (fun kv => equalFold name (fst kv) = false) kvs ->
  field (fst (decodeObject kvs t)) = field t.
Proof.
  intros Hstep Hall. unfold decodeObject.
  generalize true as ok. revert t.
  induction Hall as [|[k v] kvs Hk _ IH]; intros t ok; simpl; [done|].
  destruct (setField k v t) as [t' ok'] eqn:Hs. simpl.
  rewrite IH. change t' with (fst (t', ok')). rewrite <- Hs. by apply Hstep.
Qed.

Lemma Unmarshal_missing {T X} `{Struct T} (field : T -> X) (name : string)
    (raw : RawMessage) (t : T) :
  (forall k v t', equalFold name k = false -> field (fst (setField k v t')) = field t') ->
  Unmarshal raw = Some t -> lacksKey name raw -> field t = field zero.
Proof.
  intros Hstep Hu Hl. unfold Unmarshal in Hu.
  destruct (parse raw) as [[| | | | |kvs]|] eqn:Hp; try done.
  - by injection Hu as <-.
  - pose proof (decodeObject_keeps field name kvs zero Hstep (Hl kvs Hp)) as Hk.
    destruct (decodeObject kvs zero) as [t' ok]. destruct ok; [|done].
    by injection Hu as <-.
Qed.

Ltac field_kept :=
  intros k v t' Hk; simpl;
  repeat match goal with
         | |- context [AssetBase_setField ?k ?v ?b] =>
           destruct (AssetBase_setField k v b) as [[? ?]|]; [reflexivity|]
         | |- context [if equalFold ?n ?k then _ else _] =>
           destruct (equalFold n k) eqn:?; [try congruence|]
         | |- context [let (_, _) := ?e in _] => destruct e
         end; try reflexivity.

Lemma missing_title raw c :
  Unmarshal raw = Some c -> lacksKey "title" raw -> Title c = EmptyString.
Proof.
  intros Hu Hl. refine (Unmarshal_missing Title "title" raw c _ Hu Hl). field_kept.
Qed.

Lemma missing_data raw c :
  Unmarshal raw = Some c -> lacksKey "data" raw -> Data c = [].
Proof.
  intros Hu Hl. refine (Unmarshal_missing Data "data" raw c _ Hu Hl). field_kept.
Qed.

Lemma missing_text raw i :
  Unmarshal raw = Some i -> lacksKey "text" raw -> Text i = EmptyString.
Proof.
  intros Hu Hl. refine (Unmarshal_missing Text "text" raw i _ Hu Hl). field_kept.
Qed.

Lemma missing_gender raw a :
  Unmarshal raw = Some a -> lacksKey "gender" raw -> Gender a = EmptyString.
Proof.
  intros Hu Hl. refine (Unmarshal_missing Gender "gender" raw a _ Hu Hl). field_kept.
Qed.

Lemma missing_age_groups raw a :
  Unmarshal raw = Some a -> lacksKey "age_groups" raw -> AgeGroups a = [].
Proof.
  intros Hu Hl. refine (Unmarshal_missing AgeGroups "age_groups" raw a _ Hu Hl). field_kept.
Qed.

Lemma missing_type raw t :
  declaredType raw = Some t -> lacksKey "type" raw -> t = EmptyString.
Proof.
  intros (p & Hp & <-)%declaredType_Some Hl.
  refine (Unmarshal_missing probe_Type "type" raw p _ Hp Hl). field_kept.
Qed.

(** A required field that is missing or empty is a schema violation. *)
Lemma validateAsset_lacks raw :
  lacks_required raw ->
  exists e, validateAsset raw = Err e /\ kind_of e = SchemaViolation.
Proof.
  intros [c Ht Hc Hf|i Ht Hi Hf|a Ht Ha Hf];
    apply declaredType_Some in Ht as (p & Hp & Hty);
    unfold validateAsset; rewrite Hp, Hty; simpl.
  - rewrite Hc. exists ErrChartNeeds. split; [|done].
    assert (Title c = EmptyString \/ Data c = []) as [-> | ->].
    { destruct Hf as [?|[?|[?|?]]]; eauto using missing_title, missing_data. }
    + done.
    + simpl. by rewrite orb_true_r.
  - rewrite Hi. exists ErrInsightNeeds. split; [|done].
    assert (Text i = EmptyString) as ->; [|done].
    destruct Hf as [?|?]; eauto using missing_text.
  - rewrite Ha. exists ErrAudienceNeeds. split; [|done].
    assert (Gender a = EmptyString \/ AgeGroups a = []) as [-> | ->].
    { destruct Hf as [?|[?|[?|?]]]; eauto using missing_gender, missing_age_groups. }
    + done.
    + simpl. by rewrite orb_true_r.
Qed.

Lemma length_eqb_0 {A} (l : list A) : l <> [] -> (length l =? 0) = false.
Proof. by destruct l. Qed.

Lemma isEmpty_false s : s <> EmptyString -> isEmpty s = false.
Proof. intros Hs. by apply String.eqb_neq. Qed.

(** A payload that meets the rules of its kind, white space not counting
    as a title or a text, passes with the kind it declares. *)
Lemma validateAsset_meets raw t :
  meets_rules nonBlank raw t ->
  exists desc, validateAsset raw = Ok (t, desc).
Proof.
  intros [c Ht Hc Hf Hd|i Ht Hi Hf|a Ht Ha Hg Hd];
    apply declaredType_Some in Ht as (p & Hp & Hty);
    unfold validateAsset; rewrite Hp, Hty; simpl.
  - rewrite Hc. unfold nonBlank, blank in Hf. rewrite Hf, length_eqb_0 by done.
    by eexists.
  - rewrite Hi. unfold nonBlank, blank in Hf. rewrite Hf. by eexists.
  - rewrite Ha. rewrite isEmpty_false, length_eqb_0 by done. by eexists.
Qed.

(** A type that is none of the three is an unknown asset type. *)
Lemma validateAsset_unknown raw t :
  declaredType raw = Some t -> recognised t = false ->
  validateAsset raw = Err ErrUnknownAssetType.
Proof.
  intros Ht Hr. apply declaredType_Some in Ht as (p & Hp & Hty).
  unfold validateAsset. rewrite Hp, Hty.
  unfold recognised in Hr. apply orb_false_elim in Hr as [Hr Ha].
  apply orb_false_elim in Hr as [Hc Hi]. by rewrite Hc, Hi, Ha.
Qed.

(** The kind that comes out of the validator is the declared one. *)
Lemma validateAsset_kind raw t desc :
  validateAsset raw = Ok (t, desc) -> declaredType raw = Some t /\ recognised t = true.
Proof.
  unfold validateAsset, declaredType.
  destruct (Unmarshal (T := probe) raw) as [p|]; [|done]. simpl.
  destruct (String.eqb_spec (probe_Type p) AssetChart) as [->|_].
  { destruct (Unmarshal (T := Chart) raw); [|done]. destruct (_ || _); [done|].
    by intros [= <- _]. }
  destruct (String.eqb_spec (probe_Type p) AssetInsight) as [->|_].
  { destruct (Unmarshal (T := Insight) raw); [|done]. destruct (isEmpty _); [done|].
    by intros [= <- _]. }
  destruct (String.eqb_spec (probe_Type p) AssetAudience) as [->|_]; [|done].
  destruct (Unmarshal (T := Audience) raw); [|done]. destruct (_ || _); [done|].
  by intros [= <- _].
Qed.

End ValidatorFacts.

(** ** The service *)

Section ServiceFacts.

Implicit Types (w : world InMemoryRepo) (userID favID : string).

Lemma deref_alloc (h : list Favourite) (f : Favourite) :
  deref (h ++ [f]) (length h) = f.
Proof. unfold deref. by rewrite lookup_app_r, Nat.sub_diag. Qed.

Lemma CreateFavourite_ok rnd now userID raw t desc w :
  ValidateUserID userID = true -> validateAsset raw = Ok (t, desc) ->
  CreateFavourite rnd now userID raw w
  = (Ok (length (objects w)), created rnd now userID raw t desc w).
Proof.
  intros Hu Hv. unfold CreateFavourite. rewrite Hu, Hv. simpl.
  unfold InMemoryRepo_Create, created. simpl. by rewrite deref_alloc.
Qed.

Lemma CreateFavourite_inv rnd now userID raw w p w' :
  CreateFavourite rnd now userID raw w = (Ok p, w') ->
  exists t desc,
    ValidateUserID userID = true /\ validateAsset raw = Ok (t, desc)
    /\ p = length (objects w) /\ w' = created rnd now userID raw t desc w.
Proof.
  intros Hc. destruct (ValidateUserID userID) eqn:Hu.
  - destruct (validateAsset raw) as [[t desc]|e] eqn:Hv.
    + rewrite (CreateFavourite_ok _ _ _ _ t desc) in Hc by done.
      injection Hc as <- <-. by exists t, desc.
    + unfold CreateFavourite in Hc. by rewrite Hu, Hv in Hc.
  - unfold CreateFavourite in Hc. by rewrite Hu in Hc.
Qed.

End ServiceFacts.

(** ** C4: a required field missing or empty *)

Import Reading.

Section ListOrder.

(** Listings of one user over the same entries hold the same favourites,
    whatever the order of the map iteration. *)
Lemma ListFavourites_same_store rho rho' u (w w' : world InMemoryRepo) :
  userMap (repo w') u = userMap (repo w) u ->
  sameFavourites (fst (ListFavourites rho' u w')) (fst (ListFavourites rho u w)).
Proof.
  intros Hm. unfold ListFavourites. destruct (negb _); [done|].
  destruct (List_ok rho' u w') as (l' & -> & Hp' & _).
  destruct (List_ok rho u w) as (l & -> & Hp & _).
  simpl. rewrite Hp', Hp. unfold stored. by rewrite Hm.
Qed.

(** Where no two favourites of the user share a creation time, the
    listing is the same for every order of the map iteration. *)
Lemma ListFavourites_any_order rho rho' u (w : world InMemoryRepo) :
  distinctTimes w u ->
  fst (ListFavourites rho' u w) = fst (ListFavourites rho u w).
Proof.
  intros Hd. unfold ListFavourites. destruct (negb _); [done|].
  by rewrite (List_deterministic rho' rho u w Hd).
Qed.

End ListOrder.

(** C4 (counterexample).  An audience payload without a gender is a
    payload of a recognised kind with a required field missing, and ok_user
    is a valid identity; its purchases_last_month is 1.5, which does not
    decode into the whole number of the struct, so CreateFavourite fails
    with the invalid-audience error, of kind MalformedPayload, before the
    rule on required fields is looked at. *)
Lemma C4_undecodable_payload_is_malformed :
  identity_rule "ok_user" = true
  /\ lacks_required_as_worded genderlessRaw
  /\ CreateFavourite draws0 10%Z "ok_user" genderlessRaw world1
     = (Err ErrInvalidAudience, world1)
  /\ kind_of ErrInvalidAudience = MalformedPayload
  /\ ~ fails_with SchemaViolation world1
        (CreateFavourite draws0 10%Z "ok_user" genderlessRaw world1).
Proof.
  assert (Hc : CreateFavourite draws0 10%Z "ok_user" genderlessRaw world1
               = (Err ErrInvalidAudience, world1)) by (vm_compute; reflexivity).
  split; [reflexivity|]. split.
  { exists AssetAudience, "gender"%string.
    split; [vm_compute; reflexivity|]. split; [reflexivity|].
    split; [repeat constructor|].
    intros kvs [= <-]. repeat constructor; discriminate. }
  split; [exact Hc|]. split; [reflexivity|].
  rewrite Hc. intros (e & [= <-] & Hk). discriminate.
Qed.

(** C4 (amended).  For a valid identity and a payload of a recognised kind
    that decodes against the struct of its kind and in which a required
    field is missing or empty (title or data of a chart, text of an
    insight, gender or age_groups of an audience), CreateFavourite fails
    with an error of kind SchemaViolation and returns the state it was
    given, whatever repository is behind the service: nothing is stored.
    Over the in-memory repository ListFavourites for the user then returns
    the favourites it returned before the call; in the same sequence when
    the map is ranged over in the same order, and in the same sequence for
    any two orders when no two favourites of the user share a creation
    time. *)
Theorem C4_missing_field_is_schema_violation
    (rnd : nat -> nat) (now : Time) (userID : string) (raw : RawMessage) :
  identity_rule userID = true ->
  lacks_required raw ->
  (forall (R : Type) `{Repository R} (w : world R),
      fails_with SchemaViolation w (CreateFavourite rnd now userID raw w))
  /\ (forall (w : world InMemoryRepo) (rho rho' : RangeOrder),
        sameFavourites
          (fst (ListFavourites rho' userID (snd (CreateFavourite rnd now userID raw w))))
          (fst (ListFavourites rho userID w))
        /\ fst (ListFavourites rho userID (snd (CreateFavourite rnd now userID raw w)))
           = fst (ListFavourites rho userID w)
        /\ (distinctTimes w userID ->
            fst (ListFavourites rho' userID (snd (CreateFavourite rnd now userID raw w)))
            = fst (ListFavourites rho userID w))).
Proof.
  intros Hid Hl. rewrite <- ValidateUserID_identity_rule in Hid.
  destruct (validateAsset_lacks raw Hl) as (e & He & Hk).
  assert (Hfail : forall (R : Type) `{Repository R} (w : world R),
             CreateFavourite rnd now userID raw w = (Err e, w)).
  { intros R HR w. unfold CreateFavourite. by rewrite Hid, He. }
  split.
  - intros R HR w. exists e. by rewrite Hfail.
  - intros w rho rho'. rewrite Hfail. cbn [snd].
    split; [by apply ListFavourites_same_store|]. split; [done|].
    apply ListFavourites_any_order.
Qed.

(** C4 on the chart without title and data of the service tests. *)
Lemma C4_witness :
  identity_rule "ok_user" = true
  /\ lacks_required badChartRaw
  /\ (forall (R : Type) `{Repository R} (w : world R),
        fails_with SchemaViolation w (CreateFavourite draws1 11%Z "ok_user" badChartRaw w))
  /\ (forall (w : world InMemoryRepo) (rho rho' : RangeOrder),
        sameFavourites
          (fst (ListFavourites rho' "ok_user"
                  (snd (CreateFavourite draws1 11%Z "ok_user" badChartRaw w))))
          (fst (ListFavourites rho "ok_user" w))
        /\ fst (ListFavourites rho "ok_user"
                  (snd (CreateFavourite draws1 11%Z "ok_user" badChartRaw w)))
           = fst (ListFavourites rho "ok_user" w)
        /\ (distinctTimes w "ok_user" ->
            fst (ListFavourites rho' "ok_user"
                   (snd (CreateFavourite draws1 11%Z "ok_user" badChartRaw w)))
            = fst (ListFavourites rho "ok_user" w))).
Proof.
  assert (Hl : lacks_required badChartRaw).
  { eapply chart_lacks;
      [vm_compute; reflexivity|vm_compute; reflexivity|right; left; reflexivity]. }
  split; [reflexivity|]. split; [exact Hl|].
  apply (C4_missing_field_is_schema_violation draws1 11%Z "ok_user" badChartRaw);
    [reflexivity|exact Hl].
Defined.

(** A chart payload without a title key lacks a required field. *)
Example untitled_lacks_required : lacks_required untitledRaw.
Proof.
  eapply chart_lacks; [vm_compute; reflexivity|vm_compute; reflexivity|].
  left. intros kvs [= <-]. repeat constructor.
Qed.

(** ** C5: a payload that meets the rules of its kind *)

(** C5 (counterexample).  A chart whose title is a single space has a
    non-empty title and a non-empty data series, and kostas is a valid
    identity; CreateFavourite turns it down all the same. *)
Lemma C5_blank_title_is_rejected :
  identity_rule "kostas" = true
  /\ meets_rules nonEmpty blankTitleRaw AssetChart
  /\ CreateFavourite draws0 10%Z "kostas" blankTitleRaw emptyWorld
     = (Err ErrChartNeeds, emptyWorld).
Proof.
  split; [reflexivity|]. split; [|vm_compute; reflexivity].
  eapply chart_meets; [vm_compute; reflexivity|vm_compute; reflexivity| |];
    simpl; unfold nonEmpty; discriminate.
Qed.

(** C5 (amended).  For a valid identity and a payload that declares a
    recognised kind, decodes against the struct of that kind, and meets the
    rules of the kind, where the title of a chart and the text of an
    insight must hold more than white space, CreateFavourite succeeds over
    the in-memory repository, and the kind of the record it returns is the
    type that the payload declares (the record also has the generated
    identifier, the raw payload and the timestamp of the call). *)
Theorem C5_valid_payload_is_created
    (w : world InMemoryRepo) (rnd : nat -> nat) (now : Time)
    (userID : string) (raw : RawMessage) (t : AssetType) :
  identity_rule userID = true ->
  meets_rules nonBlank raw t ->
  exists p w' desc,
    CreateFavourite rnd now userID raw w = (Ok p, w')
    /\ deref (objects w') p = mkFavourite (newID rnd) t desc raw now
    /\ declaredType raw = Some (FavType (deref (objects w') p)).
Proof.
  intros Hid Hm. rewrite <- ValidateUserID_identity_rule in Hid.
  destruct (validateAsset_meets raw t Hm) as (desc & Hv).
  exists (length (objects w)), (created rnd now userID raw t desc w), desc.
  split; [by apply CreateFavourite_ok|].
  unfold created. simpl. rewrite deref_alloc. split; [done|]. simpl.
  by destruct (validateAsset_kind raw t desc Hv).
Qed.

(** C5 on the chart of the service tests. *)
Lemma C5_witness :
  identity_rule "kostas" = true
  /\ meets_rules nonBlank chartRaw AssetChart
  /\ exists p w' desc,
       CreateFavourite draws1 10%Z "kostas" chartRaw world1 = (Ok p, w')
       /\ deref (objects w') p = mkFavourite (newID draws1) AssetChart desc chartRaw 10%Z
       /\ declaredType chartRaw = Some (FavType (deref (objects w') p)).
Proof.
  assert (Hm : meets_rules nonBlank chartRaw AssetChart).
  { eapply chart_meets;
      [vm_compute; reflexivity|vm_compute; reflexivity|vm_compute; reflexivity|].
    simpl. discriminate. }
  split; [reflexivity|]. split; [exact Hm|].
  apply C5_valid_payload_is_created; [reflexivity|exact Hm].
Defined.

(** ** C6: the payload comes back as it went in *)

Section C6.

Implicit Types (w : world InMemoryRepo) (f g : Favourite).

Lemma upToDescription_refl f : upToDescription f f.
Proof. by repeat split. Qed.

Lemma upToDescription_trans f g k :
  upToDescription f g -> upToDescription g k -> upToDescription f k.
Proof. unfold upToDescription. intros (?&?&?&?) (?&?&?&?). repeat split; congruence. Qed.

(** No call frees a favourite or changes anything of it but the
    description. *)
Lemma run_keeps_record c w p f :
  objects w !! p = Some f ->
  exists g, objects (run c w) !! p = Some g /\ upToDescription f g.
Proof.
  intros Hp.
  assert (Hsame : exists g, objects w !! p = Some g /\ upToDescription f g).
  { exists f. split; [done|apply upToDescription_refl]. }
  destruct c as [rho u|rnd now u raw|u id desc|u id]; simpl.
  - unfold ListFavourites. by destruct (negb _).
  - destruct (CreateFavourite rnd now u raw w) as [[q|e] w'] eqn:Hc; simpl.
    + apply CreateFavourite_inv in Hc as (t & d & _ & _ & _ & ->). simpl.
      exists f. split; [|apply upToDescription_refl].
      by apply lookup_app_l_Some.
    + unfold CreateFavourite in Hc. destruct (negb _); [by injection Hc as _ <-|].
      destruct (validateAsset raw) as [[t d]|e']; [done|]. by injection Hc as _ <-.
  - unfold UpdateFavouriteDescription. destruct (_ || _); [done|]. simpl.
    unfold InMemoryRepo_UpdateDescription.
    destruct (data (repo w) !! u) as [m|]; [|done].
    destruct (m !! id) as [q|]; [|done]. simpl.
    destruct (decide (q = p)) as [->|Hne].
    + eexists. split.
      * apply list_lookup_insert_eq. by eapply lookup_lt_Some.
      * unfold deref. rewrite Hp. simpl. by repeat split.
    + rewrite list_lookup_insert_ne by done. done.
  - unfold DeleteFavourite. destruct (_ || _); [done|]. simpl.
    unfold InMemoryRepo_Delete.
    destruct (data (repo w) !! u) as [m|]; [|done].
    by destruct (m !! id).
Qed.

Lemma runs_keeps_record cs w p f :
  objects w !! p = Some f ->
  exists g, objects (runs cs w) !! p = Some g /\ upToDescription f g.
Proof.
  revert w f. induction cs as [|c cs IH]; intros w f Hp; simpl.
  - exists f. split; [done|apply upToDescription_refl].
  - destruct (run_keeps_record c w p f Hp) as (g & Hg & Hfg).
    destruct (IH _ _ Hg) as (k & Hk & Hgk).
    exists k. split; [done|]. by eapply upToDescription_trans.
Qed.

(** C6.  When CreateFavourite has stored a favourite for a raw payload:
    the record carries that payload byte for byte; Get under the user and
    the new identifier returns the record; List for the user contains it,
    whatever the iteration order; and after any sequence of calls on the
    service the record still carries the same payload, so wherever Get or
    List hand the record out later, its payload is the one supplied. *)
Theorem C6_payload_is_kept_verbatim
    (w : world InMemoryRepo) (rnd : nat -> nat) (now : Time)
    (userID : string) (raw : RawMessage) (p : loc) (w1 : world InMemoryRepo) :
  CreateFavourite rnd now userID raw w = (Ok p, w1) ->
  Asset (deref (objects w1) p) = raw
  /\ Get userID (ID (deref (objects w1) p)) w1 = (Ok p, w1)
  /\ (forall rho, exists l, List rho userID w1 = (Ok l, w1) /\ p ∈ l)
  /\ (forall cs, Asset (deref (objects (runs cs w1)) p) = raw).
Proof.
  intros Hc. apply CreateFavourite_inv in Hc as (t & d & _ & _ & -> & ->).
  assert (Hd : deref (objects (created rnd now userID raw t d w)) (length (objects w))
               = mkFavourite (newID rnd) t d raw now).
  { unfold created. simpl. apply deref_alloc. }
  rewrite Hd. simpl. split; [done|]. split; [|split].
  - unfold InMemoryRepo_Get, created. simpl.
    by rewrite lookup_insert_eq, lookup_insert_eq.
  - intros rho. destruct (List_ok rho userID (created rnd now userID raw t d w))
      as (l & Hl & Hperm & _).
    exists l. split; [done|]. rewrite Hperm. unfold stored, created, userMap. simpl.
    rewrite lookup_insert_eq. simpl.
    apply list_elem_of_fmap. exists (newID rnd, length (objects w)). split; [done|].
    apply elem_of_map_to_list, lookup_insert_eq.
  - intros cs.
    assert (Hp : objects (created rnd now userID raw t d w) !! length (objects w)
                 = Some (mkFavourite (newID rnd) t d raw now)).
    { unfold created. simpl. by rewrite lookup_app_r, Nat.sub_diag. }
    destruct (runs_keeps_record cs _ _ _ Hp) as (g & Hg & _ & _ & Ha & _).
    unfold deref. by rewrite Hg.
Qed.

End C6.

(** C6 on the insight of the handler tests. *)
Lemma C6_witness :
  CreateFavourite draws0 10%Z "kostas" insightRaw emptyWorld = (Ok 0, world1)
  /\ Asset (deref (objects world1) 0) = insightRaw
  /\ Get "kostas" (ID (deref (objects world1) 0)) world1 = (Ok 0, world1)
  /\ (forall rho, exists l, List rho "kostas" world1 = (Ok l, world1) /\ 0 ∈ l)
  /\ (forall cs, Asset (deref (objects (runs cs world1)) 0) = insightRaw).
Proof.
  split; [vm_compute; reflexivity|].
  apply (C6_payload_is_kept_verbatim emptyWorld draws0 10%Z). vm_compute. reflexivity.
Defined.

(** ** C7: an update touches the description only *)

(** For a valid user identifier and an identifier that is not blank, the
    update of a stored favourite does succeed. *)
Lemma UpdateFavouriteDescription_ok
    (w : world InMemoryRepo) (userID favID desc : string) (m : gmap string loc) (p : loc) :
  identity_rule userID = true -> blank favID = false ->
  data (repo w) !! userID = Some m -> m !! favID = Some p ->
  fst (UpdateFavouriteDescription userID favID desc w) = Ok p.
Proof.
  intros Hid Hb Hm Hp. rewrite <- ValidateUserID_identity_rule in Hid.
  unfold blank in Hb. unfold UpdateFavouriteDescription. rewrite Hid, Hb. simpl.
  unfold InMemoryRepo_UpdateDescription. by rewrite Hm, Hp.
Qed.

(** C7.  Take a favourite stored under a user and an identifier.  A call
    of UpdateFavouriteDescription for them that succeeds returns that
    favourite; the record then has the new description and the identifier,
    kind, payload and timestamp it had; every other favourite object is as
    it was, none is added or dropped, and the repository's map is
    unchanged. *)
Theorem C7_update_changes_description_only
    (w : world InMemoryRepo) (userID favID desc : string)
    (m : gmap string loc) (p : loc) (f : Favourite) (q : loc) (w' : world InMemoryRepo) :
  data (repo w) !! userID = Some m ->
  m !! favID = Some p ->
  objects w !! p = Some f ->
  UpdateFavouriteDescription userID favID desc w = (Ok q, w') ->
  q = p
  /\ objects w' !! p = Some (mkFavourite (ID f) (FavType f) desc (Asset f) (CreatedAt f))
  /\ (forall p', p' <> p -> objects w' !! p' = objects w !! p')
  /\ length (objects w') = length (objects w)
  /\ repo w' = repo w.
Proof.
  intros Hm Hp Hf. unfold UpdateFavouriteDescription.
  destruct (_ || _); [done|]. simpl. unfold InMemoryRepo_UpdateDescription.
  rewrite Hm, Hp. intros [= <- <-]. simpl. split; [done|].
  unfold deref. rewrite Hf. simpl. repeat split.
  - apply list_lookup_insert_eq. by eapply lookup_lt_Some.
  - intros p' Hne. by apply list_lookup_insert_ne.
  - apply length_insert.
Qed.

(** C7 on the favourite of [world1]. *)
Lemma C7_witness :
  exists m f w',
    data (repo world1) !! "kostas" = Some m
    /\ m !! "abcdefghijkl" = Some 0
    /\ objects world1 !! 0 = Some f
    /\ UpdateFavouriteDescription "kostas" "abcdefghijkl" "updated" world1 = (Ok 0, w')
    /\ objects w' !! 0
       = Some (mkFavourite (ID f) (FavType f) "updated" (Asset f) (CreatedAt f))
    /\ (forall p', p' <> 0 -> objects w' !! p' = objects world1 !! p')
    /\ length (objects w') = length (objects world1)
    /\ repo w' = repo world1.
Proof.
  eexists _, _, _.
  split; [vm_compute; reflexivity|]. split; [vm_compute; reflexivity|].
  split; [vm_compute; reflexivity|]. split; [vm_compute; reflexivity|].
  eapply (C7_update_changes_description_only world1 "kostas" "abcdefghijkl" "updated");
    vm_compute; reflexivity.
Defined.

(** ** C8: a type that is absent or unknown *)

(** C8 (counterexample).  Two payloads that are valid JSON and whose type
    field is absent or none of the three kinds, for the valid identity
    ok_user.  The first has the number 5 as its type: its envelope does not
    decode and CreateFavourite fails with the invalid-asset-json error, of
    kind MalformedPayload.  The second has no member named type, but one
    named Type, which selects the type field all the same: it is stored as
    an insight. *)
Lemma C8_well_formed_is_not_enough :
  identity_rule "ok_user" = true
  /\ wellFormed numberTypeRaw
  /\ typeAbsentOrUnknown numberTypeRaw = true
  /\ CreateFavourite draws0 10%Z "ok_user" numberTypeRaw world1
     = (Err ErrInvalidAssetJSON, world1)
  /\ kind_of ErrInvalidAssetJSON = MalformedPayload
  /\ ~ fails_with UnknownAssetKind world1
        (CreateFavourite draws0 10%Z "ok_user" numberTypeRaw world1)
  /\ wellFormed capitalTypeRaw
  /\ typeAbsentOrUnknown capitalTypeRaw = true
  /\ fst (CreateFavourite draws1 11%Z "ok_user" capitalTypeRaw world1) = Ok 1
  /\ FavType (deref (objects (snd (CreateFavourite draws1 11%Z "ok_user"
                                     capitalTypeRaw world1))) 1) = AssetInsight.
Proof.
  assert (Hc : CreateFavourite draws0 10%Z "ok_user" numberTypeRaw world1
               = (Err ErrInvalidAssetJSON, world1)) by (vm_compute; reflexivity).
  split; [reflexivity|]. split; [vm_compute; discriminate|].
  split; [vm_compute; reflexivity|]. split; [exact Hc|]. split; [reflexivity|].
  split; [rewrite Hc; intros (e & [= <-] & Hk); discriminate|].
  split; [vm_compute; discriminate|]. split; [vm_compute; reflexivity|].
  split; vm_compute; reflexivity.
Qed.

Section C8.

Context {R : Type} `{Repository R}.

(** C8 (amended).  For a valid identity and a payload whose envelope
    decodes (the probe of validateAsset reads a type from it), if no key of
    the payload selects the type field or the type read is none of chart,
    insight and audience, CreateFavourite fails with the unknown-asset-type
    error, which is of kind UnknownAssetKind and of neither of the kinds
    MalformedPayload and SchemaViolation; the state is as it was. *)
Theorem C8_unknown_type_is_unknown_asset_kind
    (w : world R) (rnd : nat -> nat) (now : Time)
    (userID : string) (raw : RawMessage) (t : AssetType) :
  identity_rule userID = true ->
  declaredType raw = Some t ->
  lacksKey "type" raw \/ recognised t = false ->
  CreateFavourite rnd now userID raw w = (Err ErrUnknownAssetType, w)
  /\ fails_with UnknownAssetKind w (CreateFavourite rnd now userID raw w)
  /\ ~ fails_with MalformedPayload w (CreateFavourite rnd now userID raw w)
  /\ ~ fails_with SchemaViolation w (CreateFavourite rnd now userID raw w).
Proof.
  intros Hid Ht Hr. rewrite <- ValidateUserID_identity_rule in Hid.
  assert (Hr' : recognised t = false).
  { destruct Hr as [Hl|Hr]; [|done]. by rewrite (missing_type raw t Ht Hl). }
  assert (CreateFavourite rnd now userID raw w = (Err ErrUnknownAssetType, w)) as ->.
  { unfold CreateFavourite. by rewrite Hid, (validateAsset_unknown raw t). }
  split; [done|]. split; [by eexists|].
  split; intros (e & [= <-] & Hk); discriminate.
Qed.

End C8.

(** C8 on the payload of type unknown of the service tests. *)
Lemma C8_witness :
  identity_rule "ok_user" = true
  /\ declaredType unknownRaw = Some "unknown"
  /\ recognised "unknown" = false
  /\ CreateFavourite draws0 10%Z "ok_user" unknownRaw world1 = (Err ErrUnknownAssetType, world1)
  /\ fails_with UnknownAssetKind world1
       (CreateFavourite draws0 10%Z "ok_user" unknownRaw world1)
  /\ ~ fails_with MalformedPayload world1
       (CreateFavourite draws0 10%Z "ok_user" unknownRaw world1)
  /\ ~ fails_with SchemaViolation world1
       (CreateFavourite draws0 10%Z "ok_user" unknownRaw world1).
Proof.
  split; [reflexivity|]. split; [vm_compute; reflexivity|]. split; [reflexivity|].
  apply (C8_unknown_type_is_unknown_asset_kind _ _ _ _ _ "unknown");
    [reflexivity|vm_compute; reflexivity|right; reflexivity].
Defined.

(** A payload without a type key and an empty object are payloads whose
    type is absent; they are turned down as of unknown kind. *)
Example untyped_is_unknown :
  lacksKey "type" untypedRaw
  /\ declaredType untypedRaw = Some EmptyString
  /\ fst (CreateFavourite draws0 10%Z "ok_user" untypedRaw world1) = Err ErrUnknownAssetType
  /\ fst (CreateFavourite draws0 10%Z "ok_user" (js "{}") world1) = Err ErrUnknownAssetType.
Proof.
  split; [|vm_compute; repeat split].
  intros kvs [= <-]. repeat constructor.
Qed.

(** ** C9: deleting twice *)

(** C9.  Take a favourite stored under a valid user identifier and an
    identifier that is not blank.  The first DeleteFavourite for them
    succeeds, a second one fails with the not-found error.  The first call
    removes that entry and no other: afterwards Get finds nothing under the
    user and the identifier and finds under any other pair what it found
    before; the favourite objects are untouched. *)
Theorem C9_delete_twice
    (w : world InMemoryRepo) (userID favID : string) (m : gmap string loc) (p : loc) :
  identity_rule userID = true ->
  blank favID = false ->
  data (repo w) !! userID = Some m ->
  m !! favID = Some p ->
  exists w1,
    DeleteFavourite userID favID w = (Ok tt, w1)
    /\ DeleteFavourite userID favID w1 = (Err ErrNotFound, w1)
    /\ kind_of ErrNotFound = NotFound
    /\ objects w1 = objects w
    /\ forall u id,
         fst (Get u id w1)
         = if decide (u = userID /\ id = favID) then Err ErrNotFound else fst (Get u id w).
Proof.
  intros Hid Hb Hm Hp. rewrite <- ValidateUserID_identity_rule in Hid.
  unfold blank in Hb. unfold DeleteFavourite. rewrite Hid, Hb. simpl.
  unfold InMemoryRepo_Delete at 1. rewrite Hm, Hp.
  eexists. split; [reflexivity|].
  unfold InMemoryRepo_Delete, InMemoryRepo_Get. simpl.
  rewrite lookup_insert_eq, lookup_delete_eq.
  split; [done|]. split; [done|]. split; [done|].
  intros u id. destruct (decide (u = userID)) as [->|Hu].
  - rewrite lookup_insert_eq, Hm.
    destruct (decide (id = favID)) as [->|Hi].
    + rewrite lookup_delete_eq. by rewrite decide_True.
    + rewrite lookup_delete_ne; [|done].
      rewrite decide_False; [|intros [_ ?]; congruence].
      by destruct (m !! id).
  - rewrite lookup_insert_ne; [|done].
    rewrite decide_False; [|intros [? _]; congruence].
    destruct (data (repo w) !! u) as [m'|]; [|done]. by destruct (m' !! id).
Qed.

(** C9 on the favourite of [world1]. *)
Lemma C9_witness :
  exists m,
    identity_rule "kostas" = true
    /\ blank "abcdefghijkl" = false
    /\ data (repo world1) !! "kostas" = Some m
    /\ m !! "abcdefghijkl" = Some 0
    /\ exists w1,
         DeleteFavourite "kostas" "abcdefghijkl" world1 = (Ok tt, w1)
         /\ DeleteFavourite "kostas" "abcdefghijkl" w1 = (Err ErrNotFound, w1)
         /\ kind_of ErrNotFound = NotFound
         /\ objects w1 = objects world1
         /\ forall u id,
              fst (Get u id w1)
              = if decide (u = "kostas" /\ id = "abcdefghijkl") then Err ErrNotFound
                else fst (Get u id world1).
Proof.
  eexists.
  split; [reflexivity|]. split; [reflexivity|].
  split; [vm_compute; reflexivity|]. split; [vm_compute; reflexivity|].
  eapply (C9_delete_twice world1 "kostas" "abcdefghijkl");
    [reflexivity|reflexivity|vm_compute; reflexivity|vm_compute; reflexivity].
Defined.

(** ** C10: the identifiers that are generated *)

Section C10.

Local Open Scope N_scope.

Lemma id_char_plain a :
  id_char a = true -> code a < 128 /\ Strings.asciiSpace a = false.
Proof.
  destruct a as [[] [] [] [] [] [] [] []]; intros Ha; vm_compute in Ha;
    try discriminate Ha; split; reflexivity.
Qed.

Lemma code_eqb_high a n : code a < 128 -> 128 <= n -> (code a =? n) = false.
Proof. intros. apply N.eqb_neq. lia. Qed.

Lemma between_high a lo hi : code a < 128 -> 128 <= lo -> between lo hi a = false.
Proof.
  intros. unfold between. apply andb_false_intro1, N.leb_gt. lia.
Qed.

Lemma isSpace2_plain_l a b : code a < 128 -> Strings.isSpace2 a b = false.
Proof. intros. unfold Strings.isSpace2. by rewrite code_eqb_high. Qed.

Lemma isSpace2_plain_r a b : code a < 128 -> Strings.isSpace2 b a = false.
Proof.
  intros. unfold Strings.isSpace2.
  rewrite !(code_eqb_high a) by done. apply andb_false_r.
Qed.

Lemma isSpace3_plain_l a b c : code a < 128 -> Strings.isSpace3 a b c = false.
Proof. intros. unfold Strings.isSpace3. by rewrite !(code_eqb_high a). Qed.

Lemma isSpace3_plain_r a b c : code a < 128 -> Strings.isSpace3 c b a = false.
Proof.
  intros. unfold Strings.isSpace3.
  rewrite !(code_eqb_high a), (between_high a) by done.
  by rewrite !andb_false_r.
Qed.

(** A byte of plain ASCII that is no white space stops the trimming, from
    either end. *)
Lemma trimFront_plain back a r :
  code a < 128 -> Strings.asciiSpace a = false ->
  Strings.trimFront back (String a r) = String a r.
Proof.
  intros Ha Hs. simpl. rewrite Hs.
  destruct r as [|b [|c r]]; [done| |]; destruct back;
    rewrite ?isSpace2_plain_l, ?isSpace2_plain_r,
      ?isSpace3_plain_l, ?isSpace3_plain_r by done; done.
Qed.

Local Close Scope N_scope.

Lemma rev_string_involutive s : rev_string (rev_string s) = s.
Proof.
  unfold rev_string.
  by rewrite list_ascii_of_string_of_list_ascii, rev_involutive,
    string_of_list_ascii_of_string.
Qed.

Lemma rev_string_forallb p s :
  forallb p (list_ascii_of_string (rev_string s)) = forallb p (list_ascii_of_string s).
Proof.
  unfold rev_string. rewrite list_ascii_of_string_of_list_ascii.
  induction (list_ascii_of_string s) as [|c l IH]; simpl; [done|].
  rewrite forallb_app, IH. simpl. rewrite andb_true_r. apply andb_comm.
Qed.

Lemma rev_string_nonempty s : s <> EmptyString -> rev_string s <> EmptyString.
Proof.
  intros Hs Hr. apply Hs. by rewrite <- (rev_string_involutive s), Hr.
Qed.

(** A non-empty string of identifier characters has nothing to trim. *)
Lemma TrimSpace_id_chars s :
  s <> EmptyString ->
  forallb id_char (list_ascii_of_string s) = true ->
  Strings.TrimSpace s = s.
Proof.
  intros Hne Hall. unfold Strings.TrimSpace.
  assert (Htrim : forall back s', s' <> EmptyString ->
            forallb id_char (list_ascii_of_string s') = true ->
            Strings.trimFront back s' = s').
  { intros back [|a r] Hs' Hall'; [done|]. simpl in Hall'.
    apply andb_true_iff in Hall' as [Ha _].
    apply id_char_plain in Ha as [? ?]. by apply trimFront_plain. }
  rewrite (Htrim false s) by done.
  rewrite (Htrim true (rev_string s)).
  - apply rev_string_involutive.
  - by apply rev_string_nonempty.
  - by rewrite rev_string_forallb.
Qed.

Lemma letter_id_char k : k < 36 -> id_char (letter k) = true.
Proof.
  intros Hk. do 36 (destruct k as [|k]; [reflexivity|]). lia.
Qed.

Lemma draw_id_char d :
  id_char (letter (Rand.Intn (String.length letters) d)) = true.
Proof.
  apply letter_id_char. unfold Rand.Intn.
  change (String.length letters) with 36. apply Nat.mod_upper_bound. lia.
Qed.

(** C10.  Whatever the generator draws, newID is a string of exactly 12
    characters, each one of a..z and 0..9, and it is not blank.  A record
    that CreateFavourite returns over the in-memory repository has that
    string as its identifier, so its identifier passes the non-blank test
    that UpdateFavouriteDescription and DeleteFavourite make. *)
Theorem C10_newID_is_twelve_id_chars (rnd : nat -> nat) :
  String.length (newID rnd) = 12
  /\ forallb id_char (list_ascii_of_string (newID rnd)) = true
  /\ blank (newID rnd) = false
  /\ forall (w : world InMemoryRepo) now userID raw p w',
       CreateFavourite rnd now userID raw w = (Ok p, w') ->
       ID (deref (objects w') p) = newID rnd
       /\ blank (ID (deref (objects w') p)) = false.
Proof.
  assert (Hall : forallb id_char (list_ascii_of_string (newID rnd)) = true).
  { unfold newID. rewrite list_ascii_of_string_of_list_ascii.
    apply forallb_forall. intros c Hin.
    apply in_map_iff in Hin as (i & <- & _). apply draw_id_char. }
  assert (Hblank : blank (newID rnd) = false).
  { unfold blank. rewrite TrimSpace_id_chars; [done|done|done]. }
  split; [reflexivity|]. split; [done|]. split; [done|].
  intros w now userID raw p w' Hc.
  apply CreateFavourite_inv in Hc as (t & d & _ & _ & -> & ->).
  unfold created. simpl. by rewrite deref_alloc.
Qed.

End C10.

(** C10 for the draws 0, 1, ..., 11. *)
Lemma C10_witness :
  CreateFavourite draws0 10%Z "kostas" insightRaw emptyWorld = (Ok 0, world1)
  /\ String.length (newID draws0) = 12
  /\ forallb id_char (list_ascii_of_string (newID draws0)) = true
  /\ blank (newID draws0) = false
  /\ ID (deref (objects world1) 0) = newID draws0
  /\ blank (ID (deref (objects world1) 0)) = false.
Proof.
  assert (Hc : CreateFavourite draws0 10%Z "kostas" insightRaw emptyWorld = (Ok 0, world1))
    by (vm_compute; reflexivity).
  destruct (C10_newID_is_twelve_id_chars draws0) as (Hl & Ha & Hb & Hk).
  destruct (Hk emptyWorld 10%Z "kostas" insightRaw 0 world1 Hc) as [Hi Hn].
  repeat split; assumption.
Defined.
(** * Further properties: states, handlers, middleware, configuration *)

Import Config Http Decoder Middleware Server Behaviour Fixtures.

(** ** The states that the service reaches *)

Section ReachFacts.

Lemma Get_lookup u id (w : world InMemoryRepo) p :
  fst (Get u id w) = Ok p <-> userMap (repo w) u !! id = Some p.
Proof.
  simpl. unfold InMemoryRepo_Get, userMap.
  destruct (data (repo w) !! u) as [m|]; simpl.
  - destruct (m !! id); simpl; split; congruence.
  - rewrite lookup_empty. split; congruence.
Qed.

Lemma Get_missing u id (w : world InMemoryRepo) :
  fst (Get u id w) = Err ErrNotFound <-> userMap (repo w) u !! id = None.
Proof.
  simpl. unfold InMemoryRepo_Get, userMap.
  destruct (data (repo w) !! u) as [m|]; simpl.
  - destruct (m !! id); simpl; split; congruence.
  - rewrite lookup_empty. split; congruence.
Qed.

Lemma Get_userMap u id (w : world InMemoryRepo) :
  fst (Get u id w)
  = match userMap (repo w) u !! id with Some p => Ok p | None => Err ErrNotFound end.
Proof.
  destruct (userMap (repo w) u !! id) as [p|] eqn:Hl.
  - by apply Get_lookup.
  - by apply Get_missing.
Qed.

Lemma Get_data u id (w : world InMemoryRepo) p :
  fst (Get u id w) = Ok p ->
  exists m, data (repo w) !! u = Some m /\ m !! id = Some p.
Proof.
  simpl. unfold InMemoryRepo_Get.
  destruct (data (repo w) !! u) as [m|]; [|done].
  destruct (m !! id) as [q|] eqn:Hq; [|done]. simpl. intros [= ->]. by exists m.
Qed.

Lemma stored_Get (w : world InMemoryRepo) u p :
  p ∈ stored w u <-> exists id, fst (Get u id w) = Ok p.
Proof.
  unfold stored. rewrite list_elem_of_fmap. split.
  - intros [[id q] [-> Hin]]. exists id. apply Get_lookup.
    by apply elem_of_map_to_list in Hin.
  - intros [id Hg]. exists (id, p). split; [done|].
    apply elem_of_map_to_list. by apply Get_lookup.
Qed.

Lemma userMap_created rnd now u raw t desc (w : world InMemoryRepo) u0 :
  userMap (repo (created rnd now u raw t desc w)) u0
  = if decide (u0 = u) then <[newID rnd := length (objects w)]> (userMap (repo w) u)
    else userMap (repo w) u0.
Proof.
  unfold created, userMap at 1. simpl. destruct (decide (u0 = u)) as [->|Hne].
  - by rewrite lookup_insert_eq.
  - by rewrite lookup_insert_ne.
Qed.

Lemma consistent_empty : consistent emptyWorld.
Proof.
  split.
  - intros u id p Hg. simpl in Hg. unfold InMemoryRepo_Get in Hg. simpl in Hg.
    by rewrite lookup_empty in Hg.
  - intros u id u' id' p Hg. simpl in Hg. unfold InMemoryRepo_Get in Hg. simpl in Hg.
    by rewrite lookup_empty in Hg.
Qed.

Lemma deref_app_l (h : list Favourite) f p : p < length h -> deref (h ++ [f]) p = deref h p.
Proof. intros Hp. unfold deref. by rewrite lookup_app_l. Qed.

Lemma created_consistent rnd now u raw t desc w :
  consistent w -> consistent (created rnd now u raw t desc w).
Proof.
  intros [Ha Hu].
  assert (Hold : forall u0 id p, userMap (repo w) u0 !! id = Some p ->
                                 p < length (objects w) /\ ID (deref (objects w) p) = id).
  { intros u0 id p Hl. apply (Ha u0 id p). by apply Get_lookup. }
  assert (Hcases : forall u0 id p,
             fst (Get u0 id (created rnd now u raw t desc w)) = Ok p ->
             (u0 = u /\ id = newID rnd /\ p = length (objects w))
             \/ (p < length (objects w) /\ userMap (repo w) u0 !! id = Some p)).
  { intros u0 id p Hg. apply Get_lookup in Hg. rewrite userMap_created in Hg.
    destruct (decide (u0 = u)) as [->|Hne].
    - destruct (decide (id = newID rnd)) as [->|Hid].
      + rewrite lookup_insert_eq in Hg. left. by injection Hg as <-.
      + rewrite lookup_insert_ne in Hg by done. right. split; [|done].
        by apply (Hold u id p).
    - right. split; [|done]. by apply (Hold u0 id p). }
  split.
  - intros u0 id p Hg. destruct (Hcases _ _ _ Hg) as [(-> & -> & ->)|[Hlt Hl]]; simpl.
    + rewrite length_app. simpl. split; [lia|]. by rewrite deref_alloc.
    + rewrite length_app. simpl. split; [lia|].
      rewrite deref_app_l by done. by apply (Hold u0 id p).
  - intros u0 id u1 id1 p Hg Hg1.
    destruct (Hcases _ _ _ Hg) as [(-> & -> & ->)|[Hlt Hl]];
      destruct (Hcases _ _ _ Hg1) as [(-> & -> & Hp)|[Hlt1 Hl1]]; try done; try lia.
    apply (Hu u0 id u1 id1 p); by apply Get_lookup.
Qed.

Lemma CreateFavourite_err rnd now u raw (w : world InMemoryRepo) e w' :
  CreateFavourite rnd now u raw w = (Err e, w') -> w' = w.
Proof.
  unfold CreateFavourite. destruct (negb _); [by intros [= _ <-]|].
  destruct (validateAsset raw) as [[t d]|e']; [done|]. by intros [= _ <-].
Qed.

Lemma userMap_Delete u id (w : world InMemoryRepo) u0 :
  userMap (repo (snd (Delete u id w))) u0
  = if decide (u0 = u) then delete id (userMap (repo w) u) else userMap (repo w) u0.
Proof.
  simpl. unfold InMemoryRepo_Delete, userMap.
  destruct (data (repo w) !! u) as [m|] eqn:Hm; simpl.
  - destruct (m !! id) as [q|] eqn:Hq; simpl.
    + destruct (decide (u0 = u)) as [->|Hne].
      * by rewrite lookup_insert_eq.
      * by rewrite lookup_insert_ne.
    + destruct (decide (u0 = u)) as [->|Hne]; [|done].
      rewrite Hm. simpl. by rewrite delete_id.
  - destruct (decide (u0 = u)) as [->|Hne]; [|done].
    rewrite Hm. simpl. by rewrite delete_empty.
Qed.

Lemma objects_Delete u id (w : world InMemoryRepo) :
  objects (snd (Delete u id w)) = objects w.
Proof.
  simpl. unfold InMemoryRepo_Delete.
  destruct (data (repo w) !! u) as [m|]; [|done]. by destruct (m !! id).
Qed.

Lemma Delete_result u id (w : world InMemoryRepo) :
  Delete u id w
  = match userMap (repo w) u !! id with
    | Some _ => (Ok tt, snd (Delete u id w))
    | None => (Err ErrNotFound, w)
    end.
Proof.
  simpl. unfold InMemoryRepo_Delete, userMap.
  destruct (data (repo w) !! u) as [m|]; simpl; [|by rewrite lookup_empty].
  by destruct (m !! id).
Qed.

Lemma Delete_consistent u id w : consistent w -> consistent (snd (Delete u id w)).
Proof.
  intros [Ha Hu].
  assert (Hsub : forall u0 id0 p, fst (Get u0 id0 (snd (Delete u id w))) = Ok p ->
                                  fst (Get u0 id0 w) = Ok p).
  { intros u0 id0 p Hg. apply Get_lookup in Hg. apply Get_lookup.
    rewrite userMap_Delete in Hg. destruct (decide (u0 = u)) as [->|Hne]; [|done].
    apply lookup_delete_Some in Hg. tauto. }
  split.
  - intros u0 id0 p Hg. rewrite objects_Delete. by apply (Ha u0 id0 p), Hsub.
  - intros u0 id0 u1 id1 p Hg Hg1. apply (Hu u0 id0 u1 id1 p); by apply Hsub.
Qed.

(** [UpdateDescription] keeps the repository and the number of favourites,
    and changes at most the description of the favourite it finds. *)
Lemma UpdateDescription_shape u id desc (w : world InMemoryRepo) :
  repo (snd (UpdateDescription u id desc w)) = repo w
  /\ length (objects (snd (UpdateDescription u id desc w))) = length (objects w)
  /\ forall p, upToDescription (deref (objects w) p)
                 (deref (objects (snd (UpdateDescription u id desc w))) p)
               /\ (fst (Get u id w) <> Ok p ->
                   deref (objects (snd (UpdateDescription u id desc w))) p
                   = deref (objects w) p).
Proof.
  simpl. unfold InMemoryRepo_UpdateDescription, InMemoryRepo_Get.
  destruct (data (repo w) !! u) as [m|]; simpl;
    [|split; [done|]; split; [done|]; intros p; split; [apply upToDescription_refl|done]].
  destruct (m !! id) as [q|]; simpl;
    [|split; [done|]; split; [done|]; intros p; split; [apply upToDescription_refl|done]].
  split; [done|]. split; [by rewrite length_insert|].
  intros p. destruct (decide (q = p)) as [->|Hne].
  - split; [|congruence]. unfold deref.
    destruct (objects w !! p) as [f|] eqn:Hp.
    + rewrite list_lookup_insert_eq by (by eapply lookup_lt_Some). simpl. by repeat split.
    + rewrite list_insert_ge by (by apply lookup_ge_None). rewrite Hp.
      apply upToDescription_refl.
  - split; [|intros _]; unfold deref; rewrite list_lookup_insert_ne by done;
      [apply upToDescription_refl|done].
Qed.

Lemma UpdateDescription_consistent u id desc w :
  consistent w -> consistent (snd (UpdateDescription u id desc w)).
Proof.
  intros [Ha Hu].
  destruct (UpdateDescription_shape u id desc w) as (Hr & Hlen & Hobj).
  assert (Hsame : forall u0 id0, fst (Get u0 id0 (snd (UpdateDescription u id desc w)))
                                 = fst (Get u0 id0 w)).
  { intros u0 id0. simpl in *. unfold InMemoryRepo_Get. rewrite Hr.
    destruct (data (repo w) !! u0) as [m|]; [|done]. by destruct (m !! id0). }
  split.
  - intros u0 id0 p Hg. rewrite Hsame in Hg. rewrite Hlen.
    destruct (Ha _ _ _ Hg) as [Hlt Hid]. split; [done|].
    destruct (proj1 (Hobj p)) as (HID & _). by rewrite HID.
  - intros u0 id0 u1 id1 p Hg Hg1. rewrite Hsame in Hg, Hg1. by apply (Hu u0 id0 u1 id1 p).
Qed.

Lemma run_consistent c w : consistent w -> consistent (run c w).
Proof.
  intros Hw. destruct c as [rho u|rnd now u raw|u id desc|u id]; simpl.
  - unfold ListFavourites. by destruct (negb _).
  - destruct (CreateFavourite rnd now u raw w) as [[q|e] w'] eqn:Hc; simpl.
    + apply CreateFavourite_inv in Hc as (t & d & _ & _ & _ & ->).
      by apply created_consistent.
    + by apply CreateFavourite_err in Hc as ->.
  - unfold UpdateFavouriteDescription. destruct (_ || _); [done|].
    by apply UpdateDescription_consistent.
  - unfold DeleteFavourite. destruct (_ || _); [done|].
    by apply Delete_consistent.
Qed.

(** Every state that calls on the service lead to from the empty one is
    consistent. *)
Lemma runs_consistent cs w : consistent w -> consistent (runs cs w).
Proof.
  revert w. induction cs as [|c cs IH]; intros w Hw; simpl; [done|].
  by apply IH, run_consistent.
Qed.

Lemma run_other_user c u w :
  consistent w -> userOf c <> u ->
  userMap (repo (run c w)) u = userMap (repo w) u
  /\ forall id p, fst (Get u id w) = Ok p ->
                  deref (objects (run c w)) p = deref (objects w) p.
Proof.
  intros [Ha Hu] Hne.
  destruct c as [rho u1|rnd now u1 raw|u1 id1 desc|u1 id1]; simpl in *.
  - unfold ListFavourites. by destruct (negb _).
  - destruct (CreateFavourite rnd now u1 raw w) as [[q|e] w'] eqn:Hc; simpl.
    + apply CreateFavourite_inv in Hc as (t & d & _ & _ & _ & ->).
      rewrite userMap_created. destruct (decide (u = u1)) as [->|_]; [done|].
      split; [done|]. intros id p Hg. simpl. apply deref_app_l.
      by destruct (Ha _ _ _ Hg).
    + by apply CreateFavourite_err in Hc as ->.
  - unfold UpdateFavouriteDescription. destruct (_ || _); [done|].
    destruct (UpdateDescription_shape u1 id1 desc w) as (Hr & _ & Hobj).
    split; [unfold userMap; by rewrite Hr|].
    intros id p Hg. apply (Hobj p). intros Hg1.
    destruct (Hu _ _ _ _ _ Hg Hg1) as [-> _]. done.
  - unfold DeleteFavourite. destruct (_ || _); [done|].
    rewrite userMap_Delete, objects_Delete.
    by destruct (decide (u = u1)) as [->|_].
Qed.

Lemma runs_other_user cs u w :
  consistent w -> Forall (fun c => userOf c <> u) cs ->
  userMap (repo (runs cs w)) u = userMap (repo w) u
  /\ forall id p, fst (Get u id w) = Ok p ->
                  deref (objects (runs cs w)) p = deref (objects w) p.
Proof.
  revert w. induction cs as [|c cs IH]; intros w Hw Hcs; simpl; [done|].
  apply Forall_cons in Hcs as [Hc Hcs].
  destruct (run_other_user c u w Hw Hc) as [Hm Hd].
  destruct (IH (run c w) (run_consistent c w Hw) Hcs) as [Hm' Hd'].
  split; [by rewrite Hm'|].
  intros id p Hg. rewrite <- (Hd id p Hg). apply (Hd' id).
  apply Get_lookup. rewrite Hm. by apply Get_lookup.
Qed.

End ReachFacts.

(** ** What a listing depends on *)

Section ListingFacts.

Lemma insertBack_ext {A} (less1 less2 : A -> A -> bool) x rp :
  (forall y, y ∈ rp -> less1 x y = less2 x y) ->
  Sort.insertBack less1 x rp = Sort.insertBack less2 x rp.
Proof.
  induction rp as [|a rp IH]; intros Hxy; simpl; [done|].
  rewrite (Hxy a) by left. destruct (less2 x a); [|done].
  f_equal. apply IH. intros y Hy. apply Hxy. by right.
Qed.

Lemma fold_insertBack_ext {A} (less1 less2 : A -> A -> bool) l acc :
  (forall x y, x ∈ l -> y ∈ l ++ acc -> less1 x y = less2 x y) ->
  fold_left (fun rp x => Sort.insertBack less1 x rp) l acc
  = fold_left (fun rp x => Sort.insertBack less2 x rp) l acc.
Proof.
  revert acc. induction l as [|a l IH]; intros acc Hxy; simpl; [done|].
  rewrite (insertBack_ext less1 less2 a acc).
  - apply IH. intros x y Hx Hy. apply Hxy; [by right|].
    apply elem_of_app in Hy as [Hy|Hy].
    + apply elem_of_app. left. by right.
    + rewrite insertBack_perm in Hy. apply elem_of_cons in Hy as [->|Hy].
      * apply elem_of_app. left. by left.
      * apply elem_of_app. by right.
  - intros y Hy. apply Hxy; [by left|]. apply elem_of_app. by right.
Qed.

(** The sort looks at [less] on the elements of the slice only. *)
Lemma Slice_ext {A} (less1 less2 : A -> A -> bool) l :
  (forall x y, x ∈ l -> y ∈ l -> less1 x y = less2 x y) ->
  Sort.Slice less1 l = Sort.Slice less2 l.
Proof.
  intros Hxy. unfold Sort.Slice. f_equal. apply fold_insertBack_ext.
  intros x y Hx Hy. rewrite app_nil_r in Hy. by apply Hxy.
Qed.

(** What [ListFavourites] returns for a user depends on the entries of the
    user and on the creation times of the favourites they point to. *)
Lemma ListFavourites_ext rho u (w w' : world InMemoryRepo) :
  userMap (repo w') u = userMap (repo w) u ->
  (forall p, p ∈ stored w u ->
             CreatedAt (deref (objects w') p) = CreatedAt (deref (objects w) p)) ->
  fst (ListFavourites rho u w') = fst (ListFavourites rho u w).
Proof.
  intros Hm Ht. unfold ListFavourites. destruct (negb _); [done|]. simpl.
  unfold InMemoryRepo_List. simpl. rewrite Hm. f_equal.
  assert (Hin : forall x, x ∈ (visit rho (map_to_list (userMap (repo w) u))).*2 ->
                          x ∈ stored w u).
  { intros x Hx. unfold stored. by rewrite (visit_perm rho) in Hx. }
  apply Slice_ext. intros x y Hx Hy. unfold newerThan.
  by rewrite (Ht x), (Ht y) by auto.
Qed.

Lemma newID_not_blank rnd : blank (newID rnd) = false.
Proof.
  unfold blank. rewrite TrimSpace_id_chars.
  - unfold newID. done.
  - unfold newID. done.
  - unfold newID. rewrite list_ascii_of_string_of_list_ascii.
    apply forallb_forall. intros c Hc. apply in_map_iff in Hc as (i & <- & _).
    apply draw_id_char.
Qed.

End ListingFacts.

(** ** The service over the in-memory repository *)

Section ServiceExtras.

(** X1.  In every state that calls on the service lead to from the empty
    one, a listing that ListFavourites returns for a user leaves the state
    as it is, holds no two favourites with the same identifier, is ordered
    newest first, and holds exactly the favourites that Get finds under the
    user and their own identifier. *)
Theorem ListFavourites_lists_each_once
    (cs : list call) (rho : RangeOrder) (u : string) (l : list loc)
    (w' : world InMemoryRepo) :
  ListFavourites rho u (runs cs emptyWorld) = (Ok l, w') ->
  w' = runs cs emptyWorld
  /\ NoDup ((fun p => ID (deref (objects w') p)) <$> l)
  /\ newestFirst (objects w') l
  /\ forall p, p ∈ l <-> fst (Get u (ID (deref (objects w') p)) w') = Ok p.
Proof.
  pose proof (runs_consistent cs emptyWorld consistent_empty) as [Ha Hu].
  set (w := runs cs emptyWorld) in *.
  unfold ListFavourites. destruct (negb _); [done|].
  destruct (List_ok rho u w) as (l' & Hl & Hperm & Hsorted).
  rewrite Hl. intros [= <- <-]. split; [done|].
  assert (Hin : forall p, p ∈ l' <-> fst (Get u (ID (deref (objects w) p)) w) = Ok p).
  { intros p. rewrite Hperm, stored_Get. split.
    - intros [id Hg]. destruct (Ha _ _ _ Hg) as [_ ->]. done.
    - intros Hg. by eexists. }
  split; [|split; [done|done]].
  rewrite Hperm. unfold stored.
  assert (Hids : (fun p => ID (deref (objects w) p)) <$> (map_to_list (userMap (repo w) u)).*2
                 = (map_to_list (userMap (repo w) u)).*1).
  { rewrite <- list_fmap_compose. apply Forall_fmap_ext_1, Forall_forall.
    intros [id p] Hp. simpl. apply elem_of_map_to_list in Hp.
    apply Get_lookup in Hp. by destruct (Ha _ _ _ Hp). }
  rewrite Hids. apply NoDup_fst_map_to_list.
Qed.

Lemma X1_witness :
  ListFavourites inOrder "kostas" (runs twoCreates emptyWorld)
  = (Ok [0; 1], runs twoCreates emptyWorld)
  /\ (runs twoCreates emptyWorld = runs twoCreates emptyWorld
      /\ NoDup ((fun p => ID (deref (objects (runs twoCreates emptyWorld)) p)) <$> [0; 1])
      /\ newestFirst (objects (runs twoCreates emptyWorld)) [0; 1]
      /\ forall p, p ∈ [0; 1]
                   <-> fst (Get "kostas"
                              (ID (deref (objects (runs twoCreates emptyWorld)) p))
                              (runs twoCreates emptyWorld)) = Ok p).
Proof.
  split; [vm_compute; reflexivity|].
  apply (ListFavourites_lists_each_once twoCreates inOrder "kostas" [0; 1]).
  vm_compute. reflexivity.
Defined.

(** X2.  Calls made for other users leave what a user sees as it is: after
    any such calls ListFavourites returns for the user the favourites it
    returned before, in the same sequence when the map is ranged over in
    the same order, and in the same sequence for any two orders when no two
    favourites of the user share a creation time; and every favourite that
    Get found for the user is found again, with the same record. *)
Theorem calls_for_other_users_keep_listing
    (cs cs' : list call) (u : string) :
  Forall (fun c => userOf c <> u) cs' ->
  (forall rho rho',
      sameFavourites (fst (ListFavourites rho' u (runs cs' (runs cs emptyWorld))))
                     (fst (ListFavourites rho u (runs cs emptyWorld))))
  /\ (forall rho,
        fst (ListFavourites rho u (runs cs' (runs cs emptyWorld)))
        = fst (ListFavourites rho u (runs cs emptyWorld)))
  /\ (distinctTimes (runs cs emptyWorld) u ->
      forall rho rho',
        fst (ListFavourites rho' u (runs cs' (runs cs emptyWorld)))
        = fst (ListFavourites rho u (runs cs emptyWorld)))
  /\ forall id p, fst (Get u id (runs cs emptyWorld)) = Ok p ->
        fst (Get u id (runs cs' (runs cs emptyWorld))) = Ok p
        /\ deref (objects (runs cs' (runs cs emptyWorld))) p
           = deref (objects (runs cs emptyWorld)) p.
Proof.
  intros Hcs.
  pose proof (runs_consistent cs emptyWorld consistent_empty) as Hw.
  destruct (runs_other_user cs' u _ Hw Hcs) as [Hm Hd].
  assert (Hsame : forall rho,
             fst (ListFavourites rho u (runs cs' (runs cs emptyWorld)))
             = fst (ListFavourites rho u (runs cs emptyWorld))).
  { intros rho. apply ListFavourites_ext; [done|]. intros p Hp.
    apply stored_Get in Hp as [id Hg]. by rewrite (Hd id p Hg). }
  split; [intros rho rho'; by apply ListFavourites_same_store|].
  split; [done|]. split.
  - intros Hdist rho rho'. rewrite Hsame. by apply ListFavourites_any_order.
  - intros id p Hg. split; [|by apply (Hd id)].
    apply Get_lookup. rewrite Hm. by apply Get_lookup.
Qed.

Lemma X2_witness :
  Forall (fun c => userOf c <> "kostas") mariasCalls
  /\ ((forall rho rho',
         sameFavourites
           (fst (ListFavourites rho' "kostas" (runs mariasCalls (runs twoCreates emptyWorld))))
           (fst (ListFavourites rho "kostas" (runs twoCreates emptyWorld))))
      /\ (forall rho,
            fst (ListFavourites rho "kostas" (runs mariasCalls (runs twoCreates emptyWorld)))
            = fst (ListFavourites rho "kostas" (runs twoCreates emptyWorld)))
      /\ (distinctTimes (runs twoCreates emptyWorld) "kostas" ->
          forall rho rho',
            fst (ListFavourites rho' "kostas" (runs mariasCalls (runs twoCreates emptyWorld)))
            = fst (ListFavourites rho "kostas" (runs twoCreates emptyWorld)))
      /\ forall id p, fst (Get "kostas" id (runs twoCreates emptyWorld)) = Ok p ->
           fst (Get "kostas" id (runs mariasCalls (runs twoCreates emptyWorld))) = Ok p
           /\ deref (objects (runs mariasCalls (runs twoCreates emptyWorld))) p
              = deref (objects (runs twoCreates emptyWorld)) p).
Proof.
  assert (H : Forall (fun c => userOf c <> "kostas") mariasCalls).
  { repeat constructor; discriminate. }
  split; [exact H|].
  exact (calls_for_other_users_keep_listing twoCreates mariasCalls "kostas" H).
Defined.

(** X3.  A favourite that is created under an identifier the user did not
    have, and deleted again, leaves the listings as they were: for every
    user ListFavourites returns the favourites it returned before the two
    calls, in the same sequence when the map is ranged over in the same
    order, and in the same sequence for any two orders when no two
    favourites of that user share a creation time. *)
Theorem create_then_delete_restores_listings
    (cs : list call) (rnd : nat -> nat) (now : Time) (u : string) (raw : RawMessage)
    (p : loc) (w1 : world InMemoryRepo) :
  CreateFavourite rnd now u raw (runs cs emptyWorld) = (Ok p, w1) ->
  fst (Get u (newID rnd) (runs cs emptyWorld)) = Err ErrNotFound ->
  exists w2,
    DeleteFavourite u (newID rnd) w1 = (Ok tt, w2)
    /\ forall u',
         (forall rho rho',
             sameFavourites (fst (ListFavourites rho' u' w2))
                            (fst (ListFavourites rho u' (runs cs emptyWorld))))
         /\ (forall rho,
               fst (ListFavourites rho u' w2)
               = fst (ListFavourites rho u' (runs cs emptyWorld)))
         /\ (distinctTimes (runs cs emptyWorld) u' ->
             forall rho rho',
               fst (ListFavourites rho' u' w2)
               = fst (ListFavourites rho u' (runs cs emptyWorld))).
Proof.
  pose proof (runs_consistent cs emptyWorld consistent_empty) as [Ha Hu].
  set (w := runs cs emptyWorld) in *.
  intros Hc Hfresh. apply Get_missing in Hfresh.
  apply CreateFavourite_inv in Hc as (t & d & Hv & _ & -> & ->).
  assert (Hdel : DeleteFavourite u (newID rnd) (created rnd now u raw t d w)
                 = Delete u (newID rnd) (created rnd now u raw t d w)).
  { unfold DeleteFavourite. rewrite Hv. simpl.
    pose proof (newID_not_blank rnd) as Hb. unfold blank in Hb. by rewrite Hb. }
  exists (snd (Delete u (newID rnd) (created rnd now u raw t d w))).
  rewrite Hdel. split.
  - simpl. unfold InMemoryRepo_Delete. simpl.
    by rewrite lookup_insert_eq, lookup_insert_eq.
  - intros u'.
    assert (Hm : userMap (repo (snd (Delete u (newID rnd) (created rnd now u raw t d w)))) u'
                 = userMap (repo w) u').
    { rewrite userMap_Delete, !userMap_created.
      destruct (decide (u' = u)) as [->|Hne].
      * destruct (decide (u = u)); [|done]. by rewrite delete_insert_id.
      * by destruct (decide (u' = u)). }
    assert (Hsame : forall rho,
               fst (ListFavourites rho u'
                      (snd (Delete u (newID rnd) (created rnd now u raw t d w))))
               = fst (ListFavourites rho u' w)).
    { intros rho. apply ListFavourites_ext; [done|].
      intros q Hq. apply stored_Get in Hq as [id Hg].
      rewrite objects_Delete. simpl. rewrite deref_app_l; [done|].
      by destruct (Ha _ _ _ Hg). }
    split; [intros rho rho'; by apply ListFavourites_same_store|].
    split; [done|].
    intros Hdist rho rho'. rewrite Hsame. by apply ListFavourites_any_order.
Qed.

Lemma X3_witness :
  CreateFavourite draws1 11%Z "kostas" chartRaw (runs oneCreate emptyWorld)
  = (Ok 1, snd (CreateFavourite draws1 11%Z "kostas" chartRaw (runs oneCreate emptyWorld)))
  /\ fst (Get "kostas" (newID draws1) (runs oneCreate emptyWorld)) = Err ErrNotFound
  /\ exists w2,
       DeleteFavourite "kostas" (newID draws1)
         (snd (CreateFavourite draws1 11%Z "kostas" chartRaw (runs oneCreate emptyWorld)))
       = (Ok tt, w2)
       /\ forall u',
            (forall rho rho',
                sameFavourites (fst (ListFavourites rho' u' w2))
                               (fst (ListFavourites rho u' (runs oneCreate emptyWorld))))
            /\ (forall rho,
                  fst (ListFavourites rho u' w2)
                  = fst (ListFavourites rho u' (runs oneCreate emptyWorld)))
            /\ (distinctTimes (runs oneCreate emptyWorld) u' ->
                forall rho rho',
                  fst (ListFavourites rho' u' w2)
                  = fst (ListFavourites rho u' (runs oneCreate emptyWorld))).
Proof.
  split; [vm_compute; reflexivity|]. split; [vm_compute; reflexivity|].
  apply (create_then_delete_restores_listings oneCreate draws1 11%Z "kostas" chartRaw 1);
    vm_compute; reflexivity.
Defined.

(** X4.  UpdateFavouriteDescription, whether it succeeds or fails, changes
    no entry and no creation time that a listing depends on: for every
    user ListFavourites returns the favourites it returned before the
    call, in the same sequence when the map is ranged over in the same
    order, and in the same sequence for any two orders when no two
    favourites of that user share a creation time. *)
Theorem update_keeps_every_listing
    (w : world InMemoryRepo) (u id desc : string) (u' : string) :
  (forall rho rho',
      sameFavourites
        (fst (ListFavourites rho' u' (snd (UpdateFavouriteDescription u id desc w))))
        (fst (ListFavourites rho u' w)))
  /\ (forall rho,
        fst (ListFavourites rho u' (snd (UpdateFavouriteDescription u id desc w)))
        = fst (ListFavourites rho u' w))
  /\ (distinctTimes w u' ->
      forall rho rho',
        fst (ListFavourites rho' u' (snd (UpdateFavouriteDescription u id desc w)))
        = fst (ListFavourites rho u' w)).
Proof.
  assert (Hm : userMap (repo (snd (UpdateFavouriteDescription u id desc w))) u'
               = userMap (repo w) u').
  { unfold UpdateFavouriteDescription. destruct (_ || _); [done|].
    destruct (UpdateDescription_shape u id desc w) as (Hr & _ & _).
    unfold userMap. by rewrite Hr. }
  assert (Hsame : forall rho,
             fst (ListFavourites rho u' (snd (UpdateFavouriteDescription u id desc w)))
             = fst (ListFavourites rho u' w)).
  { intros rho. unfold UpdateFavouriteDescription. destruct (_ || _); [done|].
    destruct (UpdateDescription_shape u id desc w) as (Hr & _ & Hobj).
    apply ListFavourites_ext.
    - unfold userMap. by rewrite Hr.
    - intros p _. destruct (proj1 (Hobj p)) as (_ & _ & _ & Ht). done. }
  split; [intros rho rho'; by apply ListFavourites_same_store|].
  split; [done|].
  intros Hdist rho rho'. rewrite Hsame. by apply ListFavourites_any_order.
Qed.

End ServiceExtras.

(** ** The type and the description of a favourite *)

Section ProbeFacts.

(** The [AssetBase] embedded in a struct sees the members of an object as
    the probe of [validateAsset] does. *)
Lemma decodeObject_base {T} `{Struct T} (base : T -> AssetBase) :
  (forall k v t,
      base (fst (setField k v t))
      = match AssetBase_setField k v (base t) with
        | Some (b, _) => b
        | None => base t
        end) ->
  forall kvs (acc : T * bool) (accp : probe * bool),
    Type_ (base (fst acc)) = probe_Type (fst accp) ->
    Models.Description (base (fst acc)) = probe_Description (fst accp) ->
    Models.Description
      (base (fst (fold_left (fun acc kv =>
                               let (t', ok') := setField (fst kv) (snd kv) (fst acc) in
                               (t', snd acc && ok'))
                            kvs acc)))
    = probe_Description
        (fst (fold_left (fun acc kv =>
                           let (t', ok') := setField (fst kv) (snd kv) (fst acc) in
                           (t', snd acc && ok'))
                        kvs accp)).
Proof.
  intros Hbase kvs. induction kvs as [|[k v] kvs IH]; intros acc accp Ht Hd; [done|].
  cbn [fold_left fst snd].
  destruct (setField k v (fst acc)) as [t' ok'] eqn:Hs.
  destruct (setField k v (fst accp)) as [p' okp'] eqn:Hp.
  assert (Hb : base t' = match AssetBase_setField k v (base (fst acc)) with
                         | Some (b, _) => b
                         | None => base (fst acc)
                         end).
  { rewrite <- Hbase. by rewrite Hs. }
  cbn [setField probe_Struct] in Hp. unfold AssetBase_setField in Hb.
  apply IH; cbn [fst]; rewrite Hb.
  - destruct (equalFold "type" k).
    + destruct (storeString v (Type_ (base (fst acc)))) as [x ok] eqn:Hx.
      rewrite Ht in Hx. rewrite Hx in Hp. by injection Hp as <- _.
    + destruct (equalFold "description" k).
      * destruct (storeString v (Models.Description (base (fst acc)))) as [x ok] eqn:Hx.
        rewrite Hd in Hx. rewrite Hx in Hp. by injection Hp as <- _.
      * by injection Hp as <- _.
  - destruct (equalFold "type" k).
    + destruct (storeString v (Type_ (base (fst acc)))) as [x ok] eqn:Hx.
      rewrite Ht in Hx. rewrite Hx in Hp. by injection Hp as <- _.
    + destruct (equalFold "description" k).
      * destruct (storeString v (Models.Description (base (fst acc)))) as [x ok] eqn:Hx.
        rewrite Hd in Hx. rewrite Hx in Hp. by injection Hp as <- _.
      * by injection Hp as <- _.
Qed.

Lemma Unmarshal_base {T} `{Struct T} (base : T -> AssetBase) raw t p :
  (forall k v t,
      base (fst (setField k v t))
      = match AssetBase_setField k v (base t) with
        | Some (b, _) => b
        | None => base t
        end) ->
  base zero = mkAssetBase EmptyString EmptyString ->
  Unmarshal raw = Some t -> Unmarshal (T := probe) raw = Some p ->
  Models.Description (base t) = probe_Description p.
Proof.
  intros Hbase Hzero. unfold Unmarshal.
  destruct (parse raw) as [[| | | | |kvs]|]; try done.
  - intros [= <-] [= <-]. by rewrite Hzero.
  - unfold decodeObject.
    pose proof (decodeObject_base base Hbase kvs (zero, true) (zero, true)) as Hsim.
    cbn [fst] in Hsim. rewrite Hzero in Hsim. specialize (Hsim eq_refl eq_refl).
    destruct (fold_left _ kvs (zero, true)) as [t' ok].
    destruct (fold_left _ kvs (zero, true)) as [p' okp].
    destruct ok; [|done]. destruct okp; [|done]. by intros [= <-] [= <-].
Qed.

Ltac base_of_setField :=
  intros k v x; cbn [setField Chart_Struct Insight_Struct Audience_Struct];
  match goal with
  | |- context [AssetBase_setField k v ?b] =>
    destruct (AssetBase_setField k v b) as [[? ?]|]; [done|]
  end;
  repeat (match goal with |- context [if ?b then _ else _] => destruct b end);
  repeat (match goal with |- context [let (_, _) := ?e in _] => destruct e end);
  done.

(** The description that [validateAsset] returns is the one the payload
    declares. *)
Lemma validateAsset_description raw t desc :
  validateAsset raw = Ok (t, desc) -> declaredDescription raw = Some desc.
Proof.
  unfold validateAsset, declaredDescription.
  destruct (Unmarshal (T := probe) raw) as [p|] eqn:Hp; [|done]. simpl.
  destruct (String.eqb (probe_Type p) AssetChart).
  { destruct (Unmarshal (T := Chart) raw) as [c|] eqn:Hc; [|done].
    destruct (_ || _); [done|]. intros [= _ <-]. f_equal. symmetry.
    apply (Unmarshal_base Chart_AssetBase raw c p); try done. base_of_setField. }
  destruct (String.eqb (probe_Type p) AssetInsight).
  { destruct (Unmarshal (T := Insight) raw) as [c|] eqn:Hc; [|done].
    destruct (isEmpty _); [done|]. intros [= _ <-]. f_equal. symmetry.
    apply (Unmarshal_base Insight_AssetBase raw c p); try done. base_of_setField. }
  destruct (String.eqb (probe_Type p) AssetAudience); [|done].
  destruct (Unmarshal (T := Audience) raw) as [c|] eqn:Hc; [|done].
  destruct (_ || _); [done|]. intros [= _ <-]. f_equal. symmetry.
  apply (Unmarshal_base Audience_AssetBase raw c p); try done. base_of_setField.
Qed.

(** X5.  The type and the description of a favourite that CreateFavourite
    returns are the ones its payload declares in the members type and
    description (the description is empty when the payload has none);
    nothing else of the payload enters the two fields. *)
Theorem a_favourite_carries_what_its_payload_declares
    (rnd : nat -> nat) (now : Time) (u : string) (raw : RawMessage)
    (w w' : world InMemoryRepo) (p : loc) :
  CreateFavourite rnd now u raw w = (Ok p, w') ->
  declaredType raw = Some (FavType (deref (objects w') p))
  /\ declaredDescription raw = Some (FavDescription (deref (objects w') p)).
Proof.
  intros Hc. apply CreateFavourite_inv in Hc as (t & desc & _ & Hv & -> & ->).
  cbn [created objects]. rewrite deref_alloc. cbn [FavType FavDescription].
  split.
  - by apply validateAsset_kind in Hv as [Ht _].
  - by apply validateAsset_description in Hv.
Qed.

Lemma X5_witness :
  CreateFavourite draws0 10%Z "kostas" insightRaw emptyWorld = (Ok 0, world1)
  /\ declaredType insightRaw = Some (FavType (deref (objects world1) 0))
  /\ declaredDescription insightRaw = Some (FavDescription (deref (objects world1) 0)).
Proof.
  split; [vm_compute; reflexivity|].
  apply (a_favourite_carries_what_its_payload_declares draws0 10%Z "kostas" insightRaw
           emptyWorld world1 0).
  vm_compute. reflexivity.
Defined.

End ProbeFacts.

(** ** Paths *)

Section PathFacts.

#[local] Arguments String.append !_ _ : simpl nomatch.

Lemma append_assoc (a b c : string) : (a +:+ b) +:+ c = a +:+ (b +:+ c).
Proof. induction a as [|x a IH]; simpl; [done|]. by rewrite IH. Qed.

Lemma list_ascii_of_string_app (a b : string) :
  list_ascii_of_string (a +:+ b) = list_ascii_of_string a ++ list_ascii_of_string b.
Proof. induction a as [|x a IH]; simpl; [done|]. by rewrite IH. Qed.

(** A string that does not end in [c] has nothing trimmed off its end. *)
Lemma trimRightByte_snoc s a c :
  a <> c -> Strings.trimRightByte (s +:+ str1 a) c = s +:+ str1 a.
Proof.
  intros Hne. unfold Strings.trimRightByte.
  assert (Hrev : rev_string (s +:+ str1 a) = String a (rev_string s)).
  { unfold rev_string. rewrite list_ascii_of_string_app. simpl.
    by rewrite rev_app_distr. }
  rewrite Hrev. simpl. destruct (Ascii.eqb_spec a c) as [->|_]; [done|].
  rewrite <- Hrev. apply rev_string_involutive.
Qed.

Lemma segment_snoc s :
  segment s = true -> s <> EmptyString ->
  exists s' a, s = s' +:+ str1 a /\ a <> chr 47.
Proof.
  induction s as [|x s IH]; intros Hs Hne; [done|].
  unfold segment in Hs. cbn [forallb_string] in Hs.
  apply andb_true_iff in Hs as [Hx Hs].
  destruct s as [|y s].
  - exists EmptyString, x. split; [done|].
    intros ->. by rewrite Ascii.eqb_refl in Hx.
  - destruct (IH Hs) as (s' & a & Heq & Ha); [done|].
    exists (String x s'), a. split; [|done]. simpl. by rewrite <- Heq.
Qed.

Lemma Split_segment s : segment s = true -> Strings.Split s (chr 47) = [s].
Proof.
  induction s as [|x s IH]; intros Hs; [done|].
  unfold segment in Hs. cbn [forallb_string] in Hs.
  apply andb_true_iff in Hs as [Hx Hs]. cbn [Strings.Split].
  destruct (Ascii.eqb x (chr 47)); [done|]. by rewrite IH.
Qed.

Lemma Split_app s t :
  segment s = true ->
  Strings.Split (s +:+ String (chr 47) t) (chr 47) = s :: Strings.Split t (chr 47).
Proof.
  induction s as [|x s IH]; intros Hs.
  - change (EmptyString +:+ String (chr 47) t) with (String (chr 47) t).
    cbn [Strings.Split]. by rewrite Ascii.eqb_refl.
  - unfold segment in Hs. cbn [forallb_string] in Hs.
    apply andb_true_iff in Hs as [Hx Hs].
    change (String x s +:+ String (chr 47) t) with (String x (s +:+ String (chr 47) t)).
    cbn [Strings.Split]. destruct (Ascii.eqb x (chr 47)); [done|]. by rewrite IH.
Qed.

(** The parts that [routeUsers] and [parseUserFromPath] cut the two paths
    of the API into. *)
Lemma parts_collection u :
  segment u = true ->
  Strings.Split (Strings.Trim (collection u) (chr 47)) (chr 47) = ["users"; u; "favourites"].
Proof.
  intros Hu. unfold Strings.Trim, collection.
  change ("/users/" +:+ u +:+ "/favourites")
    with ("/users/" +:+ (u +:+ ("/favourite" +:+ str1 "s"))).
  rewrite <- !append_assoc. rewrite trimRightByte_snoc by done.
  rewrite !append_assoc.
  change (Strings.trimLeftByte ("/users/" +:+ (u +:+ ("/favourite" +:+ str1 "s"))) (chr 47))
    with ("users" +:+ String (chr 47) (u +:+ String (chr 47) "favourites")).
  rewrite (Split_app "users") by done. rewrite Split_app by done.
  by rewrite (Split_segment "favourites").
Qed.

Lemma parts_item u id :
  segment u = true -> segment id = true -> id <> EmptyString ->
  Strings.Split (Strings.Trim (item u id) (chr 47)) (chr 47)
  = ["users"; u; "favourites"; id].
Proof.
  intros Hu Hid Hne. unfold Strings.Trim, item.
  destruct (segment_snoc id Hid Hne) as (s' & a & Heq & Ha).
  rewrite Heq at 1. rewrite <- !append_assoc. rewrite trimRightByte_snoc by done.
  rewrite !append_assoc. rewrite <- Heq.
  change (Strings.trimLeftByte ("/users/" +:+ (u +:+ ("/favourites/" +:+ id))) (chr 47))
    with ("users" +:+ String (chr 47) (u +:+ String (chr 47)
            ("favourites" +:+ String (chr 47) id))).
  rewrite (Split_app "users") by done. rewrite Split_app by done.
  rewrite (Split_app "favourites") by done.
  by rewrite (Split_segment id).
Qed.

End PathFacts.

(** ** Decoding the bodies *)

Section DecoderFacts.

#[local] Arguments String.append !_ _ : simpl nomatch.

Lemma parseValue_length m d s v r :
  parseValue m d s = Some (v, r) -> String.length r < String.length s.
Proof. intros Hp. by apply (proj1 (parse_fuel m)) in Hp as [Hlt _]. Qed.

(** An object comes from an opening brace. *)
Lemma parseValue_Object m d s kvs rest :
  parseValue m d s = Some (Object kvs, rest) ->
  exists m' r c' r',
    m = S m' /\ s = String (chr 123) r /\ skipSpace r = String c' r'
    /\ ((code c' =? 125)%N = true /\ kvs = [] /\ rest = r'
        \/ (code c' =? 125)%N = false
           /\ parseMembers m' (d + 1) (String c' r') = Some (kvs, rest)).
Proof.
  destruct m as [|m']; [done|]. cbn [parseValue].
  destruct s as [|c r]; [done|].
  destruct (code c =? 123)%N eqn:Hc.
  - assert (Hbrace : c = chr 123).
    { apply N.eqb_eq in Hc. unfold code in Hc.
      rewrite <- (ascii_N_embedding c). by rewrite Hc. }
    destruct (maxNestingDepth <=? d)%N; [done|].
    destruct (skipSpace r) as [|c' r'] eqn:Hs; [done|].
    destruct (code c' =? 125)%N eqn:Hc'.
    + intros [= <- <-]. exists m', r, c', r'. rewrite Hbrace. repeat split; try done.
      by left.
    + destruct (parseMembers m' (d + 1) (String c' r')) as [[kvs' r'']|] eqn:Hm; [|done].
      intros [= <- <-]. exists m', r, c', r'. rewrite Hbrace. repeat split; try done.
      by right.
  - destruct (code c =? 91)%N.
    { destruct (maxNestingDepth <=? d)%N; [done|].
      destruct (skipSpace r) as [|c' r']; [done|].
      destruct (code c' =? 93)%N; [done|].
      by destruct (parseElements m' (d + 1) (String c' r')) as [[? ?]|]. }
    destruct (code c =? 34)%N. { by destruct (scanString r) as [[? ?]|]. }
    destruct (code c =? 116)%N. { by destruct (stripPrefix "rue" r). }
    destruct (code c =? 102)%N. { by destruct (stripPrefix "alse" r). }
    destruct (code c =? 110)%N. { by destruct (stripPrefix "ull" r). }
    by destruct (scanNumber (String c r)) as [[? ?]|].
Qed.

(** Where the parser reads the members of an object, [rawMembers] reads
    them too, key by key. *)
Lemma rawMembers_ok m s kvs rest n :
  parseMembers m 1 s = Some (kvs, rest) ->
  String.length s <= n ->
  exists raws, rawMembers n s = Some raws /\ raws.*1 = kvs.*1.
Proof.
  revert s kvs rest n. induction m as [|m IH]; intros s kvs rest n; [done|].
  cbn [parseMembers]. destruct s as [|q r]; [done|].
  destruct n as [|n]; [simpl; lia|]. intros Hp Hn. simpl in Hn.
  cbn [rawMembers].
  destruct (negb (code q =? 34)%N); [done|].
  destruct (scanString r) as [[k r1]|] eqn:Hk; [|done].
  apply scanString_length in Hk.
  destruct (skipSpace r1) as [|c r2] eqn:Hs1; [done|].
  pose proof (skipSpace_length r1) as Hl1. rewrite Hs1 in Hl1. simpl in Hl1.
  destruct (negb (code c =? 58)%N); [done|].
  pose proof (skipSpace_length r2) as Hl2.
  destruct (parseValue m 1 (skipSpace r2)) as [[v r3]|] eqn:Hv; [|done].
  rewrite (parseValue_enough_fuel _ _ _ _ Hv).
  apply parseValue_length in Hv.
  destruct (skipSpace r3) as [|c' r4] eqn:Hs3; [done|].
  pose proof (skipSpace_length r3) as Hl3. rewrite Hs3 in Hl3. simpl in Hl3.
  destruct (code c' =? 44)%N.
  - destruct (parseMembers m 1 (skipSpace r4)) as [[kvs' r5]|] eqn:Hm; [|done].
    injection Hp as <- <-.
    pose proof (skipSpace_length r4) as Hl4.
    destruct (IH _ _ _ n Hm) as (raws & -> & Hraws); [lia|].
    eexists. split; [done|]. by rewrite !fmap_cons, Hraws.
  - destruct (code c' =? 125)%N; [|done]. injection Hp as <- <-.
    eexists. split; [done|]. done.
Qed.

(** [DecodeCreate] fails only where the body does not start with a JSON
    object or a null. *)
Lemma DecodeCreate_Object body kvs rest :
  parseValue (2 * String.length body + 2) 0 (skipSpace body) = Some (Object kvs, rest) ->
  exists raws, DecodeCreate body = Some (mkCreatePayload (lastAsset raws))
               /\ raws.*1 = kvs.*1.
Proof.
  intros Hp. unfold DecodeCreate. rewrite Hp.
  apply parseValue_Object in Hp as (m' & r & c' & r' & _ & Hs & Hr & Hcase).
  rewrite Hs, Hr. pose proof (skipSpace_length body) as Hb. rewrite Hs in Hb.
  pose proof (skipSpace_length r) as Hlr. rewrite Hr in Hlr. simpl in Hb.
  destruct Hcase as [(-> & -> & _)|(-> & Hm)].
  - exists []. done.
  - destruct (rawMembers_ok _ _ _ _ (String.length body) Hm) as (raws & -> & Hraws).
    { lia. }
    exists raws. done.
Qed.

Lemma lastAsset_no_key raws :
  Forall (fun k => equalFold "asset" k = false) raws.*1 -> lastAsset raws = EmptyString.
Proof.
  unfold lastAsset.
  assert (Hacc : forall acc,
             Forall (fun k => equalFold "asset" k = false) raws.*1 ->
             fold_left (fun acc kv => if equalFold "asset" (fst kv) then snd kv else acc)
                       raws acc = acc); [|apply Hacc].
  induction raws as [|[k v] raws IH]; intros acc Hall; [done|].
  rewrite fmap_cons in Hall. apply Forall_cons in Hall as [Hk Hall].
  cbn [fold_left fst snd] in *. rewrite Hk. by apply IH.
Qed.

Lemma parse_Object body kvs :
  parse body = Some (Object kvs) ->
  exists rest,
    parseValue (2 * String.length body + 2) 0 (skipSpace body) = Some (Object kvs, rest).
Proof.
  unfold parse.
  destruct (parseValue _ 0 (skipSpace body)) as [[v r]|]; [|done].
  destruct (skipSpace r); [|done]. intros [= ->]. by eexists.
Qed.

(** A string literal of plain bytes stands for these bytes. *)
Lemma scanString_plain d rest :
  plain d = true -> scanString (d +:+ String dquote rest) = Some (d, rest).
Proof.
  induction d as [|c d IH]; intros Hd.
  - done.
  - unfold plain in Hd. cbn [forallb_string] in Hd.
    apply andb_true_iff in Hd as [Hc Hd]. unfold plainByte in Hc.
    apply andb_true_iff in Hc as [Hc H92]. apply andb_true_iff in Hc as [Hc H34].
    apply andb_true_iff in Hc as [H32 H128].
    apply negb_true_iff in H34, H92. apply N.leb_le in H32.
    change (String c d +:+ String dquote rest) with (String c (d +:+ String dquote rest)).
    cbn [scanString]. rewrite H34, H92, H128.
    replace (code c <? 32)%N with false by (symmetry; apply N.ltb_ge; lia).
    rewrite (IH Hd). done.
Qed.

Lemma Decode_patchBody d :
  plain d = true -> Decode (patchBody d) = Some (mkPatchPayload (Some d)).
Proof.
  intros Hd. unfold Decode.
  assert (Hp : parseValue 3 0 (skipSpace (patchBody d))
               = Some (Object [("description"%string, Str d)], EmptyString)).
  { unfold patchBody. simpl. rewrite (scanString_plain d _ Hd). done. }
  assert (Hs : skipSpace (patchBody d) = patchBody d) by done.
  rewrite Hs in *. rewrite (parseValue_enough_fuel _ _ _ _ Hp).
  done.
Qed.

(** Members that are not a description, or are null, leave the pointer of
    a [patchPayload] nil. *)
Lemma decodeObject_no_description kvs (acc : patchPayload * bool) :
  Forall (fun kv => equalFold "description" (fst kv) = false \/ snd kv = Null) kvs ->
  Description (fst acc) = None ->
  Description
    (fst (fold_left (fun acc kv =>
                       let (t', ok') := setField (fst kv) (snd kv) (fst acc) in
                       (t', snd acc && ok'))
                    kvs acc)) = None.
Proof.
  revert acc. induction kvs as [|[k v] kvs IH]; intros acc Hall Hacc; [done|].
  apply Forall_cons in Hall as [Hkv Hall]. cbn [fold_left]. apply IH; [done|].
  cbn [fst snd setField patchPayload_Struct] in *.
  destruct (equalFold "description" k) eqn:Hk.
  - destruct Hkv as [Hkv| ->]; [done|]. done.
  - done.
Qed.

End DecoderFacts.

(** ** The handlers *)

Section RouteExtras.

Context {R : Type} `{Repository R}.

(** X6.  The four documented routes reach their handlers with the
    identifiers of the path: GET and POST on /users/{u}/favourites are
    answered by handleList and handleCreate for the user u, PATCH and
    DELETE on /users/{u}/favourites/{id} by handlePatch and handleDelete
    for u and id, whenever u and id hold no slash and id is not empty. *)
Theorem routeUsers_reaches_the_handlers
    (e : Env) (r : Request) (w : world R) (u id : string) :
  segment u = true -> segment id = true -> id <> EmptyString ->
  routeUsers e (sentTo "GET" (collection u) r) w
  = handleList u e (sentTo "GET" (collection u) r) w
  /\ routeUsers e (sentTo "POST" (collection u) r) w
     = handleCreate u e (sentTo "POST" (collection u) r) w
  /\ routeUsers e (sentTo "PATCH" (item u id) r) w
     = handlePatch u id e (sentTo "PATCH" (item u id) r) w
  /\ routeUsers e (sentTo "DELETE" (item u id) r) w
     = handleDelete u id e (sentTo "DELETE" (item u id) r) w.
Proof.
  intros Hu Hid Hne.
  assert (Hid' : String.eqb id EmptyString = false) by (by apply String.eqb_neq).
  unfold routeUsers. simpl Path. rewrite parts_collection, parts_item by done.
  simpl. rewrite Hid'. done.
Qed.

Lemma limitOf_bounds r : (1 <= limitOf r <= 1000)%Z.
Proof.
  unfold limitOf, defaultLimit, maxLimit. destruct (negb _); [|lia].
  destruct (Strconv.Atoi _) as [n|]; [|lia].
  destruct (Z.gtb_spec n 0); [|lia]. destruct (Z.gtb_spec n 1000); lia.
Qed.

Lemma offsetOf_bounds r : (0 <= offsetOf r)%Z.
Proof.
  unfold offsetOf. destruct (negb _); [|lia].
  destruct (Strconv.Atoi _) as [n|]; [|lia].
  destruct (Z.geb_spec n 0); lia.
Qed.

(** The bounds of the slice expression of [handleList] are always in
    range. *)
Lemma handleList_eq (u : string) (e : Env) (r : Request) (w : world R) :
  handleList u e r w
  = match ListFavourites (order e) u w with
    | (Err err, w') => (writeJSON 400 (ErrorJSON err), w')
    | (Ok l, w') =>
      (writeJSON 200
         (PageJSON (take (Z.to_nat (limitOf r)) (drop (Z.to_nat (offsetOf r)) l))
                   (Z.of_nat (length l)) (limitOf r) (offsetOf r)), w')
    end.
Proof.
  pose proof (limitOf_bounds r) as Hl. pose proof (offsetOf_bounds r) as Ho.
  unfold handleList. destruct (ListFavourites (order e) u w) as [[l|err] w']; [|done].
  set (len := Z.of_nat (length l)). set (limit := limitOf r) in *.
  set (offset := offsetOf r) in *.
  unfold slice. fold len.
  destruct (Z.gtb_spec offset len) as [Hgt|Hle].
  - replace (len + limit >? len)%Z with true by (symmetry; apply Z.gtb_lt; lia).
    replace ((0 <=? len)%Z && (len <=? len)%Z && (len <=? len)%Z) with true
      by (symmetry; rewrite !andb_true_iff, !Z.leb_le; lia).
    rewrite Z.sub_diag. simpl take.
    rewrite (drop_ge l (Z.to_nat offset)) by (unfold len in Hgt; lia).
    by rewrite take_nil.
  - destruct (Z.gtb_spec (offset + limit) len) as [Hgt|Hle'].
    + replace ((0 <=? offset)%Z && (offset <=? len)%Z && (len <=? len)%Z) with true
        by (symmetry; rewrite !andb_true_iff, !Z.leb_le; lia).
      rewrite !take_ge; [done| |]; rewrite length_drop; unfold len in *; lia.
    + replace ((0 <=? offset)%Z && (offset <=? offset + limit)%Z
               && (offset + limit <=? len)%Z) with true
        by (symmetry; rewrite !andb_true_iff, !Z.leb_le; lia).
      by replace (offset + limit - offset)%Z with limit by lia.
Qed.

(** X7.  Whatever the request and the state, routeUsers answers, and with
    one of the statuses 200, 201, 204, 400, 404 and 405: no request makes a
    handler panic or answer with a server error. *)
Theorem routeUsers_answers_with_one_of_six_statuses
    (e : Env) (r : Request) (w : world R) :
  exists c, statusOf (fst (routeUsers e r w)) = Some c
            /\ c ∈ [200; 201; 204; 400; 404; 405]%Z.
Proof.
  assert (H404 : exists c, statusOf [HttpNotFound] = Some c
                           /\ c ∈ [200; 201; 204; 400; 404; 405]%Z).
  { exists 404%Z. split; [done|]. repeat constructor. }
  unfold routeUsers.
  destruct (Strings.Split _ _) as [|p0 [|uid [|p2 rest]]]; try done.
  destruct (negb _ || negb _); [done|].
  set (favID := match rest with f :: _ => f | [] => EmptyString end).
  destruct (String.eqb (Method r) "GET").
  { destruct (negb _); [done|]. rewrite handleList_eq.
    destruct (ListFavourites _ _ _) as [[l|err] w'].
    - exists 200%Z. split; [done|]. repeat constructor.
    - exists 400%Z. split; [done|]. repeat constructor. }
  destruct (String.eqb (Method r) "POST").
  { destruct (negb _); [done|]. unfold handleCreate.
    destruct (DecodeCreate _) as [pl|].
    - destruct (CreateFavourite _ _ _ _ _) as [[f|err] w'].
      + exists 201%Z. split; [done|]. repeat constructor.
      + exists 400%Z. split; [done|]. repeat constructor.
    - exists 400%Z. split; [done|]. repeat constructor. }
  destruct (String.eqb (Method r) "PATCH").
  { destruct (String.eqb favID _); [done|]. unfold handlePatch.
    destruct (Decode _) as [[[d|]]|];
      [|exists 400%Z; split; [done|repeat constructor]..].
    destruct (UpdateFavouriteDescription _ _ _ _) as [[f|err] w'].
    - exists 200%Z. split; [done|]. repeat constructor.
    - destruct (String.eqb (Error err) _).
      + exists 400%Z. split; [done|]. repeat constructor.
      + exists 404%Z. split; [done|]. repeat constructor. }
  destruct (String.eqb (Method r) "DELETE").
  { destruct (String.eqb favID _); [done|]. unfold handleDelete.
    destruct (DeleteFavourite _ _ _) as [[f|err] w'].
    - exists 204%Z. split; [done|]. repeat constructor.
    - destruct (String.eqb (Error err) _).
      + exists 400%Z. split; [done|]. repeat constructor.
      + exists 404%Z. split; [done|]. repeat constructor. }
  exists 405%Z. split; [done|]. repeat constructor.
Qed.

(** X9.  handleList never runs into a slice that is out of range: it
    answers 400 with the error of the service, or 200 with the page that
    skips the first offset favourites of the listing and holds at most
    limit of the next ones, together with the length of the whole listing.
    The limit it applies lies between 1 and 1000 and the offset is not
    negative, whatever the query holds. *)
Theorem handleList_serves_a_page
    (u : string) (e : Env) (r : Request) (w : world R) :
  (1 <= limitOf r <= 1000)%Z /\ (0 <= offsetOf r)%Z
  /\ handleList u e r w
     = match ListFavourites (order e) u w with
       | (Err err, w') => (writeJSON 400 (ErrorJSON err), w')
       | (Ok l, w') =>
         (writeJSON 200
            (PageJSON (take (Z.to_nat (limitOf r)) (drop (Z.to_nat (offsetOf r)) l))
                      (Z.of_nat (length l)) (limitOf r) (offsetOf r)), w')
       end.
Proof.
  split; [apply limitOf_bounds|]. split; [apply offsetOf_bounds|]. apply handleList_eq.
Qed.

(** X12.  A POST whose body is a JSON object without a member asset (in
    any spelling of the letters' case) is answered 400 with the error
    invalid asset json, for a valid user, and changes nothing. *)
Theorem handleCreate_requires_an_asset
    (u : string) (e : Env) (r : Request) (w : world R) (kvs : list (string * value)) :
  identity_rule u = true ->
  parse (Body r) = Some (Object kvs) ->
  Forall (fun kv => equalFold "asset" (fst kv) = false) kvs ->
  handleCreate u e r w = (writeJSON 400 (ErrorJSON ErrInvalidAssetJSON), w).
Proof.
  intros Hu Hp Hall. apply parse_Object in Hp as [rest Hp].
  destruct (DecodeCreate_Object _ _ _ Hp) as (raws & Hd & Hkeys).
  unfold handleCreate. rewrite Hd. rewrite lastAsset_no_key.
  - unfold CreateFavourite. rewrite ValidateUserID_identity_rule, Hu. done.
  - rewrite Hkeys. by apply Forall_fmap.
Qed.

(** X13.  A PATCH whose body is a JSON object in which every member is
    either not a description or null is answered 400 with the message
    description is required, and changes nothing. *)
Theorem handlePatch_requires_a_description
    (u id : string) (e : Env) (r : Request) (w : world R) (kvs : list (string * value)) :
  parse (Body r) = Some (Object kvs) ->
  Forall (fun kv => equalFold "description" (fst kv) = false \/ snd kv = Null) kvs ->
  handlePatch u id e r w = (writeJSON 400 (MessageJSON "description is required"), w).
Proof.
  intros Hp Hall. apply parse_Object in Hp as [rest Hp].
  unfold handlePatch, Decode. rewrite Hp.
  pose proof (decodeObject_no_description kvs (zero, true) Hall eq_refl) as Hd.
  unfold decodeObject.
  destruct (fold_left _ kvs (zero, true)) as [[d] ok]. simpl in Hd. subst d.
  by destruct ok.
Qed.

End RouteExtras.

Section RouteExamples.

Lemma X6_witness :
  segment "kostas" = true /\ segment "abcdefghijkl" = true
  /\ "abcdefghijkl"%string <> EmptyString
  /\ routeUsers (testEnv draws1 11%Z)
       (sentTo "GET" (collection "kostas") (get EmptyString)) world1
     = handleList "kostas" (testEnv draws1 11%Z)
         (sentTo "GET" (collection "kostas") (get EmptyString)) world1
  /\ routeUsers (testEnv draws1 11%Z)
       (sentTo "POST" (collection "kostas") (get EmptyString)) world1
     = handleCreate "kostas" (testEnv draws1 11%Z)
         (sentTo "POST" (collection "kostas") (get EmptyString)) world1
  /\ routeUsers (testEnv draws1 11%Z)
       (sentTo "PATCH" (item "kostas" "abcdefghijkl") (get EmptyString)) world1
     = handlePatch "kostas" "abcdefghijkl" (testEnv draws1 11%Z)
         (sentTo "PATCH" (item "kostas" "abcdefghijkl") (get EmptyString)) world1
  /\ routeUsers (testEnv draws1 11%Z)
       (sentTo "DELETE" (item "kostas" "abcdefghijkl") (get EmptyString)) world1
     = handleDelete "kostas" "abcdefghijkl" (testEnv draws1 11%Z)
         (sentTo "DELETE" (item "kostas" "abcdefghijkl") (get EmptyString)) world1.
Proof.
  split; [reflexivity|]. split; [reflexivity|]. split; [discriminate|].
  apply (routeUsers_reaches_the_handlers (testEnv draws1 11%Z) (get EmptyString) world1
           "kostas" "abcdefghijkl"); [reflexivity|reflexivity|discriminate].
Defined.

Lemma X12_witness :
  identity_rule "kostas" = true
  /\ parse (Body (post "/users/kostas/favourites" (js "{'Description':'d','n':[1,{}]}")))
     = Some (Object [("Description"%string, Str "d");
                     ("n"%string,
                      Array [Number (Strconv.mkNum false "1" EmptyString None); Object []])])
  /\ handleCreate "kostas" (testEnv draws1 11%Z)
       (post "/users/kostas/favourites" (js "{'Description':'d','n':[1,{}]}")) world1
     = (writeJSON 400 (ErrorJSON ErrInvalidAssetJSON), world1).
Proof.
  split; [reflexivity|]. split; [vm_compute; reflexivity|].
  eapply (handleCreate_requires_an_asset "kostas");
    [reflexivity|vm_compute; reflexivity|repeat constructor].
Defined.

Lemma X13_witness :
  parse (Body (patch "/users/kostas/favourites/abcdefghijkl"
                 (js "{'text':'new','DESCRIPTION':null}")))
  = Some (Object [("text"%string, Str "new"); ("DESCRIPTION"%string, Null)])
  /\ handlePatch "kostas" "abcdefghijkl" (testEnv draws1 11%Z)
       (patch "/users/kostas/favourites/abcdefghijkl"
          (js "{'text':'new','DESCRIPTION':null}")) world1
     = (writeJSON 400 (MessageJSON "description is required"), world1).
Proof.
  split; [vm_compute; reflexivity|].
  eapply (handlePatch_requires_a_description "kostas" "abcdefghijkl");
    [vm_compute; reflexivity|].
  constructor; [left; reflexivity|]. constructor; [right; reflexivity|]. constructor.
Defined.

End RouteExamples.

Section StoreHandlers.

(** X8.  Only POST, PATCH and DELETE change anything: routeUsers leaves
    the favourites and the repository as they are for every request with
    another method, a GET included. *)
Theorem routeUsers_changes_nothing_unless_POST_PATCH_DELETE
    (e : Env) (r : Request) (w : world InMemoryRepo) :
  Method r <> "POST"%string -> Method r <> "PATCH"%string -> Method r <> "DELETE"%string ->
  snd (routeUsers e r w) = w.
Proof.
  intros Hpost Hpatch Hdel.
  apply String.eqb_neq in Hpost, Hpatch, Hdel.
  unfold routeUsers.
  destruct (Strings.Split _ _) as [|p0 [|uid [|p2 rest]]]; try done.
  destruct (negb _ || negb _); [done|].
  rewrite Hpost, Hpatch, Hdel.
  destruct (String.eqb (Method r) "GET"); [|done].
  destruct (negb _); [done|]. rewrite handleList_eq.
  unfold ListFavourites. destruct (negb _); [done|].
  destruct (List_ok (order e) uid w) as (l & -> & _). done.
Qed.

Lemma X8_witness :
  Method (get "/users/kostas/favourites") <> "POST"%string
  /\ Method (get "/users/kostas/favourites") <> "PATCH"%string
  /\ Method (get "/users/kostas/favourites") <> "DELETE"%string
  /\ snd (routeUsers (testEnv draws1 11%Z) (get "/users/kostas/favourites") world2) = world2.
Proof.
  split; [discriminate|]. split; [discriminate|]. split; [discriminate|].
  apply (routeUsers_changes_nothing_unless_POST_PATCH_DELETE (testEnv draws1 11%Z)
           (get "/users/kostas/favourites") world2); discriminate.
Defined.

(** X10.  A favourite that handleCreate has answered 201 for is the first
    of the page that handleList then serves for the user at offset 0,
    provided the clock read at its creation is later than the creation
    times of the favourites the user had. *)
Theorem a_new_favourite_heads_the_list
    (cs : list call) (u : string) (e e2 : Env) (r r2 : Request)
    (p : loc) (w1 : world InMemoryRepo) :
  handleCreate u e r (runs cs emptyWorld) = (writeJSON 201 (FavouriteJSON p), w1) ->
  (forall id q, fst (Get u id (runs cs emptyWorld)) = Ok q ->
                (CreatedAt (deref (objects (runs cs emptyWorld)) q) < clock e)%Z) ->
  offsetOf r2 = 0%Z ->
  exists rest total,
    handleList u e2 r2 w1
    = (writeJSON 200 (PageJSON (p :: rest) total (limitOf r2) 0), w1).
Proof.
  pose proof (runs_consistent cs emptyWorld consistent_empty) as [Ha _].
  set (w := runs cs emptyWorld) in *.
  intros Hc Hold Hoff.
  unfold handleCreate in Hc.
  destruct (DecodeCreate (Body r)) as [[raw]|]; [|done]. cbn [Decoder.Asset] in Hc.
  destruct (CreateFavourite (draws e) (clock e) u raw w) as [[q|err] w'] eqn:Hcf; [|done].
  injection Hc as -> ->.
  apply CreateFavourite_inv in Hcf as (t & desc & Hv & _ & -> & ->).
  set (w1 := created (draws e) (clock e) u raw t desc w).
  set (p := length (objects w)).
  rewrite handleList_eq. unfold ListFavourites. rewrite Hv. cbn [negb].
  destruct (List_ok (order e2) u w1) as (l & -> & Hperm & Hsorted).
  assert (Hp : p ∈ l).
  { rewrite Hperm. apply stored_Get. exists (newID (draws e)).
    apply Get_lookup. unfold w1. rewrite userMap_created, decide_True by done.
    by rewrite lookup_insert_eq. }
  assert (Hnew : CreatedAt (deref (objects w1) p) = clock e).
  { unfold w1, p. cbn [created objects]. by rewrite deref_alloc. }
  assert (Holder : forall x, x ∈ l -> x <> p ->
                             (CreatedAt (deref (objects w1) x) < clock e)%Z).
  { intros x Hx Hne. rewrite Hperm in Hx. apply stored_Get in Hx as [id Hg].
    apply Get_lookup in Hg. unfold w1 in Hg. rewrite userMap_created in Hg.
    rewrite decide_True in Hg by done.
    destruct (decide (id = newID (draws e))) as [->|Hid].
    - rewrite lookup_insert_eq in Hg. by injection Hg as <-.
    - rewrite lookup_insert_ne in Hg by done. apply Get_lookup in Hg.
      destruct (Ha _ _ _ Hg) as [Hlt _].
      unfold w1. cbn [created objects]. rewrite deref_app_l by done. by eapply Hold. }
  destruct l as [|x l']; [by apply elem_of_nil in Hp|].
  assert (Hx : x = p).
  { destruct (decide (x = p)) as [|Hne]; [done|]. exfalso.
    apply elem_of_cons in Hp as [Hp|Hp]; [done|].
    apply StronglySorted_inv in Hsorted as [_ Hall].
    rewrite Forall_forall in Hall. specialize (Hall p Hp). cbn beta in Hall.
    rewrite Hnew in Hall. specialize (Holder x (list_elem_of_here _ _) Hne). lia. }
  subst x. rewrite Hoff. cbn [Z.to_nat drop].
  pose proof (limitOf_bounds r2) as Hl.
  destruct (Z.to_nat (limitOf r2)) as [|n] eqn:Hn; [lia|].
  cbn [take]. by eexists _, _.
Qed.

Lemma X10_witness :
  handleCreate "kostas" (testEnv draws1 11%Z) (post "/users/kostas/favourites" chartBody)
    (runs oneCreate emptyWorld)
  = (writeJSON 201 (FavouriteJSON 1),
     snd (handleCreate "kostas" (testEnv draws1 11%Z)
            (post "/users/kostas/favourites" chartBody) (runs oneCreate emptyWorld)))
  /\ offsetOf (get "/users/kostas/favourites") = 0%Z
  /\ exists rest total,
       handleList "kostas" (testEnv draws0 12%Z) (get "/users/kostas/favourites")
         (snd (handleCreate "kostas" (testEnv draws1 11%Z)
                 (post "/users/kostas/favourites" chartBody) (runs oneCreate emptyWorld)))
       = (writeJSON 200
            (PageJSON (1 :: rest) total (limitOf (get "/users/kostas/favourites")) 0),
          snd (handleCreate "kostas" (testEnv draws1 11%Z)
                 (post "/users/kostas/favourites" chartBody) (runs oneCreate emptyWorld))).
Proof.
  split; [vm_compute; reflexivity|]. split; [reflexivity|].
  apply (a_new_favourite_heads_the_list oneCreate "kostas" (testEnv draws1 11%Z)
           (testEnv draws0 12%Z) (post "/users/kostas/favourites" chartBody)).
  - vm_compute. reflexivity.
  - intros id q Hg.
    destruct (runs_consistent oneCreate emptyWorld consistent_empty) as [Ha _].
    destruct (Ha _ _ _ Hg) as [Hlt _]. vm_compute in Hlt.
    destruct q as [|q]; [vm_compute; reflexivity|lia].
  - reflexivity.
Defined.

(** X11.  handleCreate answers 201 or 400 and nothing else.  A 400 leaves
    everything as it was.  A 201 comes with exactly one new favourite: its
    asset is the text that the body holds under asset, which is well-formed
    JSON; its identifier and time are those drawn and read during the
    request; and Get finds it under the user and that identifier. *)
Theorem handleCreate_answers_201_or_400
    (u : string) (e : Env) (r : Request) (w : world InMemoryRepo) :
  (exists v, handleCreate u e r w = (writeJSON 400 v, w))
  \/ (exists raw t desc w',
        handleCreate u e r w = (writeJSON 201 (FavouriteJSON (length (objects w))), w')
        /\ DecodeCreate (Body r) = Some (mkCreatePayload raw)
        /\ identity_rule u = true
        /\ validateAsset raw = Ok (t, desc)
        /\ parse raw <> None
        /\ w' = created (draws e) (clock e) u raw t desc w
        /\ deref (objects w') (length (objects w))
           = mkFavourite (newID (draws e)) t desc raw (clock e)
        /\ fst (Get u (newID (draws e)) w') = Ok (length (objects w))).
Proof.
  unfold handleCreate. destruct (DecodeCreate (Body r)) as [[raw]|] eqn:Hd;
    [|left; by eexists].
  cbn [Decoder.Asset].
  destruct (CreateFavourite (draws e) (clock e) u raw w) as [[p|err] w'] eqn:Hc.
  - right. apply CreateFavourite_inv in Hc as (t & desc & Hv & Ha & -> & ->).
    exists raw, t, desc, (created (draws e) (clock e) u raw t desc w).
    split; [done|]. split; [done|].
    split; [by rewrite <- ValidateUserID_identity_rule|]. split; [done|].
    split.
    { apply validateAsset_kind in Ha as [Ht _].
      apply declaredType_Some in Ht as (pr & Hpr & _).
      unfold Unmarshal in Hpr. by destruct (parse raw). }
    split; [done|]. split; [apply deref_alloc|].
    apply Get_lookup. rewrite userMap_created. rewrite decide_True by done.
    by rewrite lookup_insert_eq.
  - left. apply CreateFavourite_err in Hc as ->. by eexists.
Qed.

(** X14.  A PATCH with the body that holds the one member description,
    with a value of plain bytes between double quotes, on a favourite that
    Get finds for a valid user, is answered 200 with that favourite; its
    description is then the value, its other fields and all other
    favourites are as before, and the repository is unchanged. *)
Theorem handlePatch_sets_the_description
    (cs : list call) (u id d : string) (p : loc) (e : Env) (r : Request) :
  identity_rule u = true -> blank id = false ->
  plain d = true -> Body r = patchBody d ->
  fst (Get u id (runs cs emptyWorld)) = Ok p ->
  exists w',
    handlePatch u id e r (runs cs emptyWorld) = (writeJSON 200 (FavouriteJSON p), w')
    /\ FavDescription (deref (objects w') p) = d
    /\ upToDescription (deref (objects (runs cs emptyWorld)) p) (deref (objects w') p)
    /\ (forall q, q <> p ->
                  deref (objects w') q = deref (objects (runs cs emptyWorld)) q)
    /\ repo w' = repo (runs cs emptyWorld).
Proof.
  pose proof (runs_consistent cs emptyWorld consistent_empty) as [Ha _].
  set (w := runs cs emptyWorld) in *.
  intros Hu Hid Hd Hb Hg.
  destruct (Ha _ _ _ Hg) as [Hlt _].
  destruct (Get_data _ _ _ _ Hg) as (m & Hm & Hp).
  unfold handlePatch. rewrite Hb, (Decode_patchBody d Hd).
  unfold UpdateFavouriteDescription. rewrite ValidateUserID_identity_rule, Hu.
  fold (blank id). rewrite Hid. simpl. unfold InMemoryRepo_UpdateDescription.
  rewrite Hm, Hp. eexists. split; [done|]. simpl.
  unfold deref. rewrite list_lookup_insert_eq by done. simpl.
  split; [done|]. split; [by repeat split|]. split; [|done].
  intros q Hq. by rewrite list_lookup_insert_ne.
Qed.

Lemma X14_witness :
  identity_rule "kostas" = true /\ blank "abcdefghijkl" = false
  /\ plain "updated" = true
  /\ Body (patch "/users/kostas/favourites/abcdefghijkl" (js "{'description':'updated'}"))
     = patchBody "updated"
  /\ fst (Get "kostas" "abcdefghijkl" (runs twoCreates emptyWorld)) = Ok 0
  /\ exists w',
       handlePatch "kostas" "abcdefghijkl" (testEnv draws0 12%Z)
         (patch "/users/kostas/favourites/abcdefghijkl" (js "{'description':'updated'}"))
         (runs twoCreates emptyWorld)
       = (writeJSON 200 (FavouriteJSON 0), w')
       /\ FavDescription (deref (objects w') 0) = "updated"%string
       /\ upToDescription (deref (objects (runs twoCreates emptyWorld)) 0)
            (deref (objects w') 0)
       /\ (forall q, q <> 0 ->
                     deref (objects w') q = deref (objects (runs twoCreates emptyWorld)) q)
       /\ repo w' = repo (runs twoCreates emptyWorld).
Proof.
  split; [reflexivity|]. split; [reflexivity|]. split; [reflexivity|].
  split; [reflexivity|]. split; [vm_compute; reflexivity|].
  apply (handlePatch_sets_the_description twoCreates "kostas" "abcdefghijkl" "updated" 0);
    [reflexivity|reflexivity|reflexivity|reflexivity|vm_compute; reflexivity].
Defined.

(** X15.  handleDelete answers in one of three ways.  400 with the error
    invalid path, exactly when the user identifier breaks the identity rule
    or the favourite identifier is blank; 404 with the error not found,
    exactly when the identifiers are in order and Get finds no such
    favourite; in both cases nothing changes.  Otherwise 204 and no body:
    then Get no longer finds the favourite, every other favourite is found
    as before, and no record has changed. *)
Theorem handleDelete_answers_400_404_or_204
    (u id : string) (e : Env) (r : Request) (w : world InMemoryRepo) :
  (handleDelete u id e r w = (writeJSON 400 (ErrorJSON ErrInvalidPath), w)
   /\ (identity_rule u = false \/ blank id = true))
  \/ (handleDelete u id e r w = (writeJSON 404 (ErrorJSON ErrNotFound), w)
      /\ identity_rule u = true /\ blank id = false
      /\ fst (Get u id w) = Err ErrNotFound)
  \/ (exists p w',
        handleDelete u id e r w = ([WriteHeader 204], w')
        /\ identity_rule u = true /\ blank id = false
        /\ fst (Get u id w) = Ok p
        /\ objects w' = objects w
        /\ forall u' id',
             fst (Get u' id' w')
             = if decide (u' = u /\ id' = id) then Err ErrNotFound
               else fst (Get u' id' w)).
Proof.
  unfold handleDelete, DeleteFavourite. rewrite ValidateUserID_identity_rule.
  fold (blank id).
  destruct (identity_rule u); simpl; [|left; split; [done|by left]].
  destruct (blank id); simpl; [left; split; [done|by right]|].
  right. change (InMemoryRepo_Delete u id w) with (Delete u id w).
  rewrite Delete_result. pose proof (Get_userMap u id w) as Hg.
  destruct (userMap (repo w) u !! id) as [p|] eqn:Hl; simpl.
  - right. exists p, (snd (Delete u id w)). split; [done|].
    do 3 (split; [done|]). split; [apply objects_Delete|].
    intros u' id'. rewrite !Get_userMap, userMap_Delete.
    destruct (decide (u' = u)) as [->|Hne].
    + destruct (decide (id' = id)) as [->|Hid].
      * rewrite lookup_delete_eq. by rewrite decide_True.
      * rewrite lookup_delete_ne by done. rewrite decide_False by tauto. done.
    + rewrite decide_False by tauto. done.
  - left. done.
Qed.

End StoreHandlers.

(** ** The tests of the server, run on the model *)

Section ServerTests.

(** [TestHealthz]: status 200 and a body. *)
Example test_Healthz :
  healthz (testEnv draws0 0%Z) (get "/healthz") emptyWorld
  = ([SetHeader "Content-Type" "application/json"; Fprint (js "{'status':'ok'}")],
     emptyWorld)
  /\ statusOf (fst (healthz (testEnv draws0 0%Z) (get "/healthz") emptyWorld)) = Some 200%Z.
Proof. split; reflexivity. Qed.

(** [TestFavouritesCRUD_HTTP]: 201, 200, 200 and 204. *)
Example test_FavouritesCRUD_HTTP :
  routeUsers (testEnv draws0 10%Z) (post "/users/kostas/favourites" createBody) emptyWorld
  = (writeJSON 201 (FavouriteJSON 0), world1)
  /\ ID (deref (objects world1) 0) = "abcdefghijkl"%string
  /\ routeUsers (testEnv draws0 11%Z) (get "/users/kostas/favourites") world1
     = (writeJSON 200 (PageJSON [0] 1 100 0), world1)
  /\ statusOf (fst (routeUsers (testEnv draws0 12%Z)
                      (patch "/users/kostas/favourites/abcdefghijkl"
                         (js "{'description':'updated'}")) world1)) = Some 200%Z
  /\ statusOf (fst (routeUsers (testEnv draws0 13%Z)
                      (delete_ "/users/kostas/favourites/abcdefghijkl")
                      (snd (routeUsers (testEnv draws0 12%Z)
                              (patch "/users/kostas/favourites/abcdefghijkl"
                                 (js "{'description':'updated'}")) world1))))
     = Some 204%Z.
Proof. repeat split; vm_compute; reflexivity. Qed.

(** [TestFavourites_ListPagination_EmptyDefaults] *)
Example test_ListPagination_EmptyDefaults :
  routeUsers (testEnv draws0 10%Z) (get "/users/kostas/favourites") emptyWorld
  = (writeJSON 200 (PageJSON [] 0 100 0), emptyWorld).
Proof. vm_compute. reflexivity. Qed.

(** [TestFavourites_ListPagination_WithData]: of five favourites the
    third and the fourth, newest first. *)
Example test_ListPagination_WithData :
  length (objects fiveCreated) = 5
  /\ routeUsers (testEnv draws0 10%Z) (page2 "/users/kostas/favourites") fiveCreated
     = (writeJSON 200 (PageJSON [2; 1] 5 2 2), fiveCreated).
Proof. split; vm_compute; reflexivity. Qed.

End ServerTests.

(** ** The middleware *)

Section LimiterFacts.

Context {St : Type}.

Lemma Sub_nonneg t u : (0 <= Sub t u)%Z <-> (u <= t)%Z.
Proof. unfold Sub. lia. Qed.

Lemma Sub_antitone t u u' : (u <= u')%Z -> (Sub t u' <= Sub t u)%Z.
Proof. unfold Sub. lia. Qed.

(** One request more keeps the requests that were let through apart. *)
Lemma spaced_step (next : Handler St) rate rl log s e r :
  (0 <= rate)%Z -> spaced rate rl log ->
  spaced rate
    (fst (snd (RateLimiter_Middleware (logged next) e r (rl, (log, s)))))
    (fst (snd (snd (RateLimiter_Middleware (logged next) e r (rl, (log, s)))))).
Proof.
  intros Hrate (Hr & Hlast & Hpairs).
  unfold RateLimiter_Middleware. cbn [fst snd].
  destruct (last rl !! limiterKey r) as [t|] eqn:Ht.
  - destruct (Z.ltb_spec (Sub (arrival e) t) (Middleware.rate rl)) as [Hlt|Hge].
    + done.
    + unfold logged. cbn [fst snd].
      destruct (next e r s) as [out s']. cbn [fst snd].
      rewrite Hr in Hge.
      assert (Hle : (t <= arrival e)%Z) by (apply Sub_nonneg; lia).
      split; [done|]. split.
      * intros e0 r0 Hin. apply elem_of_app in Hin as [Hin|Hin].
        -- destruct (Hlast _ _ Hin) as (t0 & Ht0 & Hle0). cbn [last].
           destruct (decide (limiterKey r0 = limiterKey r)) as [Heq|Hne].
           ++ rewrite Heq, lookup_insert_eq. eexists. split; [done|].
              rewrite Heq, Ht in Ht0. injection Ht0 as <-. lia.
           ++ rewrite lookup_insert_ne by done. by eexists.
        -- apply list_elem_of_singleton in Hin as [= -> ->]. cbn [last].
           rewrite lookup_insert_eq. eexists. split; [done|]. lia.
      * intros i j e1 r1 e2 r2 Hij Hi Hj Hk.
        destruct (decide (j < length log)) as [Hjl|Hjl].
        -- rewrite lookup_app_l in Hi by lia. rewrite lookup_app_l in Hj by lia.
           exact (Hpairs i j e1 r1 e2 r2 Hij Hi Hj Hk).
        -- rewrite lookup_app_r in Hj by lia.
           destruct (j - length log) as [|?] eqn:Hjd; [|done].
           injection Hj as <- <-.
           rewrite lookup_app_l in Hi by lia.
           destruct (Hlast e1 r1) as (t1 & Ht1 & Hle1).
           { by eapply list_elem_of_lookup_2. }
           rewrite Hk, Ht in Ht1. injection Ht1 as <-.
           pose proof (Sub_antitone (arrival e) _ _ Hle1). lia.
  - unfold logged. cbn [fst snd].
    destruct (next e r s) as [out s']. cbn [fst snd].
    split; [done|]. split.
    * intros e0 r0 Hin. apply elem_of_app in Hin as [Hin|Hin].
      -- destruct (Hlast _ _ Hin) as (t0 & Ht0 & Hle0). cbn [last].
         destruct (decide (limiterKey r0 = limiterKey r)) as [Heq|Hne].
         ++ rewrite Heq, Ht in Ht0. done.
         ++ rewrite lookup_insert_ne by done. by eexists.
      -- apply list_elem_of_singleton in Hin as [= -> ->]. cbn [last].
         rewrite lookup_insert_eq. eexists. split; [done|]. lia.
    * intros i j e1 r1 e2 r2 Hij Hi Hj Hk.
      destruct (decide (j < length log)) as [Hjl|Hjl].
      -- rewrite lookup_app_l in Hi by lia. rewrite lookup_app_l in Hj by lia.
         exact (Hpairs i j e1 r1 e2 r2 Hij Hi Hj Hk).
      -- rewrite lookup_app_r in Hj by lia.
         destruct (j - length log) as [|?] eqn:Hjd; [|done].
         injection Hj as <- <-.
         rewrite lookup_app_l in Hi by lia.
         destruct (Hlast e1 r1) as (t1 & Ht1 & Hle1).
         { by eapply list_elem_of_lookup_2. }
         rewrite Hk, Ht in Ht1. done.
Qed.

Lemma spaced_serve (next : Handler St) rate reqs rl log s :
  (0 <= rate)%Z -> spaced rate rl log ->
  spaced rate
    (fst (snd (serve (RateLimiter_Middleware (logged next)) reqs (rl, (log, s)))))
    (fst (snd (snd (serve (RateLimiter_Middleware (logged next)) reqs (rl, (log, s)))))).
Proof.
  intros Hrate. revert rl log s.
  induction reqs as [|[e r] reqs IH]; intros rl log s Hsp; [done|].
  cbn [serve fst snd].
  pose proof (spaced_step next rate rl log s e r Hrate Hsp) as Hstep.
  destruct (RateLimiter_Middleware (logged next) e r (rl, (log, s)))
    as [out [rl1 [log1 s1]]]. cbn [fst snd] in Hstep.
  specialize (IH rl1 log1 s1 Hstep).
  destruct (serve _ reqs (rl1, (log1, s1))) as [outs [rl2 [log2 s2]]]. done.
Qed.

(** A limiter without a rate, before requests that arrive no earlier than
    the times it holds, is not there. *)
Lemma serve_unlimited (next : Handler St) reqs rl s :
  (rate rl <= 0)%Z ->
  inOrderOfArrival reqs ->
  (forall k (t : Time), last rl !! k = Some t ->
     Forall (fun er => (t <= arrival (fst er))%Z) reqs) ->
  fst (serve (RateLimiter_Middleware next) reqs (rl, s)) = fst (serve next reqs s)
  /\ snd (snd (serve (RateLimiter_Middleware next) reqs (rl, s))) = snd (serve next reqs s).
Proof.
  intros Hrate. revert rl s Hrate.
  induction reqs as [|[e r] reqs IH]; intros rl s Hrate Hsorted Hlast; [done|].
  apply StronglySorted_inv in Hsorted as [Hsorted Hhd].
  cbn [serve fst snd]. unfold RateLimiter_Middleware at 1 3. cbn [fst snd].
  assert (Hfree : match last rl !! limiterKey r with
                  | Some t => (Sub (arrival e) t <? rate rl)%Z
                  | None => false
                  end = false).
  { destruct (last rl !! limiterKey r) as [t|] eqn:Ht; [|done].
    apply Z.ltb_ge. specialize (Hlast _ _ Ht).
    apply Forall_cons in Hlast as [Hle _]. cbn [fst] in Hle.
    apply Sub_nonneg in Hle. lia. }
  rewrite Hfree. destruct (next e r s) as [out s1].
  set (rl1 := mkRateLimiter _ _).
  destruct (IH rl1 s1) as [Houts Hst]; [done|done| |].
  { intros k t Hk. unfold rl1 in Hk. cbn [last] in Hk.
    destruct (decide (k = limiterKey r)) as [->|Hne].
    - rewrite lookup_insert_eq in Hk. injection Hk as <-.
      eapply Forall_impl; [exact Hhd|]. by intros [e' r'].
    - rewrite lookup_insert_ne in Hk by done.
      specialize (Hlast _ _ Hk). by apply Forall_cons in Hlast as [_ Hlast]. }
  destruct (serve (RateLimiter_Middleware next) reqs (rl1, s1)) as [outs [rl2 s2]].
  destruct (serve next reqs s1) as [outs' s2']. cbn [fst snd] in *.
  by subst.
Qed.

Lemma wrap64_id z : (- 2 ^ 63 <= z < 2 ^ 63)%Z -> wrap64 z = z.
Proof. intros Hz. unfold wrap64. rewrite Z.mod_small; lia. Qed.

Lemma lowerASCII_nonempty s : s <> EmptyString -> Strings.lowerASCII s <> EmptyString.
Proof. by destruct s. Qed.

Lemma trimFront_spaces back s :
  forallb_string Strings.asciiSpace s = true -> Strings.trimFront back s = EmptyString.
Proof.
  induction s as [|c s IH]; intros Hs; [done|].
  cbn [forallb_string] in Hs. apply andb_true_iff in Hs as [Hc Hs].
  cbn [Strings.trimFront]. rewrite Hc. by apply IH.
Qed.

(** X16.  A limiter with a rate that is not negative keeps the requests of
    one key apart: of the requests that it lets through to the next
    handler, any two that count under the same key arrived at least the
    rate after one another, whatever requests were served and turned down
    in between. *)
Theorem RateLimiter_keeps_the_requests_of_a_key_apart
    (next : Handler St) (rate : Z) (reqs : list (Env * Request)) (s0 : St)
    (i j : nat) (e1 e2 : Env) (r1 r2 : Request) :
  (0 <= rate)%Z ->
  i < j ->
  fst (snd (snd (serve (RateLimiter_Middleware (logged next)) reqs
                   (NewRateLimiter rate, ([], s0))))) !! i = Some (e1, r1) ->
  fst (snd (snd (serve (RateLimiter_Middleware (logged next)) reqs
                   (NewRateLimiter rate, ([], s0))))) !! j = Some (e2, r2) ->
  limiterKey r1 = limiterKey r2 ->
  (rate <= Sub (arrival e2) (arrival e1))%Z.
Proof.
  intros Hrate Hij Hi Hj Hk.
  assert (Hsp : spaced rate (NewRateLimiter rate) []).
  { split; [done|]. split; [intros e r Hin; by apply elem_of_nil in Hin|].
    intros ? ? ? ? ? ? _ Hl. done. }
  destruct (spaced_serve next rate reqs _ _ s0 Hrate Hsp) as (_ & _ & Hpairs).
  exact (Hpairs i j e1 r1 e2 r2 Hij Hi Hj Hk).
Qed.

(** X18.  The limiter stands before the key check, so a request without
    the right key uses up the rate: when it is the first of its limiter
    key, it is answered 401, and a request of the same limiter key that
    arrives within the rate after it is answered 429, with or without the
    right key; the handler behind the two is not run. *)
Theorem unauthorised_requests_use_up_the_rate
    (next : Handler St) (key : string) (rate : Z)
    (e1 e2 : Env) (r1 r2 : Request) (s : St) :
  Strings.TrimSpace key <> EmptyString ->
  Values_Get (Header r1) "X-Api-Key" <> key ->
  limiterKey r2 = limiterKey r1 ->
  (Sub (arrival e2) (arrival e1) < rate)%Z ->
  serve (RateLimiter_Middleware (APIKeyAuth key next)) [(e1, r1); (e2, r2)]
        (NewRateLimiter rate, s)
  = ([[HttpError "unauthorized" 401]; [HttpError "rate limit exceeded" 429]],
     (mkRateLimiter {[limiterKey r1 := arrival e1]} rate, s)).
Proof.
  intros Hkey Hhdr Hk Hlt.
  apply String.eqb_neq in Hkey, Hhdr.
  cbn [serve fst snd]. unfold RateLimiter_Middleware at 1. cbn [fst snd NewRateLimiter last].
  rewrite lookup_empty. unfold APIKeyAuth at 1. rewrite Hkey, Hhdr. cbn [negb].
  unfold RateLimiter_Middleware. cbn [fst snd last Middleware.rate].
  rewrite Hk, lookup_insert_eq.
  apply Z.ltb_lt in Hlt. cbn [NewRateLimiter Middleware.rate]. rewrite Hlt.
  by rewrite insert_empty.
Qed.

(** X19.  With a rate limit in the configuration of zero milliseconds, as
    the test server has it, or of a negative number of them down to
    -9223372036854, the range in which the product with a millisecond stays
    within 64 bits, the limiter that NewServer builds turns no request
    down: requests that arrive in the order of their times get the answers,
    and leave the state, that the handler behind the limiter gives without
    it. *)
Theorem a_rate_limit_of_zero_limits_nothing
    (cfg : Config) (next : Handler St) (reqs : list (Env * Request)) (s : St) :
  (- 9223372036854 <= RateLimitMillis cfg <= 0)%Z ->
  inOrderOfArrival reqs ->
  fst (serve (RateLimiter_Middleware next) reqs (NewServer_limiter cfg, s))
  = fst (serve next reqs s)
  /\ snd (snd (serve (RateLimiter_Middleware next) reqs (NewServer_limiter cfg, s)))
     = snd (serve next reqs s).
Proof.
  intros Hrate Hsorted. apply serve_unlimited; [|done|].
  - unfold NewServer_limiter, NewRateLimiter, Millisecond. cbn [rate].
    rewrite wrap64_id; lia.
  - intros k t Hk. unfold NewServer_limiter in Hk. cbn [NewRateLimiter last] in Hk.
    by rewrite lookup_empty in Hk.
Qed.

(** X20.  CORS compares origins without regard to the case of ASCII
    letters: a request whose Origin header is not empty and equals an
    allowed origin up to the case of its letters gets the four CORS
    headers, with the origin in lower case; a preflight is then answered
    204 without running the next handler, any other request is passed on
    and its answer follows the headers. *)
Theorem CORS_matches_origins_whatever_the_case
    (mapLower : string -> string) (allowed : list string) (next : Handler St)
    (e : Env) (r : Request) (s : St) (o a : string) :
  Values_Get (Header r) "Origin" = o ->
  o <> EmptyString ->
  Strings.isASCII o = true ->
  a ∈ allowed ->
  Strings.isASCII a = true ->
  Strings.lowerASCII a = Strings.lowerASCII o ->
  CORS mapLower allowed next e r s
  = if String.eqb (Method r) "OPTIONS"
    then (corsHeaders (Strings.lowerASCII o) ++ [WriteHeader 204], s)
    else (corsHeaders (Strings.lowerASCII o) ++ fst (next e r s), snd (next e r s)).
Proof.
  intros Ho Hne Hao Hin Haa Hlow.
  assert (Hlo : Strings.ToLower mapLower o = Strings.lowerASCII o).
  { unfold Strings.ToLower. by rewrite Hao. }
  unfold CORS. rewrite Ho, Hlo.
  assert (Hnz : String.eqb (Strings.lowerASCII o) EmptyString = false).
  { apply String.eqb_neq. by apply lowerASCII_nonempty. }
  rewrite Hnz. cbn [negb].
  assert (Hex : existsb (fun x => String.eqb (Strings.lowerASCII o) x || String.eqb x "*")
                        (map (Strings.ToLower mapLower) allowed) = true).
  { apply existsb_exists. exists (Strings.lowerASCII o). split.
    - apply in_map_iff. exists a. split.
      + unfold Strings.ToLower. by rewrite Haa.
      + by apply list_elem_of_In.
    - by rewrite String.eqb_refl. }
  rewrite Hex. fold (corsHeaders (Strings.lowerASCII o)).
  destruct (String.eqb (Method r) "OPTIONS"); [done|].
  by destruct (next e r s).
Qed.

(** X21.  A configuration loaded from an environment in which API_KEY is
    unset, empty or made of ASCII white space only turns authentication
    off: APIKeyAuth with its key is the next handler itself. *)
Theorem blank_API_KEY_turns_authentication_off
    (env : gmap string string) (next : Handler St) :
  forallb_string Strings.asciiSpace (Getenv env "API_KEY") = true ->
  APIKeyAuth (APIKey (fst (LoadConfig env))) next = next.
Proof.
  intros Hsp.
  assert (Hkey : APIKey (fst (LoadConfig env)) = Getenv env "API_KEY").
  { unfold LoadConfig.
    destruct (getEnvInt env "RATE_LIMIT_MS" 50) as [? ?].
    destruct (getEnvInt64 env "MAX_BODY_BYTES" 1048576) as [? ?].
    destruct (getEnvDurationSec env "READ_TIMEOUT" 5) as [? ?].
    destruct (getEnvDurationSec env "WRITE_TIMEOUT" 10) as [? ?].
    destruct (getEnvDurationSec env "IDLE_TIMEOUT" 60) as [? ?].
    cbn [fst APIKey]. unfold getEnv.
    destruct (String.eqb_spec (Getenv env "API_KEY") EmptyString) as [->|_]; done. }
  rewrite Hkey. unfold APIKeyAuth, Strings.TrimSpace.
  rewrite (trimFront_spaces false _ Hsp). done.
Qed.

End LimiterFacts.

Section LimiterKeys.

(** X17.  All requests for the favourites of one user count under one
    limiter key, whatever address they come from and whatever their
    method: the key is the word user, a colon and the user of the path. *)
Theorem the_requests_of_a_user_share_one_limiter_key
    (r : Request) (m u id : string) :
  segment u = true -> u <> EmptyString ->
  segment id = true -> id <> EmptyString ->
  limiterKey (sentTo m (collection u) r) = ("user:" +:+ u)%string
  /\ limiterKey (sentTo m (item u id) r) = ("user:" +:+ u)%string.
Proof.
  intros Hu Hune Hid Hidne. apply String.eqb_neq in Hune.
  unfold limiterKey, parseUserFromPath. cbn [Path sentTo].
  rewrite parts_collection, parts_item by done.
  cbn [String.eqb]. simpl. by rewrite Hune.
Qed.

Lemma X17_witness :
  segment "kostas" = true /\ "kostas"%string <> EmptyString
  /\ segment "abcdefghijkl" = true /\ "abcdefghijkl"%string <> EmptyString
  /\ limiterKey (sentTo "PATCH" (collection "kostas") (get EmptyString))
     = ("user:" +:+ "kostas")%string
  /\ limiterKey (sentTo "PATCH" (item "kostas" "abcdefghijkl") (get EmptyString))
     = ("user:" +:+ "kostas")%string.
Proof.
  split; [reflexivity|]. split; [discriminate|].
  split; [reflexivity|]. split; [discriminate|].
  apply (the_requests_of_a_user_share_one_limiter_key (get EmptyString) "PATCH"
           "kostas" "abcdefghijkl"); [reflexivity|discriminate|reflexivity|discriminate].
Defined.

Lemma X16_witness :
  (0 <= ms 50)%Z /\ 0 < 1
  /\ fst (snd (snd (serve (RateLimiter_Middleware (logged counting)) threeRequests
                      (NewRateLimiter (ms 50), ([], 0))))) !! 0
     = Some (at_ (ms 0), get "/users/kostas/favourites")
  /\ fst (snd (snd (serve (RateLimiter_Middleware (logged counting)) threeRequests
                      (NewRateLimiter (ms 50), ([], 0))))) !! 1
     = Some (at_ (ms 60), get "/users/kostas/favourites/")
  /\ limiterKey (get "/users/kostas/favourites") = limiterKey (get "/users/kostas/favourites/")
  /\ (ms 50 <= Sub (arrival (at_ (ms 60))) (arrival (at_ (ms 0))))%Z.
Proof.
  split; [vm_compute; discriminate|]. split; [lia|].
  split; [vm_compute; reflexivity|]. split; [vm_compute; reflexivity|].
  split; [vm_compute; reflexivity|].
  apply (RateLimiter_keeps_the_requests_of_a_key_apart counting (ms 50) threeRequests 0
           0 1 (at_ (ms 0)) (at_ (ms 60))
           (get "/users/kostas/favourites") (get "/users/kostas/favourites/"));
    [vm_compute; discriminate|lia|vm_compute; reflexivity|vm_compute; reflexivity
    |vm_compute; reflexivity].
Defined.

Lemma X18_witness :
  Strings.TrimSpace "secret" <> EmptyString
  /\ Values_Get (Header (get "/users/kostas/favourites")) "X-Api-Key" <> "secret"%string
  /\ limiterKey (withKey "secret" (get "/users/kostas/favourites"))
     = limiterKey (get "/users/kostas/favourites")
  /\ (Sub (arrival (at_ (ms 10))) (arrival (at_ (ms 0))) < ms 50)%Z
  /\ serve (RateLimiter_Middleware (APIKeyAuth "secret" counting))
       [(at_ (ms 0), get "/users/kostas/favourites");
        (at_ (ms 10), withKey "secret" (get "/users/kostas/favourites"))]
       (NewRateLimiter (ms 50), 0)
     = ([[HttpError "unauthorized" 401]; [HttpError "rate limit exceeded" 429]],
        (mkRateLimiter {[limiterKey (get "/users/kostas/favourites") := arrival (at_ (ms 0))]}
           (ms 50), 0)).
Proof.
  split; [vm_compute; discriminate|]. split; [vm_compute; discriminate|].
  split; [vm_compute; reflexivity|]. split; [vm_compute; reflexivity|].
  apply (unauthorised_requests_use_up_the_rate counting "secret" (ms 50)
           (at_ (ms 0)) (at_ (ms 10)) (get "/users/kostas/favourites")
           (withKey "secret" (get "/users/kostas/favourites")) 0);
    [vm_compute; discriminate|vm_compute; discriminate|vm_compute; reflexivity
    |vm_compute; reflexivity].
Defined.

Lemma X19_witness :
  (- 9223372036854 <= RateLimitMillis testConfig <= 0)%Z
  /\ inOrderOfArrival threeRequests
  /\ fst (serve (RateLimiter_Middleware counting) threeRequests
            (NewServer_limiter testConfig, 0))
     = fst (serve counting threeRequests 0)
  /\ snd (snd (serve (RateLimiter_Middleware counting) threeRequests
                 (NewServer_limiter testConfig, 0)))
     = snd (serve counting threeRequests 0).
Proof.
  assert (Hrate : (- 9223372036854 <= RateLimitMillis testConfig <= 0)%Z).
  { split; vm_compute; discriminate. }
  assert (Hsorted : inOrderOfArrival threeRequests).
  { repeat constructor; vm_compute; discriminate. }
  split; [exact Hrate|]. split; [exact Hsorted|].
  exact (a_rate_limit_of_zero_limits_nothing testConfig counting threeRequests 0
           Hrate Hsorted).
Defined.

Lemma X20_witness :
  Values_Get (Header (fromOrigin "HTTP://LocalHost:8081" (get "/healthz"))) "Origin"
  = "HTTP://LocalHost:8081"%string
  /\ "HTTP://LocalHost:8081"%string <> EmptyString
  /\ Strings.isASCII "HTTP://LocalHost:8081" = true
  /\ "http://localhost:8081"%string ∈ ["http://localhost:8081"%string]
  /\ Strings.isASCII "http://localhost:8081" = true
  /\ Strings.lowerASCII "http://localhost:8081" = Strings.lowerASCII "HTTP://LocalHost:8081"
  /\ CORS (fun s => s) ["http://localhost:8081"%string] counting (at_ 0%Z)
       (fromOrigin "HTTP://LocalHost:8081" (get "/healthz")) 0
     = if String.eqb (Method (fromOrigin "HTTP://LocalHost:8081" (get "/healthz"))) "OPTIONS"
       then (corsHeaders (Strings.lowerASCII "HTTP://LocalHost:8081") ++ [WriteHeader 204], 0)
       else (corsHeaders (Strings.lowerASCII "HTTP://LocalHost:8081")
               ++ fst (counting (at_ 0%Z)
                         (fromOrigin "HTTP://LocalHost:8081" (get "/healthz")) 0),
             snd (counting (at_ 0%Z)
                    (fromOrigin "HTTP://LocalHost:8081" (get "/healthz")) 0)).
Proof.
  split; [vm_compute; reflexivity|]. split; [discriminate|]. split; [reflexivity|].
  split; [constructor|]. split; [reflexivity|]. split; [reflexivity|].
  apply (CORS_matches_origins_whatever_the_case (fun s => s)
           ["http://localhost:8081"%string] counting (at_ 0%Z)
           (fromOrigin "HTTP://LocalHost:8081" (get "/healthz")) 0
           "HTTP://LocalHost:8081" "http://localhost:8081");
    [vm_compute; reflexivity|discriminate|reflexivity|constructor|reflexivity|reflexivity].
Defined.

Lemma X21_witness :
  forallb_string Strings.asciiSpace
    (Getenv (<["API_KEY" := "  "%string]> (∅ : gmap string string)) "API_KEY") = true
  /\ APIKeyAuth (APIKey (fst (LoadConfig (<["API_KEY" := "  "%string]> ∅)))) counting
     = counting.
Proof.
  split; [vm_compute; reflexivity|].
  apply (blank_API_KEY_turns_authentication_off (<["API_KEY" := "  "%string]> ∅) counting).
  vm_compute. reflexivity.
Defined.

End LimiterKeys.

(** ** The configuration *)

Section ConfigExtras.

Lemma LoadConfig_ext env1 env2 :
  (forall k, Getenv env1 k = Getenv env2 k) -> LoadConfig env1 = LoadConfig env2.
Proof.
  intros Hk. unfold LoadConfig, getEnv, getEnvBool, getEnvInt, getEnvInt64,
    getEnvDurationSec. by rewrite !Hk.
Qed.

Lemma Atoi_nonempty v n : Strconv.Atoi v = Some n -> String.eqb v EmptyString = false.
Proof. by destruct v. Qed.

(** X22.  A variable that is set to the empty string counts as one that is
    not set: LoadConfig gives the same configuration and the same log
    lines for both environments, whichever variable it is. *)
Theorem an_empty_variable_counts_as_unset (env : gmap string string) (k : string) :
  LoadConfig (<[k := EmptyString]> env) = LoadConfig (delete k env).
Proof.
  apply LoadConfig_ext. intros k'. unfold Getenv.
  destruct (decide (k' = k)) as [->|Hne].
  - by rewrite lookup_insert_eq, lookup_delete_eq.
  - by rewrite lookup_insert_ne, lookup_delete_ne.
Qed.

(** X23.  A timeout variable that holds a whole number of seconds of a
    size up to 9223372036 gives that many seconds as a duration, exactly
    and without a log line; negative numbers are taken as they are. *)
Theorem getEnvDurationSec_counts_seconds
    (env : gmap string string) (key v : string) (def n : Z) :
  Getenv env key = v ->
  Strconv.Atoi v = Some n ->
  (- 9223372036 <= n <= 9223372036)%Z ->
  getEnvDurationSec env key def = ((n * 1000000000)%Z, []).
Proof.
  intros Hv Ha Hn. unfold getEnvDurationSec. rewrite Hv, (Atoi_nonempty v n Ha), Ha.
  cbn [negb]. unfold Second. rewrite wrap64_id; [done|lia].
Qed.

Lemma X23_witness :
  Getenv (<["READ_TIMEOUT" := "-30"%string]> ∅) "READ_TIMEOUT" = "-30"%string
  /\ Strconv.Atoi "-30" = Some (-30)%Z
  /\ (- 9223372036 <= -30 <= 9223372036)%Z
  /\ getEnvDurationSec (<["READ_TIMEOUT" := "-30"%string]> ∅) "READ_TIMEOUT" 5
     = ((-30 * 1000000000)%Z, []).
Proof.
  split; [vm_compute; reflexivity|]. split; [vm_compute; reflexivity|].
  split; [lia|].
  apply (getEnvDurationSec_counts_seconds (<["READ_TIMEOUT" := "-30"%string]> ∅)
           "READ_TIMEOUT" "-30" 5 (-30)%Z); [vm_compute; reflexivity|vm_compute; reflexivity|lia].
Defined.

(** The defaults of an empty environment; and an environment with a rate
    limit that is no number, the logging switched off, and a read timeout
    that is too large for a duration and wraps around. *)
Example test_LoadConfig :
  LoadConfig ∅
  = (mkConfig "8080" "development" true 50 1048576 EmptyString
       (5 * Second) (10 * Second) (60 * Second) "info",
     [ConfigLoaded (mkConfig "8080" "development" true 50 1048576 EmptyString
                      (5 * Second) (10 * Second) (60 * Second) "info")])
  /\ fst (LoadConfig (<["RATE_LIMIT_MS" := "fast"%string]>
                        (<["ENABLE_HTTP_LOG" := "off"%string]>
                           (<["READ_TIMEOUT" := "9223372037"%string]> ∅))))
     = mkConfig "8080" "development" false 50 1048576 EmptyString
         (-9223372036709551616) (10 * Second) (60 * Second) "info".
Proof. split; vm_compute; reflexivity. Qed.

End ConfigExtras.
